(** * Empty-shelf detection engine: a shallow embedding of the detectors

    The development follows three detector classes of the repository:

    - [ImprovedYOLODetector]   (improved_yolo_detector.py),
    - [YOLOv8mShelfDetector]   (yolo8m_shelf_detector.py),
    - [EnhancedShelfDetector]  (enhanced_detector.py).

    Conventions of the embedding.

    - A Python [float] is an exact rational ([Q]); numeric results are
      compared with [==].  The builtins [min(a, b)] and [max(a, b)] are
      [Qmin a b] and [Qmax a b]: both return their first argument unless
      the second is strictly smaller (resp. larger), as the builtins do.
    - A dictionary keyed by shelf name is a [gmap string _]; indexing a
      missing key ([d[k]]) raises [KeyError], which is [None] in the
      option monad; [d.get(k, v)] is [default v (d !! k)].
    - The instance attributes of a detector form a record, threaded
      explicitly through every method that mutates them.
    - The feature extractors are calls into OpenCV and NumPy on the pixel
      buffer; they enter as Section variables, so every statement holds
      for whatever the extractors return.
    - [time.time()] is the argument [now] of the entry points. *)

From Stdlib Require Import Ascii QArith Qminmax Lqa.
From stdpp Require Import base option list gmap strings.

Local Open Scope Q_scope.

(** ** Numbers *)

Definition Qltb (x y : Q) : bool :=
  match x ?= y with Lt => true | _ => false end.

Definition Qleb (x y : Q) : bool :=
  match x ?= y with Gt => false | _ => true end.

Definition Qnat (n : nat) : Q := inject_Z (Z.of_nat n).

(** [sum(xs)] for a list of floats. *)
Definition Qsum (xs : list Q) : Q := foldr Qplus 0 xs.

(** [np.mean(xs)] for a non-empty list of floats. *)
Definition Qmean (xs : list Q) : Q := Qsum xs / Qnat (length xs).

(** [sum(flags)] for a list of booleans. *)
Definition count_true (flags : list bool) : nat :=
  length (filter (λ b, b = true) flags).

(** [xs[-n:]] for [0 < n]. *)
Definition lastn {A} (n : nat) (xs : list A) : list A :=
  drop (length xs - n) xs.

(** ** Regions of interest

    A region is a NumPy array: [shape0] rows, [shape1] columns, an optional
    channel axis and the 8-bit samples.  [None] stands for Python's [None]. *)

Record Image := mkImage {
  shape0 : nat;
  shape1 : nat;
  channels : option nat;
  pixels : list N
}.

Definition size (roi : Image) : nat :=
  (shape0 roi * shape1 roi * default 1 (channels roi))%nat.

(** ** The analysis dictionaries read by the aggregators *)

Record Uniformity := mkUniformity {
  total_variance : Q;
  uniformity_score : Q;
  is_uniform : bool
}.

Record Objects := mkObjects {
  meaningful_object_count : nat;
  object_density : Q;
  edge_density : Q
}.

Record Color := mkColor {
  color_richness : Q;
  has_diverse_colors : bool
}.

Record Texture := mkTexture {
  texture_score : Q;
  has_texture : bool
}.

Record Structure := mkStructure {
  structure_score : Q;
  has_structure : bool
}.

Inductive VisualState :=
  | CRITICALLY_EMPTY | MOSTLY_EMPTY | PARTIALLY_EMPTY
  | LOW_STOCK | WELL_STOCKED | UNCERTAIN.

Inductive AlertLevel := NONE | CRITICAL | HIGH | MEDIUM | LOW.

Inductive Trend :=
  | UNKNOWN | IMPROVING | DECLINING | STABLE | EMPTYING | FILLING.

(** [_determine_visual_state], identical in both YOLO detectors. *)
Definition _determine_visual_state (confidence : Q) (is_empty : bool)
  : VisualState :=
  if negb is_empty then WELL_STOCKED
  else if Qleb 0.85 confidence then CRITICALLY_EMPTY
  else if Qleb 0.70 confidence then MOSTLY_EMPTY
  else if Qleb 0.55 confidence then PARTIALLY_EMPTY
  else if Qleb 0.40 confidence then LOW_STOCK
  else UNCERTAIN.

(** ** ImprovedYOLODetector (improved_yolo_detector.py)

    Record fields that share a key across the Python dictionaries carry a
    prefix: [c_] for the aggregator's [confidence_data], [h_] for a
    [detection_record] kept in the history, [r_] for the dictionary that
    [analyze_shelf_region] returns. *)

Module ImprovedYOLODetector.

(** The entries of [self.detection_params] that the aggregator reads. *)
Record DetectionParams := mkParams {
  supermarket_mode : bool;
  video_compression_factor : Q;
  lighting_variance_threshold : Q;
  edge_density_threshold : Q
}.

Record Analysis := mkAnalysis {
  uniformity : Uniformity;
  objects : Objects;
  color : Color;
  texture : Texture;
  structure : Structure
}.

Record MethodScores := mkScores {
  uniformity_analysis : Q;
  object_detection : Q;
  color_analysis : Q;
  texture_analysis : Q;
  structure_analysis : Q
}.

Record ConfidenceData := mkConfidence {
  c_is_empty : bool;
  c_empty_confidence : Q;
  c_fullness_score : Q;
  c_method_scores : MethodScores;
  c_empty_indicators : nat;
  c_supermarket_indicators : nat
}.

Record DetectionRecord := mkRecord {
  h_timestamp : Q;
  h_is_empty : bool;
  h_empty_confidence : Q;
  h_fullness_score : Q;
  h_visual_state : VisualState;
  h_alert_level : AlertLevel;
  h_analysis : Analysis;
  h_frame_number : nat
}.

Record StabilityData := mkStability {
  consistency_score : nat;
  detection_strength : Q;
  trend : Trend
}.

Inductive Details :=
  | DetailsError (error : string)
  | DetailsAnalysis (analysis : Analysis).

(** The returned dictionary, without its ['visual_feedback'] entry
    (drawing colours and durations looked up from constant tables). *)
Record Result := mkResult {
  r_is_empty : bool;
  r_confidence : Q;
  r_fullness_score : Q;
  r_should_alert : bool;
  r_alert_level : AlertLevel;
  r_visual_state : VisualState;
  r_stability : nat;
  r_detection_strength : Q;
  r_details : Details;
  r_method_scores : MethodScores;
  r_frame_count : nat;
  r_timestamp : Q;
  r_trend : Trend
}.

Record Detector := mkDetector {
  sensitivity : Q;
  detection_history : gmap string (list DetectionRecord);
  alert_cooldown : gmap string Q;
  frame_count : nat;
  detection_params : DetectionParams;
  history_length : nat;
  cooldown_time : Q
}.

Definition __init__ (sensitivity : Q) : Detector :=
  {| sensitivity := sensitivity;
     detection_history := ∅;
     alert_cooldown := ∅;
     frame_count := 0;
     detection_params :=
       {| supermarket_mode := true;
          video_compression_factor := 0.85;
          lighting_variance_threshold := 150;
          edge_density_threshold := 0.025 |};
     history_length := 10;
     cooldown_time := 1.5 |}.

Definition set_sensitivity (v : Q) (self : Detector) : Detector :=
  mkDetector v (detection_history self) (alert_cooldown self)
    (frame_count self) (detection_params self) (history_length self)
    (cooldown_time self).

Definition set_detection_history (v : gmap string (list DetectionRecord))
    (self : Detector) : Detector :=
  mkDetector (sensitivity self) v (alert_cooldown self)
    (frame_count self) (detection_params self) (history_length self)
    (cooldown_time self).

Definition set_alert_cooldown (v : gmap string Q) (self : Detector)
  : Detector :=
  mkDetector (sensitivity self) (detection_history self) v
    (frame_count self) (detection_params self) (history_length self)
    (cooldown_time self).

Definition set_frame_count (v : nat) (self : Detector) : Detector :=
  mkDetector (sensitivity self) (detection_history self)
    (alert_cooldown self) v (detection_params self) (history_length self)
    (cooldown_time self).

Definition _calculate_improved_confidence (self : Detector)
    (analysis : Analysis) : ConfidenceData :=
  let uniformity := uniformity analysis in
  let objects := objects analysis in
  let color := color analysis in
  let texture := texture analysis in
  let structure := structure analysis in
  let params := detection_params self in
  let is_uniform := is_uniform uniformity in
  let has_few_objects := (meaningful_object_count objects <=? 1)%nat in
  let low_color_diversity := negb (has_diverse_colors color) in
  let low_texture := negb (has_texture texture) in
  let minimal_structure := negb (has_structure structure) in
  let supermarket_empty_indicators :=
    if supermarket_mode params then
      let shelf_background_detected :=
        Qltb (total_variance uniformity)
             (lighting_variance_threshold params)
        && (meaningful_object_count objects =? 0)%nat in
      let lighting_uniformity := Qltb 0.75 (uniformity_score uniformity) in
      let minimal_edges :=
        Qltb (edge_density objects) (edge_density_threshold params) in
      [shelf_background_detected; lighting_uniformity; minimal_edges]
    else [] in
  let primary_empty_indicators :=
    count_true [is_uniform; has_few_objects; low_color_diversity;
                low_texture; minimal_structure] in
  let supermarket_indicators_count :=
    count_true supermarket_empty_indicators in
  let total_empty_indicators :=
    (primary_empty_indicators + supermarket_indicators_count)%nat in
  let '(empty_confidence, is_empty) :=
    if (5 <=? total_empty_indicators)%nat then
      (0.85 + Qmin 0.15 (Qnat (total_empty_indicators - 5) * 0.03), true)
    else if (3 <=? total_empty_indicators)%nat then
      (0.65 + Qnat (total_empty_indicators - 3) * 0.1, true)
    else if (2 <=? total_empty_indicators)%nat then
      (0.45 + Qnat (total_empty_indicators - 2) * 0.1,
       (3 <=? total_empty_indicators)%nat)
    else
      let compression_factor := video_compression_factor params in
      let fullness_score :=
        (object_density objects * 0.4 +
         color_richness color * 0.3 +
         texture_score texture * 0.2 +
         structure_score structure / 5 * 0.1) * compression_factor in
      (Qmin 1 fullness_score, false) in
  let empty_confidence :=
    if is_empty then
      let sensitivity_boost := 1 + sensitivity self * 0.3 in
      Qmin 1 (empty_confidence * sensitivity_boost)
    else
      Qmax 0 (empty_confidence * (2 - sensitivity self)) in
  {| c_is_empty := is_empty;
     c_empty_confidence := empty_confidence;
     c_fullness_score :=
       if is_empty then 1 - empty_confidence else empty_confidence;
     c_method_scores :=
       {| uniformity_analysis := uniformity_score uniformity;
          object_detection := object_density objects;
          color_analysis := color_richness color;
          texture_analysis := texture_score texture;
          structure_analysis := Qmin 1 (structure_score structure / 5) |};
     c_empty_indicators := total_empty_indicators;
     c_supermarket_indicators := supermarket_indicators_count |}.

Definition _determine_alert_level (confidence : Q) (is_empty : bool)
  : AlertLevel :=
  if negb is_empty then NONE
  else if Qleb 0.85 confidence then CRITICAL
  else if Qleb 0.70 confidence then HIGH
  else if Qleb 0.55 confidence then MEDIUM
  else LOW.

(** [alert_level == 'NONE'] *)
Definition is_NONE (alert_level : AlertLevel) : bool :=
  match alert_level with NONE => true | _ => false end.

(** The body of [_calculate_stability_metrics] once
    [history = self.detection_history[shelf_name]] has been read. *)
Definition stability_of_history (history : list DetectionRecord)
  : StabilityData :=
  if (length history <? 3)%nat then
    {| consistency_score := length history;
       detection_strength := 0.5;
       trend := UNKNOWN |}
  else
    let recent_states := h_is_empty <$> lastn 5 history in
    let consistent_detections :=
      length (filter (λ state, Some state = last recent_states)
                     recent_states) in
    let consistency_score := Nat.min 5 consistent_detections in
    let recent_confidences := h_empty_confidence <$> lastn 3 history in
    let detection_strength := Qmean recent_confidences in
    let trend :=
      if (5 <=? length history)%nat then
        let old_avg :=
          Qmean (h_fullness_score <$> take 3 (lastn 5 history)) in
        let new_avg := Qmean (h_fullness_score <$> lastn 3 history) in
        if Qltb (old_avg + 0.1) new_avg then IMPROVING
        else if Qltb new_avg (old_avg - 0.1) then DECLINING
        else STABLE
      else UNKNOWN in
    {| consistency_score := consistency_score;
       detection_strength := detection_strength;
       trend := trend |}.

Definition _calculate_stability_metrics (self : Detector)
    (shelf_name : string) : option StabilityData :=
  history ← detection_history self !! shelf_name;
  mret (stability_of_history history).

Definition _should_trigger_alert (self : Detector) (shelf_name : string)
    (timestamp : Q) (confidence_data : ConfidenceData)
    (stability_data : StabilityData) (alert_level : AlertLevel)
  : option (Detector * bool) :=
  if negb (c_is_empty confidence_data) || is_NONE alert_level then
    mret (self, false)
  else if Qltb (c_empty_confidence confidence_data) 0.5 then
    mret (self, false)
  else if (consistency_score stability_data <? 2)%nat then
    mret (self, false)
  else
    last_alert ← alert_cooldown self !! shelf_name;
    if Qltb (timestamp - last_alert) (cooldown_time self) then
      mret (self, false)
    else
      mret (set_alert_cooldown
              (<[shelf_name := timestamp]> (alert_cooldown self)) self,
            true).

Definition update_sensitivity (self : Detector) (new_sensitivity : Q)
  : Detector :=
  set_sensitivity (Qmax 0.1 (Qmin 1 new_sensitivity)) self.

Definition _create_error_result (self : Detector) (error_message : string)
    (shelf_name : string) (now : Q) : Result :=
  {| r_is_empty := true;
     r_confidence := 1;
     r_fullness_score := 0;
     r_should_alert := false;
     r_alert_level := CRITICAL;
     r_visual_state := CRITICALLY_EMPTY;
     r_stability := 0;
     r_detection_strength := 0;
     r_details := DetailsError error_message;
     r_method_scores := mkScores 0 0 0 0 0;
     r_frame_count := frame_count self;
     r_timestamp := now;
     r_trend := UNKNOWN |}.

(** The block [if shelf_name not in self.detection_history: ...] of
    [analyze_shelf_region]. *)
Definition initialize_history (self : Detector) (shelf_name : string)
  : Detector :=
  match detection_history self !! shelf_name with
  | Some _ => self
  | None =>
      set_alert_cooldown
        (<[shelf_name := 0]> (alert_cooldown self))
        (set_detection_history
           (<[shelf_name := []]> (detection_history self)) self)
  end.

(** [self.detection_history[shelf_name].append(record)] followed by the
    [pop(0)] that keeps the history within [self.history_length]. *)
Definition record_detection (self : Detector) (shelf_name : string)
    (detection_record : DetectionRecord) : option Detector :=
  history ← detection_history self !! shelf_name;
  let history := history ++ [detection_record] in
  let history :=
    if (history_length self <? length history)%nat
    then drop 1 history else history in
  mret (set_detection_history
          (<[shelf_name := history]> (detection_history self)) self).

Section WithExtractors.

(** [_perform_improved_analysis]: the five OpenCV/NumPy extractors. *)
Variable _perform_improved_analysis : Image → Analysis.

Definition analyze_shelf_region (self : Detector) (roi : option Image)
    (shelf_name : string) (timestamp : option Q) (now : Q)
  : option (Detector * Result) :=
  let timestamp := default now timestamp in
  match roi with
  | None =>
      mret (self, _create_error_result self "No image data" shelf_name now)
  | Some roi =>
      if (size roi =? 0)%nat then
        mret (self,
              _create_error_result self "No image data" shelf_name now)
      else if (shape0 roi <? 50)%nat || (shape1 roi <? 50)%nat then
        mret (self,
              _create_error_result self "Region too small for analysis"
                shelf_name now)
      else
        let self := set_frame_count (frame_count self + 1) self in
        let self := initialize_history self shelf_name in
        let analysis_results := _perform_improved_analysis roi in
        let confidence_data :=
          _calculate_improved_confidence self analysis_results in
        let visual_state :=
          _determine_visual_state (c_empty_confidence confidence_data)
            (c_is_empty confidence_data) in
        let alert_level :=
          _determine_alert_level (c_empty_confidence confidence_data)
            (c_is_empty confidence_data) in
        let detection_record :=
          {| h_timestamp := timestamp;
             h_is_empty := c_is_empty confidence_data;
             h_empty_confidence := c_empty_confidence confidence_data;
             h_fullness_score := c_fullness_score confidence_data;
             h_visual_state := visual_state;
             h_alert_level := alert_level;
             h_analysis := analysis_results;
             h_frame_number := frame_count self |} in
        self ← record_detection self shelf_name detection_record;
        stability_data ← _calculate_stability_metrics self shelf_name;
        '(self, should_alert) ←
          _should_trigger_alert self shelf_name timestamp
            confidence_data stability_data alert_level;
        mret (self,
              {| r_is_empty := c_is_empty confidence_data;
                 r_confidence := c_empty_confidence confidence_data;
                 r_fullness_score := c_fullness_score confidence_data;
                 r_should_alert := should_alert;
                 r_alert_level := alert_level;
                 r_visual_state := visual_state;
                 r_stability := consistency_score stability_data;
                 r_detection_strength :=
                   detection_strength stability_data;
                 r_details := DetailsAnalysis analysis_results;
                 r_method_scores := c_method_scores confidence_data;
                 r_frame_count := frame_count self;
                 r_timestamp := timestamp;
                 r_trend := trend stability_data |})
  end.

End WithExtractors.

End ImprovedYOLODetector.

(** ** YOLOv8mShelfDetector (yolo8m_shelf_detector.py) *)

(** [str.lower()] on ASCII labels. *)
Definition ascii_lower (c : ascii) : ascii :=
  let n := nat_of_ascii c in
  if ((65 <=? n) && (n <=? 90))%nat then ascii_of_nat (n + 32) else c.

Fixpoint lower (s : string) : string :=
  match s with
  | EmptyString => EmptyString
  | String c rest => String (ascii_lower c) (lower rest)
  end.

Module YOLOv8mShelfDetector.

(** The entries of [self.detection_params] read outside the extractors. *)
Record DetectionParams := mkParams {
  supermarket_mode : bool;
  lighting_variance_threshold : Q;
  edge_density_threshold : Q;
  yolo_confidence_threshold : Q;
  empty_confidence_boost : Q
}.

(** One entry of [result.boxes]: [int(box.cls[0])], [float(box.conf[0])]
    and [box.xyxy[0].tolist()]. *)
Record Box := mkBox {
  cls : nat;
  conf : Q;
  xyxy : Q * Q * Q * Q
}.

(** One element of the list the model returns; [boxes] may be [None]. *)
Record YoloResult := mkYoloResult {
  boxes : option (list Box)
}.

(** The loaded model: its class-name table and the inference call, which
    yields [None] when it raises. *)
Record YoloModel := mkModel {
  names : gmap nat string;
  predict : Image → option (list YoloResult)
}.

Record Product := mkProduct {
  p_class : string;
  p_confidence : Q;
  p_bbox : Q * Q * Q * Q;
  p_area : Q
}.

(** The dictionary returned by [_perform_yolo_detection]. *)
Record Yolo := mkYolo {
  products_detected : list Product;
  product_count : nat;
  confidence_scores : list Q;
  detection_areas : list Q;
  coverage_ratio : Q;
  yolo_available : bool
}.

Record Analysis := mkAnalysis {
  uniformity : Uniformity;
  objects : Objects;
  color : Color;
  texture : Texture;
  structure : Structure;
  yolo : Yolo
}.

Record MethodScores := mkScores {
  uniformity_analysis : Q;
  object_detection : Q;
  color_analysis : Q;
  texture_analysis : Q;
  structure_analysis : Q;
  yolo_detection : Q
}.

Record ConfidenceData := mkConfidence {
  c_is_empty : bool;
  c_empty_confidence : Q;
  c_fullness_score : Q;
  c_method_scores : MethodScores;
  c_empty_indicators : nat;
  c_yolo_indicators : nat;
  c_yolo_enhanced : bool
}.

Record DetectionRecord := mkRecord {
  h_timestamp : Q;
  h_is_empty : bool;
  h_empty_confidence : Q;
  h_fullness_score : Q;
  h_visual_state : VisualState;
  h_alert_level : AlertLevel;
  h_analysis : Analysis;
  h_frame_number : nat;
  h_yolo_products : list Product
}.

Record Result := mkResult {
  r_is_empty : bool;
  r_confidence : Q;
  r_fullness_score : Q;
  r_visual_state : VisualState;
  r_alert_level : AlertLevel;
  r_should_alert : bool;
  r_method_scores : option MethodScores;
  r_analysis_details : option Analysis;
  r_trend : Trend;
  r_error : option string;
  r_yolo_products : list Product
}.

Record Detector := mkDetector {
  sensitivity : Q;
  detection_history : gmap string (list DetectionRecord);
  alert_cooldown : gmap string Q;
  frame_count : nat;
  yolo_model : option YoloModel;
  detection_params : DetectionParams;
  product_classes : gset string;
  history_length : nat;
  cooldown_time : Q
}.

(** [__init__]; the outcome of [_initialize_yolo_model] is the argument
    [model] ([None] when loading fails). *)
Definition __init__ (sensitivity : Q) (model : option YoloModel)
  : Detector :=
  {| sensitivity := sensitivity;
     detection_history := ∅;
     alert_cooldown := ∅;
     frame_count := 0;
     yolo_model := model;
     detection_params :=
       {| supermarket_mode := true;
          lighting_variance_threshold := 120;
          edge_density_threshold := 0.022;
          yolo_confidence_threshold := 0.20;
          empty_confidence_boost := 0.12 |};
     product_classes :=
       list_to_set
         ["bottle"; "cup"; "bowl"; "banana"; "apple"; "sandwich";
          "orange"; "broccoli"; "carrot"; "hot dog"; "pizza"; "donut";
          "cake"; "potted plant"; "vase"; "scissors"; "toothbrush";
          "book"; "cell phone"; "laptop"; "mouse"; "remote"; "keyboard";
          "microwave"; "oven"; "toaster"; "sink"; "refrigerator";
          "clock"; "teddy bear"; "hair drier"; "toothbrush";
          "wine glass"; "fork"; "knife"; "spoon"];
     history_length := 15;
     cooldown_time := 1 |}.

Definition set_sensitivity (v : Q) (self : Detector) : Detector :=
  mkDetector v (detection_history self) (alert_cooldown self)
    (frame_count self) (yolo_model self) (detection_params self)
    (product_classes self) (history_length self) (cooldown_time self).

Definition set_detection_history (v : gmap string (list DetectionRecord))
    (self : Detector) : Detector :=
  mkDetector (sensitivity self) v (alert_cooldown self)
    (frame_count self) (yolo_model self) (detection_params self)
    (product_classes self) (history_length self) (cooldown_time self).

Definition set_alert_cooldown (v : gmap string Q) (self : Detector)
  : Detector :=
  mkDetector (sensitivity self) (detection_history self) v
    (frame_count self) (yolo_model self) (detection_params self)
    (product_classes self) (history_length self) (cooldown_time self).

Definition set_frame_count (v : nat) (self : Detector) : Detector :=
  mkDetector (sensitivity self) (detection_history self)
    (alert_cooldown self) v (yolo_model self) (detection_params self)
    (product_classes self) (history_length self) (cooldown_time self).

(** The result returned when the model is missing or the [try] block
    raises. *)
Definition yolo_unavailable : Yolo :=
  {| products_detected := [];
     product_count := 0;
     confidence_scores := [];
     detection_areas := [];
     coverage_ratio := 0;
     yolo_available := false |}.

(** The boxes in the order the two nested [for] loops visit them. *)
Definition all_boxes (results : list YoloResult) : list Box :=
  mjoin ((λ result, default [] (boxes result)) <$> results).

(** The test guarding the three [append]s. *)
Definition is_product (self : Detector) (class_name : string)
    (confidence : Q) : bool :=
  bool_decide (lower class_name ∈ product_classes self)
  && Qltb (yolo_confidence_threshold (detection_params self)) confidence.

(** One iteration of the inner loop: [None] when [names[class_id]]
    raises, [Some None] when the box is skipped. *)
Definition visit_box (self : Detector) (model : YoloModel) (box : Box)
  : option (option Product) :=
  class_name ← names model !! cls box;
  let confidence := conf box in
  if is_product self class_name confidence then
    let '(x1, y1, x2, y2) := xyxy box in
    let area := (x2 - x1) * (y2 - y1) in
    mret (Some {| p_class := class_name;
                  p_confidence := confidence;
                  p_bbox := (x1, y1, x2, y2);
                  p_area := area |})
  else mret None.

(** The body of the [try] block. *)
Definition yolo_detection_body (self : Detector) (model : YoloModel)
    (roi : Image) : option Yolo :=
  results ← predict model roi;
  visited ← mapM (visit_box self model) (all_boxes results);
  let products_detected := omap id visited in
  let confidence_scores := p_confidence <$> products_detected in
  let detection_areas := p_area <$> products_detected in
  let roi_area := (shape0 roi * shape1 roi)%nat in
  let total_detection_area := Qsum detection_areas in
  let coverage_ratio :=
    if (0 <? roi_area)%nat
    then Qmin 1 (total_detection_area / Qnat roi_area) else 0 in
  mret {| products_detected := products_detected;
          product_count := length products_detected;
          confidence_scores := confidence_scores;
          detection_areas := detection_areas;
          coverage_ratio := coverage_ratio;
          yolo_available := true |}.

Definition _perform_yolo_detection (self : Detector) (roi : Image)
  : Yolo :=
  match yolo_model self with
  | None => yolo_unavailable
  | Some model => default yolo_unavailable
                    (yolo_detection_body self model roi)
  end.

Definition _calculate_yolo_enhanced_confidence (self : Detector)
    (analysis : Analysis) : ConfidenceData :=
  let uniformity := uniformity analysis in
  let objects := objects analysis in
  let color := color analysis in
  let texture := texture analysis in
  let structure := structure analysis in
  let yolo := yolo analysis in
  let params := detection_params self in
  let is_uniform := is_uniform uniformity in
  let has_few_objects := (meaningful_object_count objects <=? 1)%nat in
  let low_color_diversity := negb (has_diverse_colors color) in
  let low_texture := negb (has_texture texture) in
  let minimal_structure := negb (has_structure structure) in
  let yolo_no_products := (product_count yolo =? 0)%nat in
  let yolo_low_coverage := Qltb (coverage_ratio yolo) 0.12 in
  let yolo_available := yolo_available yolo in
  let supermarket_empty_indicators :=
    if supermarket_mode params then
      let shelf_background_detected :=
        Qltb (total_variance uniformity)
             (lighting_variance_threshold params)
        && (meaningful_object_count objects =? 0)%nat in
      let lighting_uniformity := Qltb 0.70 (uniformity_score uniformity) in
      let minimal_edges :=
        Qltb (edge_density objects) (edge_density_threshold params) in
      [shelf_background_detected; lighting_uniformity; minimal_edges]
    else [] in
  let primary_empty_indicators :=
    [is_uniform; has_few_objects; low_color_diversity; low_texture;
     minimal_structure] in
  let yolo_empty_indicators :=
    if yolo_available then [yolo_no_products; yolo_low_coverage] else [] in
  let primary_count := count_true primary_empty_indicators in
  let yolo_count := count_true yolo_empty_indicators in
  let supermarket_count := count_true supermarket_empty_indicators in
  let '(empty_confidence, is_empty) :=
    if yolo_available then
      if ((2 <=? yolo_count) && (2 <=? primary_count))%nat then
        (0.90 + Qmin 0.10 (Qnat primary_count * 0.02), true)
      else if ((2 <=? yolo_count) && (1 <=? primary_count))%nat then
        (0.82 + Qnat primary_count * 0.05 + Qnat supermarket_count * 0.03,
         true)
      else if ((1 <=? yolo_count) && (2 <=? primary_count))%nat then
        (0.72 + Qnat primary_count * 0.05 + Qnat supermarket_count * 0.04,
         true)
      else if ((3 <=? primary_count) && (1 <=? supermarket_count))%nat then
        (0.68 + Qnat (primary_count - 3) * 0.05, true)
      else if ((1 <=? yolo_count) && (1 <=? primary_count))%nat then
        (0.62 + Qnat primary_count * 0.04 + Qnat supermarket_count * 0.03,
         true)
      else if (3 <=? primary_count)%nat then
        (0.58 + Qnat (primary_count - 3) * 0.04
         + Qnat supermarket_count * 0.03, true)
      else
        let yolo_fullness := coverage_ratio yolo * 2.5 in
        let yolo_product_boost :=
          Qmin 0.4 (Qnat (product_count yolo) * 0.12) in
        let traditional_fullness :=
          object_density objects * 0.35 +
          color_richness color * 0.25 +
          texture_score texture * 0.20 +
          structure_score structure / 5 * 0.15 in
        let fullness_score :=
          Qmin 1 (traditional_fullness * 0.4 + yolo_fullness * 0.5
                  + yolo_product_boost) in
        (Qmax 0.08 (1 - fullness_score * 1.1), false)
    else
      let total_empty_indicators :=
        (primary_count + supermarket_count)%nat in
      if (4 <=? total_empty_indicators)%nat then
        (0.82 + Qmin 0.15 (Qnat (total_empty_indicators - 4) * 0.04), true)
      else if (3 <=? total_empty_indicators)%nat then
        (0.68 + Qnat (total_empty_indicators - 3) * 0.10, true)
      else if (2 <=? total_empty_indicators)%nat then
        (0.55 + Qnat (total_empty_indicators - 2) * 0.10, true)
      else
        let traditional_fullness :=
          object_density objects * 0.4 +
          color_richness color * 0.3 +
          texture_score texture * 0.2 +
          structure_score structure / 5 * 0.1 in
        (Qmax 0.10 (1 - traditional_fullness * 1.05), false) in
  let empty_confidence :=
    if is_empty then
      let sensitivity_boost := 1 + sensitivity self * 0.2 in
      let empty_boost := empty_confidence_boost params in
      Qmin 1 (empty_confidence * sensitivity_boost + empty_boost)
    else
      Qmax 0 (empty_confidence * (2 - sensitivity self)) in
  {| c_is_empty := is_empty;
     c_empty_confidence := empty_confidence;
     c_fullness_score :=
       if is_empty then 1 - empty_confidence else empty_confidence;
     c_method_scores :=
       {| uniformity_analysis := uniformity_score uniformity;
          object_detection := object_density objects;
          color_analysis := color_richness color;
          texture_analysis := texture_score texture;
          structure_analysis := Qmin 1 (structure_score structure / 5);
          yolo_detection :=
            if yolo_available then coverage_ratio yolo else 0 |};
     c_empty_indicators := (primary_count + supermarket_count)%nat;
     c_yolo_indicators := yolo_count;
     c_yolo_enhanced := yolo_available |}.

Definition update_sensitivity (self : Detector) (new_sensitivity : Q)
  : Detector :=
  set_sensitivity (Qmax 0.1 (Qmin 0.9 new_sensitivity)) self.

Definition _determine_alert_level (confidence : Q) (is_empty : bool)
  : AlertLevel :=
  if negb is_empty then LOW
  else if Qleb 0.85 confidence then CRITICAL
  else if Qleb 0.70 confidence then HIGH
  else if Qleb 0.55 confidence then MEDIUM
  else LOW.

Definition _should_trigger_alert (self : Detector) (shelf_name : string)
    (confidence_data : ConfidenceData) (timestamp : Q)
  : Detector * bool :=
  if negb (c_is_empty confidence_data) then (self, false)
  else if Qltb (timestamp - default 0 (alert_cooldown self !! shelf_name))
               (cooldown_time self) then (self, false)
  else
    let confidence := c_empty_confidence confidence_data in
    if Qleb 0.65 confidence then
      (set_alert_cooldown
         (<[shelf_name := timestamp]> (alert_cooldown self)) self, true)
    else (self, false).

Definition _create_error_result (self : Detector) (error_message : string)
    (shelf_name : string) : Result :=
  {| r_is_empty := false;
     r_confidence := 0;
     r_fullness_score := 0;
     r_visual_state := UNCERTAIN;
     r_alert_level := LOW;
     r_should_alert := false;
     r_method_scores := None;
     r_analysis_details := None;
     r_trend := UNKNOWN;
     r_error := Some error_message;
     r_yolo_products := [] |}.

(** The block [if shelf_name not in self.detection_history: ...] of
    [analyze_shelf_region]. *)
Definition initialize_history (self : Detector) (shelf_name : string)
  : Detector :=
  match detection_history self !! shelf_name with
  | Some _ => self
  | None =>
      set_alert_cooldown
        (<[shelf_name := 0]> (alert_cooldown self))
        (set_detection_history
           (<[shelf_name := []]> (detection_history self)) self)
  end.

(** [self.detection_history[shelf_name].append(record)] followed by the
    [pop(0)] that keeps the history within [self.history_length]. *)
Definition record_detection (self : Detector) (shelf_name : string)
    (detection_record : DetectionRecord) : option Detector :=
  history ← detection_history self !! shelf_name;
  let history := history ++ [detection_record] in
  let history :=
    if (history_length self <? length history)%nat
    then drop 1 history else history in
  mret (set_detection_history
          (<[shelf_name := history]> (detection_history self)) self).

(** The OpenCV/NumPy side of the detector: the four traditional
    extractors, the contour pass that also receives the YOLO result, and
    the slope [np.polyfit(range(len(ys)), ys, 1)[0]]. *)
Record Library := mkLibrary {
  _analyze_uniformity : Image → Uniformity;
  _advanced_color_analysis : Image → Color;
  _analyze_texture : Image → Texture;
  _analyze_structure : Image → Structure;
  _detect_enhanced_objects : Image → Yolo → Objects;
  polyfit_slope : list Q → Q
}.

Section WithLibrary.

Variable lib : Library.

Definition _perform_yolo_enhanced_analysis (self : Detector)
    (roi : Image) : Analysis :=
  let uniformity_analysis := _analyze_uniformity lib roi in
  let color_analysis := _advanced_color_analysis lib roi in
  let texture_analysis := _analyze_texture lib roi in
  let structure_analysis := _analyze_structure lib roi in
  let yolo_analysis := _perform_yolo_detection self roi in
  let object_analysis :=
    _detect_enhanced_objects lib roi yolo_analysis in
  {| uniformity := uniformity_analysis;
     objects := object_analysis;
     color := color_analysis;
     texture := texture_analysis;
     structure := structure_analysis;
     yolo := yolo_analysis |}.

Definition _calculate_trend (self : Detector) (shelf_name : string)
  : Trend :=
  match detection_history self !! shelf_name with
  | None => UNKNOWN
  | Some history =>
      if (length history <? 3)%nat then UNKNOWN
      else
        let recent_records := lastn 5 history in
        let confidences := h_empty_confidence <$> recent_records in
        if (3 <=? length confidences)%nat then
          let trend_slope := polyfit_slope lib confidences in
          if Qltb 0.1 trend_slope then EMPTYING
          else if Qltb trend_slope (-0.1) then FILLING
          else STABLE
        else UNKNOWN
  end.

Definition analyze_shelf_region (self : Detector) (roi : option Image)
    (shelf_name : string) (timestamp : option Q) (now : Q)
  : option (Detector * Result) :=
  let timestamp := default now timestamp in
  match roi with
  | None =>
      mret (self, _create_error_result self "No image data" shelf_name)
  | Some roi =>
      if (size roi =? 0)%nat then
        mret (self, _create_error_result self "No image data" shelf_name)
      else if (shape0 roi <? 50)%nat || (shape1 roi <? 50)%nat then
        mret (self,
              _create_error_result self "Region too small for analysis"
                shelf_name)
      else
        let self := set_frame_count (frame_count self + 1) self in
        let self := initialize_history self shelf_name in
        let analysis_results :=
          _perform_yolo_enhanced_analysis self roi in
        let confidence_data :=
          _calculate_yolo_enhanced_confidence self analysis_results in
        let visual_state :=
          _determine_visual_state (c_empty_confidence confidence_data)
            (c_is_empty confidence_data) in
        let alert_level :=
          _determine_alert_level (c_empty_confidence confidence_data)
            (c_is_empty confidence_data) in
        let detection_record :=
          {| h_timestamp := timestamp;
             h_is_empty := c_is_empty confidence_data;
             h_empty_confidence := c_empty_confidence confidence_data;
             h_fullness_score := c_fullness_score confidence_data;
             h_visual_state := visual_state;
             h_alert_level := alert_level;
             h_analysis := analysis_results;
             h_frame_number := frame_count self;
             h_yolo_products :=
               products_detected (yolo analysis_results) |} in
        self ← record_detection self shelf_name detection_record;
        let '(self, should_alert) :=
          _should_trigger_alert self shelf_name confidence_data
            timestamp in
        mret (self,
              {| r_is_empty := c_is_empty confidence_data;
                 r_confidence := c_empty_confidence confidence_data;
                 r_fullness_score := c_fullness_score confidence_data;
                 r_visual_state := visual_state;
                 r_alert_level := alert_level;
                 r_should_alert := should_alert;
                 r_method_scores :=
                   Some (c_method_scores confidence_data);
                 r_analysis_details := Some analysis_results;
                 r_trend := _calculate_trend self shelf_name;
                 r_error := None;
                 r_yolo_products :=
                   h_yolo_products detection_record |})
  end.

End WithLibrary.

End YOLOv8mShelfDetector.

(** ** EnhancedShelfDetector (enhanced_detector.py) *)

Module EnhancedShelfDetector.

(** The keys of [self.colors], used as visual states. *)
Inductive VisualState :=
  empty_high | empty_medium | empty_low | full | uncertain.

(** The five method scores of [_perform_enhanced_analysis] that the
    weighted combination reads. *)
Record Analysis := mkAnalysis {
  color_score : Q;
  edge_score : Q;
  texture_score : Q;
  brightness_score : Q;
  contour_score : Q
}.

Record MethodScores := mkScores {
  color_analysis : Q;
  edge_analysis : Q;
  texture_analysis : Q;
  contour_analysis : Q;
  brightness_analysis : Q
}.

Record DetectionRecord := mkRecord {
  h_timestamp : Q;
  h_is_empty : bool;
  h_confidence : Q;
  h_visual_state : VisualState;
  h_methods : Analysis
}.

Inductive Details :=
  | DetailsReason (reason : string)
  | DetailsAnalysis (analysis : Analysis).

Record Result := mkResult {
  r_is_empty : bool;
  r_confidence : Q;
  r_should_alert : bool;
  r_stability : nat;
  r_visual_state : VisualState;
  r_details : Details;
  r_frame_count : nat;
  r_timestamp : Q;
  r_method_scores : MethodScores
}.

Record Detector := mkDetector {
  sensitivity : Q;
  detection_history : gmap string (list DetectionRecord);
  alert_cooldown : gmap string Q;
  frame_count : nat;
  history_length : nat;
  cooldown_time : Q
}.

Definition __init__ (sensitivity : Q) : Detector :=
  {| sensitivity := sensitivity;
     detection_history := ∅;
     alert_cooldown := ∅;
     frame_count := 0;
     history_length := 8;
     cooldown_time := 2 |}.

Definition set_sensitivity (v : Q) (self : Detector) : Detector :=
  mkDetector v (detection_history self) (alert_cooldown self)
    (frame_count self) (history_length self) (cooldown_time self).

Definition set_detection_history (v : gmap string (list DetectionRecord))
    (self : Detector) : Detector :=
  mkDetector (sensitivity self) v (alert_cooldown self)
    (frame_count self) (history_length self) (cooldown_time self).

Definition set_alert_cooldown (v : gmap string Q) (self : Detector)
  : Detector :=
  mkDetector (sensitivity self) (detection_history self) v
    (frame_count self) (history_length self) (cooldown_time self).

Definition set_frame_count (v : nat) (self : Detector) : Detector :=
  mkDetector (sensitivity self) (detection_history self)
    (alert_cooldown self) v (history_length self) (cooldown_time self).

Definition _calculate_enhanced_confidence (self : Detector)
    (analysis : Analysis) : Q * bool * VisualState :=
  let color_conf := color_score analysis in
  let edge_conf := edge_score analysis in
  let texture_conf := texture_score analysis in
  let brightness_conf := brightness_score analysis in
  let contour_conf := contour_score analysis in
  let fullness_confidence :=
    0.25 * color_conf + 0.30 * edge_conf + 0.20 * texture_conf
    + 0.15 * brightness_conf + 0.10 * contour_conf in
  let adjusted_confidence :=
    fullness_confidence * (2 - sensitivity self) in
  let is_empty := Qltb adjusted_confidence 0.5 in
  let empty_confidence :=
    if is_empty then 1 - adjusted_confidence else adjusted_confidence in
  let visual_state :=
    if is_empty then
      if Qltb 0.8 empty_confidence then empty_high
      else if Qltb 0.6 empty_confidence then empty_medium
      else empty_low
    else full in
  (empty_confidence, is_empty, visual_state).

Definition _calculate_stability (self : Detector) (shelf_name : string)
  : nat :=
  match detection_history self !! shelf_name with
  | None => 0
  | Some history =>
      if (length history <? 3)%nat then length history
      else
        let recent_states := h_is_empty <$> lastn 5 history in
        let consistency :=
          length (filter (λ state, Some state = last recent_states)
                         recent_states) in
        Nat.min 5 consistency
  end.

Definition _should_alert (self : Detector) (shelf_name : string)
    (timestamp : Q) (is_empty : bool) (confidence : Q) (stability : nat)
  : option (Detector * bool) :=
  if negb is_empty then mret (self, false)
  else if Qltb confidence 0.6 then mret (self, false)
  else if (stability <? 3)%nat then mret (self, false)
  else
    last_alert ← alert_cooldown self !! shelf_name;
    if Qltb (timestamp - last_alert) (cooldown_time self) then
      mret (self, false)
    else
      mret (set_alert_cooldown
              (<[shelf_name := timestamp]> (alert_cooldown self)) self,
            true).

Definition update_sensitivity (self : Detector) (new_sensitivity : Q)
  : Detector :=
  set_sensitivity (Qmax 0.1 (Qmin 1 new_sensitivity)) self.

Definition _create_result (self : Detector) (is_empty : bool)
    (confidence : Q) (reason : string) (shelf_name : string)
    (visual_state : VisualState) (now : Q) : Result :=
  {| r_is_empty := is_empty;
     r_confidence := confidence;
     r_should_alert := false;
     r_stability := 0;
     r_visual_state := visual_state;
     r_details := DetailsReason reason;
     r_frame_count := frame_count self;
     r_timestamp := now;
     r_method_scores := mkScores 0 0 0 0 0 |}.

(** The block [if shelf_name not in self.detection_history: ...] of
    [analyze_shelf_region]. *)
Definition initialize_history (self : Detector) (shelf_name : string)
  : Detector :=
  match detection_history self !! shelf_name with
  | Some _ => self
  | None =>
      set_alert_cooldown
        (<[shelf_name := 0]> (alert_cooldown self))
        (set_detection_history
           (<[shelf_name := []]> (detection_history self)) self)
  end.

(** [self.detection_history[shelf_name].append(record)] followed by the
    [pop(0)] that keeps the history within [self.history_length]. *)
Definition record_detection (self : Detector) (shelf_name : string)
    (detection_record : DetectionRecord) : option Detector :=
  history ← detection_history self !! shelf_name;
  let history := history ++ [detection_record] in
  let history :=
    if (history_length self <? length history)%nat
    then drop 1 history else history in
  mret (set_detection_history
          (<[shelf_name := history]> (detection_history self)) self).

Section WithExtractors.

(** [_perform_enhanced_analysis]: OpenCV/NumPy measurements. *)
Variable _perform_enhanced_analysis : Image → Analysis.

Definition analyze_shelf_region (self : Detector) (roi : option Image)
    (shelf_name : string) (timestamp : option Q) (now : Q)
  : option (Detector * Result) :=
  let timestamp := default now timestamp in
  match roi with
  | None =>
      mret (self, _create_result self true 1 "No image data" shelf_name
                    empty_high now)
  | Some roi =>
      if (size roi =? 0)%nat then
        mret (self, _create_result self true 1 "No image data"
                      shelf_name empty_high now)
      else if (shape0 roi <? 30)%nat || (shape1 roi <? 30)%nat then
        mret (self, _create_result self true 1 "Region too small"
                      shelf_name empty_high now)
      else
        let self := set_frame_count (frame_count self + 1) self in
        let self := initialize_history self shelf_name in
        let analysis_results := _perform_enhanced_analysis roi in
        let '(confidence, is_empty, visual_state) :=
          _calculate_enhanced_confidence self analysis_results in
        self ← record_detection self shelf_name
                 {| h_timestamp := timestamp;
                    h_is_empty := is_empty;
                    h_confidence := confidence;
                    h_visual_state := visual_state;
                    h_methods := analysis_results |};
        let stability := _calculate_stability self shelf_name in
        '(self, should_alert) ←
          _should_alert self shelf_name timestamp is_empty confidence
            stability;
        mret (self,
              {| r_is_empty := is_empty;
                 r_confidence := confidence;
                 r_should_alert := should_alert;
                 r_stability := stability;
                 r_visual_state := visual_state;
                 r_details := DetailsAnalysis analysis_results;
                 r_frame_count := frame_count self;
                 r_timestamp := timestamp;
                 r_method_scores :=
                   {| color_analysis := color_score analysis_results;
                      edge_analysis := edge_score analysis_results;
                      texture_analysis := texture_score analysis_results;
                      contour_analysis := contour_score analysis_results;
                      brightness_analysis :=
                        brightness_score analysis_results |} |})
  end.

End WithExtractors.

End EnhancedShelfDetector.

(** ** The frame loop

    The detectors are driven by an external loop that issues one call after
    the other on the same instance.  [run] threads the instance through a
    list of calls and logs each call with what it returned; it stops with
    [None] as soon as a call raises. *)

Inductive Call :=
  | Analyze (roi : option Image) (shelf_name : string)
            (timestamp : option Q) (now : Q)
  | UpdateSensitivity (new_sensitivity : Q).

Section FrameLoop.

Context {D R : Type}.
Variable analyze :
  D → option Image → string → option Q → Q → option (D * R).
Variable update : D → Q → D.
Variable should_alert : R → bool.

Definition step (self : D) (call : Call) : option (D * option R) :=
  match call with
  | Analyze roi shelf_name timestamp now =>
      '(self, result) ← analyze self roi shelf_name timestamp now;
      mret (self, Some result)
  | UpdateSensitivity v => mret (update self v, None)
  end.

Fixpoint run (self : D) (calls : list Call)
  : option (D * list (Call * option R)) :=
  match calls with
  | [] => mret (self, [])
  | call :: rest =>
      '(self, out) ← step self call;
      '(self, log) ← run self rest;
      mret (self, (call, out) :: log)
  end.

(** The section and timestamp of a logged call that fired an alert. *)
Definition alert_of (entry : Call * option R) : option (string * Q) :=
  match entry with
  | (Analyze _ shelf_name timestamp now, Some result) =>
      if should_alert result
      then Some (shelf_name, default now timestamp) else None
  | _ => None
  end.

Definition alerts (log : list (Call * option R)) : list (string * Q) :=
  omap alert_of log.

End FrameLoop.

(** Alerts of one section are at least [cooldown] apart: any later alert
    of the same section comes no earlier than [cooldown] after. *)
Definition spaced (cooldown : Q) (fired : list (string * Q)) : Prop :=
  ∀ (i j : nat) (shelf_name : string) (t1 t2 : Q),
    (i < j)%nat →
    fired !! i = Some (shelf_name, t1) →
    fired !! j = Some (shelf_name, t2) →
    cooldown <= t2 - t1.

(** ** The specification's wording, for comparison with the code *)

(** The stability score as the specification words it: among the most
    recent at most five [is_empty] values, the number equal to the most
    recent one, capped at five. *)
Definition spec_stability (states : list bool) : nat :=
  let recent := lastn 5 states in
  Nat.min 5 (length (filter (λ state, Some state = last recent) recent)).

(** Membership of a class label in the product-class set as the
    specification words it: the label itself is looked up. *)
Definition spec_is_product (classes : gset string) (threshold : Q)
    (class_name : string) (confidence : Q) : bool :=
  bool_decide (class_name ∈ classes) && Qltb threshold confidence.

(** [v] clamped into [[lo, hi]]. *)
Definition clamp (lo hi v : Q) : Q :=
  if Qltb v lo then lo else if Qltb hi v then hi else v.

(** ** What the three classes have in common

    Each class keeps the same four attributes for its temporal logic:
    [detection_history], [alert_cooldown], [history_length] and
    [cooldown_time].  A [View] projects them out of an instance, so that
    the history bound and the cooldown spacing are argued once. *)

Record View (D Rec : Type) := mkView {
  v_history : D → gmap string (list Rec);
  v_cooldown : D → gmap string Q;
  v_capacity : D → nat;
  v_cooldown_time : D → Q
}.

Arguments v_history {D Rec} _ _.
Arguments v_cooldown {D Rec} _ _.
Arguments v_capacity {D Rec} _ _.
Arguments v_cooldown_time {D Rec} _ _.

Definition improved_view
  : View ImprovedYOLODetector.Detector ImprovedYOLODetector.DetectionRecord :=
  mkView _ _
    ImprovedYOLODetector.detection_history
    ImprovedYOLODetector.alert_cooldown
    ImprovedYOLODetector.history_length
    ImprovedYOLODetector.cooldown_time.

Definition yolo8m_view
  : View YOLOv8mShelfDetector.Detector YOLOv8mShelfDetector.DetectionRecord :=
  mkView _ _
    YOLOv8mShelfDetector.detection_history
    YOLOv8mShelfDetector.alert_cooldown
    YOLOv8mShelfDetector.history_length
    YOLOv8mShelfDetector.cooldown_time.

Definition enhanced_view
  : View EnhancedShelfDetector.Detector EnhancedShelfDetector.DetectionRecord :=
  mkView _ _
    EnhancedShelfDetector.detection_history
    EnhancedShelfDetector.alert_cooldown
    EnhancedShelfDetector.history_length
    EnhancedShelfDetector.cooldown_time.

(** Every retained history is within the capacity. *)
Definition bounded {D Rec} (V : View D Rec) (self : D) : Prop :=
  ∀ (shelf_name : string) (history : list Rec),
    v_history V self !! shelf_name = Some history →
    (length history ≤ v_capacity V self)%nat.

(** Every section with a history has a cooldown entry: what the
    initialisation block of [analyze_shelf_region] establishes. *)
Definition consistent {D Rec} (V : View D Rec) (self : D) : Prop :=
  ∀ shelf_name : string,
    is_Some (v_history V self !! shelf_name) →
    is_Some (v_cooldown V self !! shelf_name).

(** The history after [append] and the conditional [pop(0)]. *)
Definition trim {A} (capacity : nat) (history : list A) : list A :=
  if (capacity <? length history)%nat then drop 1 history else history.

(** The cooldown table after the initialisation block. *)
Definition cooldown_after_init {D Rec} (V : View D Rec) (self : D)
    (shelf_name : string) : gmap string Q :=
  match v_history V self !! shelf_name with
  | Some _ => v_cooldown V self
  | None => <[shelf_name := 0]> (v_cooldown V self)
  end.

(** The effect of an analysis that passed the size checks, on the four
    attributes: [record] was appended for [shelf_name] at [timestamp], and
    [fired] tells whether the alert was raised. *)
Definition accepted_step {D Rec} (V : View D Rec) (self self' : D)
    (shelf_name : string) (timestamp : Q) (fired : bool) (record : Rec)
  : Prop :=
  v_capacity V self' = v_capacity V self ∧
  v_cooldown_time V self' = v_cooldown_time V self ∧
  v_history V self' =
    <[shelf_name :=
        trim (v_capacity V self)
          (default [] (v_history V self !! shelf_name) ++ [record])]>
      (v_history V self) ∧
  let table := cooldown_after_init V self shelf_name in
  if fired then
    v_cooldown V self' = <[shelf_name := timestamp]> table ∧
    v_cooldown_time V self <= timestamp - default 0 (table !! shelf_name)
  else v_cooldown V self' = table.

(** Every alert fired so far is remembered by the cooldown table: its
    section has a history, and the stored time is no earlier. *)
Definition covered {D Rec} (V : View D Rec) (self : D)
    (past : list (string * Q)) : Prop :=
  ∀ shelf_name t0, (shelf_name, t0) ∈ past →
    is_Some (v_history V self !! shelf_name) ∧
    ∃ c, v_cooldown V self !! shelf_name = Some c ∧ t0 <= c.

(** A region that [analyze_shelf_region] turns away: [None], no samples,
    or a side below [minimum]. *)
Definition rejected (minimum : nat) (roi : option Image) : bool :=
  match roi with
  | None => true
  | Some roi =>
      (size roi =? 0)%nat
      || (shape0 roi <? minimum)%nat || (shape1 roi <? minimum)%nat
  end.

(** Two regions of the same shape, whatever their samples. *)
Definition same_shape (roi roi' : option Image) : Prop :=
  match roi, roi' with
  | None, None => True
  | Some a, Some b =>
      shape0 a = shape0 b ∧ shape1 a = shape1 b ∧ channels a = channels b
  | _, _ => False
  end.

(** The area [(x2 - x1) * (y2 - y1)] of a detected box. *)
Definition box_area (box : YOLOv8mShelfDetector.Box) : Q :=
  let '(x1, y1, x2, y2) := YOLOv8mShelfDetector.xyxy box in
  (x2 - x1) * (y2 - y1).

(** A detection that passes the guard of [_perform_yolo_detection]: its
    class id has a name, the lower-cased name is a product class and the
    confidence is above the threshold. *)
Definition qualifies (self : YOLOv8mShelfDetector.Detector)
    (model : YOLOv8mShelfDetector.YoloModel)
    (box : YOLOv8mShelfDetector.Box) : bool :=
  match YOLOv8mShelfDetector.names model !! YOLOv8mShelfDetector.cls box with
  | Some class_name =>
      YOLOv8mShelfDetector.is_product self class_name
        (YOLOv8mShelfDetector.conf box)
  | None => false
  end.

(** The same guard with the label looked up as it is, as the
    specification words it. *)
Definition spec_qualifies (self : YOLOv8mShelfDetector.Detector)
    (model : YOLOv8mShelfDetector.YoloModel)
    (box : YOLOv8mShelfDetector.Box) : bool :=
  match YOLOv8mShelfDetector.names model !! YOLOv8mShelfDetector.cls box with
  | Some class_name =>
      spec_is_product (YOLOv8mShelfDetector.product_classes self)
        (YOLOv8mShelfDetector.yolo_confidence_threshold
           (YOLOv8mShelfDetector.detection_params self))
        class_name (YOLOv8mShelfDetector.conf box)
  | None => false
  end.

(** ** Sample inputs

    Regions and extractor outputs used to run the definitions.  The
    extractor stand-ins look at the first sample only: a bright region is
    given the measurements of a bare shelf, any other region those of a
    stocked one. *)

Definition uniform_region (rows cols : nat) (value : N) : Image :=
  mkImage rows cols (Some 3%nat) (repeat value (rows * cols * 3)).

Definition tiny_region : Image := uniform_region 10 10 240.
Definition bare_region : Image := uniform_region 60 60 240.
Definition busy_region : Image := uniform_region 60 60 40.

Definition is_bright (roi : Image) : bool :=
  match pixels roi with
  | value :: _ => (200 <=? value)%N
  | [] => false
  end.

Definition improved_bare : ImprovedYOLODetector.Analysis :=
  ImprovedYOLODetector.mkAnalysis
    (mkUniformity 0 1 true) (mkObjects 0 0 0) (mkColor 0 false)
    (mkTexture 0 false) (mkStructure 0 false).

(** Six meaningful objects, rich colours, strong texture, many edges and
    corners: no empty indicator is set. *)
Definition improved_busy : ImprovedYOLODetector.Analysis :=
  ImprovedYOLODetector.mkAnalysis
    (mkUniformity 3000 0.05 false) (mkObjects 6 1 0.08) (mkColor 1 true)
    (mkTexture 1 true) (mkStructure 3.3 true).

Definition improved_sample (roi : Image) : ImprovedYOLODetector.Analysis :=
  if is_bright roi then improved_bare else improved_busy.

(** Two objects of few colours and faint texture, without straight lines
    or many corners: only the structure indicator is set. *)
Definition yolo8m_sample : YOLOv8mShelfDetector.Library :=
  YOLOv8mShelfDetector.mkLibrary
    (λ roi, if is_bright roi then mkUniformity 0 1 true
            else mkUniformity 3000 0.05 false)
    (λ roi, if is_bright roi then mkColor 0.02 false else mkColor 0.1 true)
    (λ roi, if is_bright roi then mkTexture 0 false else mkTexture 0.1 true)
    (λ roi, mkStructure 0 false)
    (λ roi _, if is_bright roi then mkObjects 0 0 0
              else mkObjects 2 0.4 0.08)
    (λ _, 0).

Definition enhanced_sample (roi : Image) : EnhancedShelfDetector.Analysis :=
  if is_bright roi then EnhancedShelfDetector.mkAnalysis 0 0 0 0 0
  else EnhancedShelfDetector.mkAnalysis 1 1 1 1 1.

(** A model with a single class, spelled with a capital, that reports one
    confident box of 40 by 25 pixels. *)
Definition capital_model : YOLOv8mShelfDetector.YoloModel :=
  YOLOv8mShelfDetector.mkModel
    {[ 0%nat := "Bottle" ]}
    (λ _, Some [YOLOv8mShelfDetector.mkYoloResult
                  (Some [YOLOv8mShelfDetector.mkBox 0 0.9 (0, 0, 40, 25)])]).

(** A model with two classes that reports a bottle, a person and a
    hesitant cup. *)
Definition shelf_model : YOLOv8mShelfDetector.YoloModel :=
  YOLOv8mShelfDetector.mkModel
    {[ 0%nat := "person"; 39%nat := "bottle"; 41%nat := "cup" ]}
    (λ _, Some [YOLOv8mShelfDetector.mkYoloResult
                  (Some [YOLOv8mShelfDetector.mkBox 39 0.9 (0, 0, 30, 30);
                         YOLOv8mShelfDetector.mkBox 0 0.95 (0, 0, 50, 50);
                         YOLOv8mShelfDetector.mkBox 41 0.15 (5, 5, 25, 25)])]).

(** ** Further methods of the three classes *)

(** The dictionary returned by [_get_visual_feedback_data]. *)
Record VisualFeedback := mkFeedback {
  fb_color : nat * nat * nat;
  fb_thickness : nat;
  fb_should_pulse : bool;
  fb_alert_duration : nat;
  fb_play_sound : bool;
  fb_priority : nat
}.

(** [self.visual_states] of [ImprovedYOLODetector]: colour and thickness
    per state.  Every visual state is a key, so the default of
    [.get(visual_state, ...)] is never taken. *)
Definition visual_states (visual_state : VisualState)
  : (nat * nat * nat) * nat :=
  match visual_state with
  | CRITICALLY_EMPTY => ((0, 0, 255), 6)
  | MOSTLY_EMPTY => ((0, 69, 255), 5)
  | PARTIALLY_EMPTY => ((0, 165, 255), 4)
  | LOW_STOCK => ((0, 255, 255), 3)
  | WELL_STOCKED => ((0, 255, 0), 3)
  | UNCERTAIN => ((128, 128, 128), 2)
  end%nat.

(** [self.alert_levels]: sound, duration and priority per level; ['NONE']
    is not a key. *)
Definition alert_levels (alert_level : AlertLevel)
  : option (bool * nat * nat) :=
  match alert_level with
  | CRITICAL => Some (true, 5000, 1)
  | HIGH => Some (true, 4000, 2)
  | MEDIUM => Some (false, 3000, 3)
  | LOW => Some (false, 2000, 4)
  | NONE => None
  end%nat.

(** [alert_level in ['CRITICAL', 'HIGH']] *)
Definition is_CRITICAL_or_HIGH (alert_level : AlertLevel) : bool :=
  match alert_level with CRITICAL | HIGH => true | _ => false end.

Definition _get_visual_feedback_data (visual_state : VisualState)
    (alert_level : AlertLevel) : VisualFeedback :=
  let state_config := visual_states visual_state in
  let alert_config :=
    default (false, 2000, 4)%nat (alert_levels alert_level) in
  {| fb_color := state_config.1;
     fb_thickness := state_config.2;
     fb_should_pulse := is_CRITICAL_or_HIGH alert_level;
     fb_alert_duration := alert_config.1.2;
     fb_play_sound := alert_config.1.1;
     fb_priority := alert_config.2 |}.

(** The measurements that [_perform_enhanced_analysis] of
    [EnhancedShelfDetector] takes from OpenCV and NumPy before it scores
    them. *)
Record Measurements := mkMeasurements {
  m_color_variance : Q;
  m_edge_density : Q;
  m_texture_energy : Q;
  m_brightness_std : Q;
  m_contour_count : nat
}.

(** The block "Calculate individual method scores" of
    [_perform_enhanced_analysis], with the thresholds of
    [self.empty_thresholds]. *)
Definition method_scores_of (m : Measurements)
  : EnhancedShelfDetector.Analysis :=
  {| EnhancedShelfDetector.color_score := Qmin 1 (m_color_variance m / 200);
     EnhancedShelfDetector.edge_score :=
       Qmin 1 (m_edge_density m * 1000 / 80);
     EnhancedShelfDetector.texture_score :=
       Qmin 1 (m_texture_energy m / 0.01);
     EnhancedShelfDetector.brightness_score :=
       Qmin 1 (m_brightness_std m / 15);
     EnhancedShelfDetector.contour_score :=
       Qmin 1 (Qnat (m_contour_count m) / 5) |}.

(** ** Reading a sequence of calls *)

(** The timestamp of a call that analyses [shelf_name] on a region that
    passes the size checks. *)
Definition accepted_at (minimum : nat) (shelf_name : string) (call : Call)
  : option Q :=
  match call with
  | Analyze roi name timestamp now =>
      if negb (rejected minimum roi) && bool_decide (name = shelf_name)
      then Some (default now timestamp) else None
  | UpdateSensitivity _ => None
  end.

(** A call that analyses a region that passes the size checks. *)
Definition is_accepted (minimum : nat) (call : Call) : bool :=
  match call with
  | Analyze roi _ _ _ => negb (rejected minimum roi)
  | UpdateSensitivity _ => false
  end.

(** The times at which [shelf_name] alerted, oldest first. *)
Definition alert_times (shelf_name : string) (fired : list (string * Q))
  : list Q :=
  omap (λ alert : string * Q,
          if bool_decide (alert.1 = shelf_name) then Some alert.2 else None)
       fired.

(** The five primary indicators of the two YOLO aggregators, counted. *)
Definition primary_count (uniformity : Uniformity) (objects : Objects)
    (color : Color) (texture : Texture) (structure : Structure) : nat :=
  count_true [is_uniform uniformity;
              (meaningful_object_count objects <=? 1)%nat;
              negb (has_diverse_colors color);
              negb (has_texture texture);
              negb (has_structure structure)].



(** The argument of the last [update_sensitivity] call of a sequence. *)
Definition last_update (calls : list Call) : option Q :=
  last (omap (λ call, match call with
                      | UpdateSensitivity v => Some v
                      | Analyze _ _ _ _ => None
                      end) calls).

(** ** Facts about the numeric helpers *)

Lemma Qltb_lt (x y : Q) : Qltb x y = true ↔ x < y.
Proof.
  unfold Qltb. rewrite Qlt_alt. destruct (x ?= y); split; congruence.
Qed.

Lemma Qltb_ge (x y : Q) : Qltb x y = false ↔ y <= x.
Proof.
  split; intros H.
  - apply Qnot_lt_le. intros Hlt. apply Qltb_lt in Hlt. congruence.
  - destruct (Qltb x y) eqn:E; [|reflexivity].
    apply Qltb_lt in E. exfalso. exact (Qle_not_lt _ _ H E).
Qed.

Lemma Qleb_le (x y : Q) : Qleb x y = true ↔ x <= y.
Proof.
  unfold Qleb. rewrite Qle_alt. destruct (x ?= y); split; congruence.
Qed.

Lemma Qleb_gt (x y : Q) : Qleb x y = false ↔ y < x.
Proof.
  split; intros H.
  - apply Qnot_le_lt. intros Hle. apply Qleb_le in Hle. congruence.
  - destruct (Qleb x y) eqn:E; [|reflexivity].
    apply Qleb_le in E. exfalso. exact (Qlt_not_le _ _ H E).
Qed.

(** Case analysis on Python's [min] and [max], with Leibniz equalities. *)
Lemma Qmin_cases (a b : Q) :
  (a <= b ∧ Qmin a b = a) ∨ (b < a ∧ Qmin a b = b).
Proof.
  unfold Qmin, GenericMinMax.gmin.
  destruct (a ?= b) eqn:E.
  - left. split; [rewrite Qle_alt; congruence | reflexivity].
  - left. split; [rewrite Qle_alt; congruence | reflexivity].
  - right. split; [rewrite Qgt_alt in *; exact E | reflexivity].
Qed.

Lemma Qmax_cases (a b : Q) :
  (b <= a ∧ Qmax a b = a) ∨ (a < b ∧ Qmax a b = b).
Proof.
  unfold Qmax, GenericMinMax.gmax.
  destruct (a ?= b) eqn:E.
  - left. split; [|reflexivity].
    rewrite <- Qeq_alt in E. rewrite E. apply Qle_refl.
  - right. split; [rewrite Qlt_alt; exact E | reflexivity].
  - left. split; [|reflexivity].
    apply Qlt_le_weak. rewrite Qgt_alt. exact E.
Qed.

Ltac case_min a b :=
  let H := fresh "Hmin" in
  let E := fresh "Emin" in
  destruct (Qmin_cases a b) as [[H E] | [H E]]; rewrite ?E in *.

Ltac case_max a b :=
  let H := fresh "Hmax" in
  let E := fresh "Emax" in
  destruct (Qmax_cases a b) as [[H E] | [H E]]; rewrite ?E in *.

Lemma Qnat_nonneg (n : nat) : 0 <= Qnat n.
Proof.
  unfold Qnat. change 0 with (inject_Z 0). rewrite <- Zle_Qle. lia.
Qed.

Lemma count_true_le (flags : list bool) :
  (count_true flags ≤ length flags)%nat.
Proof. unfold count_true. apply length_filter. Qed.

Lemma length_lastn {A} (n : nat) (xs : list A) :
  length (lastn n xs) = Nat.min n (length xs).
Proof. unfold lastn. rewrite length_drop. lia. Qed.

(** ** History bound and cooldown spacing, for any class that keeps the
    four temporal attributes *)

Lemma length_trim {A} (capacity : nat) (history : list A) :
  (length history ≤ capacity + 1 → length (trim capacity history) ≤ capacity)%nat.
Proof.
  unfold trim. intros Hlen.
  destruct (capacity <? length history)%nat eqn:E.
  - rewrite length_drop. lia.
  - apply Nat.ltb_ge in E. exact E.
Qed.

Lemma spaced_nil (cooldown : Q) : spaced cooldown [].
Proof. intros i j n t1 t2 _ H. rewrite lookup_nil in H. discriminate. Qed.

Lemma spaced_snoc (cooldown : Q) (fired : list (string * Q))
    (shelf_name : string) (t : Q) :
  spaced cooldown fired →
  (∀ t0, (shelf_name, t0) ∈ fired → cooldown <= t - t0) →
  spaced cooldown (fired ++ [(shelf_name, t)]).
Proof.
  intros Hsp Hnew i j n t1 t2 Hij Hi Hj.
  apply lookup_snoc_Some in Hj as [[Hjlt Hj] | [Hjeq Hj]].
  - rewrite lookup_app_l in Hi by lia. eauto.
  - subst j. rewrite lookup_app_l in Hi by lia.
    inversion Hj; subst. apply Hnew.
    eapply list_elem_of_lookup_2; eauto.
Qed.

Section Temporal.

Context {D Rec R : Type}.
Variable V : View D Rec.
Variable analyze :
  D → option Image → string → option Q → Q → option (D * R).
Variable update : D → Q → D.
Variable should_alert : R → bool.

(** What each class is shown to satisfy further down. *)
Hypothesis analyze_spec : ∀ self roi shelf_name timestamp now self' result,
  analyze self roi shelf_name timestamp now = Some (self', result) →
  (self' = self ∧ should_alert result = false) ∨
  (∃ record,
     accepted_step V self self' shelf_name (default now timestamp)
       (should_alert result) record).

Hypothesis analyze_total : ∀ self roi shelf_name timestamp now,
  consistent V self →
  is_Some (analyze self roi shelf_name timestamp now).

Hypothesis update_spec : ∀ self v,
  v_history V (update self v) = v_history V self ∧
  v_cooldown V (update self v) = v_cooldown V self ∧
  v_capacity V (update self v) = v_capacity V self ∧
  v_cooldown_time V (update self v) = v_cooldown_time V self.

Lemma accepted_step_bounded self self' shelf_name t fired record :
  accepted_step V self self' shelf_name t fired record →
  bounded V self → bounded V self'.
Proof.
  intros (Hcap & _ & Hhist & _) Hb n h Hn.
  rewrite Hhist in Hn. rewrite Hcap.
  destruct (decide (shelf_name = n)) as [->|Hne].
  - rewrite lookup_insert_eq in Hn. inversion Hn; subst.
    apply length_trim. rewrite length_app. simpl.
    destruct (v_history V self !! n) as [h0|] eqn:E; simpl.
    + apply Hb in E. lia.
    + lia.
  - rewrite lookup_insert_ne in Hn by done. eauto.
Qed.

Lemma accepted_step_consistent self self' shelf_name t fired record :
  accepted_step V self self' shelf_name t fired record →
  consistent V self → consistent V self'.
Proof.
  intros (_ & _ & Hhist & Hcool) Hc n Hn.
  rewrite Hhist in Hn. unfold cooldown_after_init in Hcool.
  assert (Htable : is_Some
    (match v_history V self !! shelf_name with
     | Some _ => v_cooldown V self
     | None => <[shelf_name := 0]> (v_cooldown V self)
     end !! n)).
  { destruct (decide (shelf_name = n)) as [->|Hne].
    - destruct (v_history V self !! n) eqn:E.
      + apply Hc. rewrite E. eauto.
      + rewrite lookup_insert_eq. eauto.
    - rewrite lookup_insert_ne in Hn by done.
      destruct (v_history V self !! shelf_name);
        [|rewrite lookup_insert_ne by done]; auto. }
  destruct fired.
  - destruct Hcool as [-> _].
    destruct (decide (shelf_name = n)) as [->|Hne].
    + rewrite lookup_insert_eq. eauto.
    + rewrite lookup_insert_ne by done. exact Htable.
  - rewrite Hcool. exact Htable.
Qed.

Lemma step_invariants self call self' out :
  step analyze update self call = Some (self', out) →
  (bounded V self → bounded V self') ∧
  (consistent V self → consistent V self') ∧
  v_cooldown_time V self' = v_cooldown_time V self.
Proof.
  destruct call as [roi n ts now | v]; simpl; intros Hstep.
  - destruct (analyze self roi n ts now) as [[s r]|] eqn:E;
      simpl in Hstep; inversion Hstep; subst; clear Hstep.
    apply analyze_spec in E as [[-> _] | [rec Hacc]]; [done|].
    split; [|split].
    + eauto using accepted_step_bounded.
    + eauto using accepted_step_consistent.
    + apply Hacc.
  - inversion Hstep; subst; clear Hstep.
    destruct (update_spec self v) as (Hh & Hc & Hcap & Hcd).
    unfold bounded, consistent. rewrite Hh, Hc, Hcap, Hcd. done.
Qed.

Lemma step_total self call :
  consistent V self → is_Some (step analyze update self call).
Proof.
  intros Hc. destruct call as [roi n ts now | v]; simpl; [|eauto].
  destruct (analyze_total self roi n ts now Hc) as [[s r] ->].
  simpl. eauto.
Qed.

(** From a consistent instance no call of the loop raises. *)
Lemma run_total calls : ∀ self,
  consistent V self → is_Some (run analyze update self calls).
Proof.
  induction calls as [|call rest IH]; intros self Hc; simpl; [eauto|].
  destruct (step_total self call Hc) as [[self1 out] Hstep].
  rewrite Hstep. simpl.
  apply step_invariants in Hstep as (_ & Hc1 & _).
  destruct (IH self1 (Hc1 Hc)) as [[self2 log] ->]. simpl. eauto.
Qed.

Lemma run_bounded calls : ∀ self self' log,
  run analyze update self calls = Some (self', log) →
  bounded V self → bounded V self'.
Proof.
  induction calls as [|call rest IH]; simpl; intros self self' log Hrun Hb.
  - inversion Hrun; subst. exact Hb.
  - destruct (step analyze update self call) as [[self1 out]|] eqn:Hstep;
      simpl in Hrun; [|discriminate].
    destruct (run analyze update self1 rest) as [[self2 log2]|] eqn:Hrest;
      simpl in Hrun; inversion Hrun; subst; clear Hrun.
    apply step_invariants in Hstep as (Hb1 & _ & _).
    eapply IH; eauto.
Qed.

Lemma accepted_step_quiet self self' shelf_name t record past :
  accepted_step V self self' shelf_name t false record →
  covered V self past → covered V self' past.
Proof.
  intros (_ & _ & Hhist & Hcool) Hcov n t0 Hin.
  destruct (Hcov n t0 Hin) as [Hn (c & Hc & Hle)].
  simpl in Hcool. rewrite Hhist, Hcool. unfold cooldown_after_init.
  destruct (decide (shelf_name = n)) as [->|Hne].
  - rewrite lookup_insert_eq. split; [eauto|].
    destruct Hn as [h ->]. eauto.
  - rewrite lookup_insert_ne by done. split; [done|].
    destruct (v_history V self !! shelf_name);
      [|rewrite lookup_insert_ne by done]; eauto.
Qed.

Lemma accepted_step_fired self self' shelf_name t record past :
  0 <= v_cooldown_time V self →
  accepted_step V self self' shelf_name t true record →
  covered V self past →
  covered V self' (past ++ [(shelf_name, t)]) ∧
  ∀ t0, (shelf_name, t0) ∈ past → v_cooldown_time V self <= t - t0.
Proof.
  intros Hcd (_ & _ & Hhist & Hcool & Hgap) Hcov.
  unfold cooldown_after_init in *.
  assert (Hold : ∀ t0, (shelf_name, t0) ∈ past →
                   v_cooldown_time V self <= t - t0).
  { intros t0 Hin. destruct (Hcov _ _ Hin) as [[h Hh] (c & Hc & Hle)].
    rewrite Hh in Hgap. rewrite Hc in Hgap. simpl in Hgap. lra. }
  split; [|exact Hold].
  intros n t0 Hin. rewrite Hhist, Hcool.
  apply elem_of_app in Hin as [Hin | Hin].
  - destruct (Hcov n t0 Hin) as [Hn (c & Hc & Hle)].
    destruct (decide (shelf_name = n)) as [->|Hne].
    + rewrite !lookup_insert_eq. split; [eauto|].
      exists t. split; [done|]. specialize (Hold t0 Hin). lra.
    + rewrite !lookup_insert_ne by done. split; [done|].
      destruct (v_history V self !! shelf_name);
        [|rewrite lookup_insert_ne by done]; eauto.
  - apply list_elem_of_singleton in Hin. inversion Hin; subst.
    rewrite !lookup_insert_eq. split; [eauto|].
    exists t. split; [done|]. lra.
Qed.

Lemma run_spaced_from calls : ∀ self past self' log,
  0 <= v_cooldown_time V self →
  covered V self past →
  spaced (v_cooldown_time V self) past →
  run analyze update self calls = Some (self', log) →
  spaced (v_cooldown_time V self) (past ++ alerts should_alert log).
Proof.
  induction calls as [|call rest IH]; simpl;
    intros self past self' log Hcd Hcov Hsp Hrun.
  - inversion Hrun; subst. simpl. rewrite app_nil_r. exact Hsp.
  - destruct (step analyze update self call) as [[self1 out]|] eqn:Hstep;
      simpl in Hrun; [|discriminate].
    destruct (run analyze update self1 rest) as [[self2 log2]|] eqn:Hrest;
      simpl in Hrun; inversion Hrun; subst; clear Hrun.
    pose proof (step_invariants _ _ _ _ Hstep) as (_ & _ & Hsame).
    unfold alerts. cbn [omap list_omap]. fold (alerts should_alert log2).
    destruct call as [roi n ts now | v]; simpl in Hstep.
    + destruct (analyze self roi n ts now) as [[s r]|] eqn:E;
        simpl in Hstep; inversion Hstep; subst; clear Hstep.
      cbn [alert_of].
      apply analyze_spec in E as [[-> Hquiet] | [rec Hacc]].
      * rewrite Hquiet. eapply IH; eauto.
      * destruct (should_alert r) eqn:Hfire.
        -- destruct (accepted_step_fired _ _ _ _ _ _ Hcd Hacc Hcov)
             as [Hcov1 Hold].
           rewrite <- Hsame.
           change (past ++ (n, default now ts) :: alerts should_alert log2)
             with (past ++ [(n, default now ts)]
                        ++ alerts should_alert log2).
           rewrite app_assoc.
           eapply IH; eauto.
           ++ rewrite Hsame. exact Hcd.
           ++ rewrite Hsame. apply spaced_snoc; assumption.
        -- rewrite <- Hsame. eapply IH; eauto.
           ++ rewrite Hsame. exact Hcd.
           ++ eapply accepted_step_quiet; eauto.
           ++ rewrite Hsame. exact Hsp.
    + inversion Hstep; subst; clear Hstep. cbn [alert_of].
      destruct (update_spec self v) as (Hh & Hc & _ & _).
      rewrite <- Hsame. eapply IH; eauto.
      * rewrite Hsame. exact Hcd.
      * unfold covered. rewrite Hh, Hc. exact Hcov.
      * rewrite Hsame. exact Hsp.
Qed.

Lemma run_spaced self calls self' log :
  0 <= v_cooldown_time V self →
  run analyze update self calls = Some (self', log) →
  spaced (v_cooldown_time V self) (alerts should_alert log).
Proof.
  intros Hcd Hrun.
  apply (run_spaced_from calls self [] self' log Hcd); auto.
  - intros n t0 Hin. apply elem_of_nil in Hin. done.
  - apply spaced_nil.
Qed.

End Temporal.

(** ** ImprovedYOLODetector: the analysis entry point *)

Lemma rejected_false (minimum : nat) (roi : Image) :
  rejected minimum (Some roi) = false →
  (size roi =? 0)%nat = false ∧
  ((shape0 roi <? minimum)%nat || (shape1 roi <? minimum)%nat) = false.
Proof.
  simpl. rewrite <- orb_assoc. intros H.
  apply orb_false_elim in H. exact H.
Qed.

Section ImprovedEntry.

Import ImprovedYOLODetector.

Variable perform : Image → Analysis.

Lemma improved_initialize_history_attrs self n :
  sensitivity (initialize_history self n) = sensitivity self ∧
  detection_params (initialize_history self n) = detection_params self ∧
  history_length (initialize_history self n) = history_length self ∧
  cooldown_time (initialize_history self n) = cooldown_time self ∧
  frame_count (initialize_history self n) = frame_count self.
Proof.
  unfold initialize_history.
  destruct (detection_history self !! n); repeat split; reflexivity.
Qed.

Lemma improved_initialize_history_tables self n :
  detection_history (initialize_history self n) !! n
    = Some (default [] (detection_history self !! n)) ∧
  <[n := default [] (detection_history self !! n)]> (detection_history self)
    = detection_history (initialize_history self n) ∧
  alert_cooldown (initialize_history self n)
    = cooldown_after_init improved_view self n.
Proof.
  unfold initialize_history, cooldown_after_init. simpl.
  destruct (detection_history self !! n) as [h|] eqn:E; simpl.
  - rewrite insert_id by done. done.
  - rewrite lookup_insert_eq. done.
Qed.

Lemma improved_record_detection_spec self n rec self' :
  record_detection self n rec = Some self' →
  ∃ h, detection_history self !! n = Some h ∧
       self' = set_detection_history
                 (<[n := trim (history_length self) (h ++ [rec])]>
                    (detection_history self)) self.
Proof.
  unfold record_detection. intros H.
  destruct (detection_history self !! n) as [h|]; simpl in H;
    [|discriminate].
  inversion H; subst. exists h. split; reflexivity.
Qed.

Lemma improved_should_trigger_alert_spec self n t c stab level self' fired :
  _should_trigger_alert self n t c stab level = Some (self', fired) →
  (fired = false ∧ self' = self) ∨
  (fired = true ∧ c_is_empty c = true ∧
   ∃ last_alert,
     alert_cooldown self !! n = Some last_alert ∧
     cooldown_time self <= t - last_alert ∧
     self' = set_alert_cooldown (<[n := t]> (alert_cooldown self)) self).
Proof.
  unfold _should_trigger_alert. intros H.
  destruct (c_is_empty c) eqn:Hempty; simpl in H;
    [|inversion H; auto].
  destruct (is_NONE level); simpl in H; [inversion H; auto|].
  destruct (Qltb (c_empty_confidence c) 0.5); [inversion H; auto|].
  destruct (consistency_score stab <? 2)%nat; [inversion H; auto|].
  destruct (alert_cooldown self !! n) as [last_alert|]; simpl in H;
    [|discriminate].
  destruct (Qltb (t - last_alert) (cooldown_time self)) eqn:Hcool;
    inversion H; subst; auto.
  right. apply Qltb_ge in Hcool. eauto 10.
Qed.

Lemma improved_should_trigger_alert_total self n t c stab level :
  is_Some (alert_cooldown self !! n) →
  is_Some (_should_trigger_alert self n t c stab level).
Proof.
  intros [last_alert Hlast]. unfold _should_trigger_alert.
  rewrite Hlast. simpl. repeat case_match; eauto.
Qed.

(** A region below the minimum size, an empty one or [None] yields the
    canned result and leaves the instance as it was. *)
Lemma improved_rejected self roi n ts now :
  rejected 50 roi = true →
  ∃ msg, analyze_shelf_region perform self roi n ts now
         = Some (self, _create_error_result self msg n now).
Proof.
  unfold analyze_shelf_region, rejected.
  destruct roi as [img|]; [|eauto].
  destruct (size img =? 0)%nat; [eauto|]. simpl.
  intros ->. eauto.
Qed.

(** An accepted region goes through the aggregator, the history and the
    alert policy, in this order. *)
Lemma improved_accepted self img n ts now self' r :
  rejected 50 (Some img) = false →
  analyze_shelf_region perform self (Some img) n ts now = Some (self', r) →
  let t := default now ts in
  let self1 :=
    initialize_history (set_frame_count (frame_count self + 1) self) n in
  let c := _calculate_improved_confidence self1 (perform img) in
  let level :=
    _determine_alert_level (c_empty_confidence c) (c_is_empty c) in
  ∃ rec self2 h2,
    h_timestamp rec = t ∧
    h_is_empty rec = c_is_empty c ∧
    record_detection self1 n rec = Some self2 ∧
    detection_history self2 !! n = Some h2 ∧
    _should_trigger_alert self2 n t c (stability_of_history h2) level
      = Some (self', r_should_alert r) ∧
    r_is_empty r = c_is_empty c ∧
    r_confidence r = c_empty_confidence c ∧
    r_fullness_score r = c_fullness_score c ∧
    r_stability r = consistency_score (stability_of_history h2) ∧
    r_details r = DetailsAnalysis (perform img).
Proof.
  intros Hrej. apply rejected_false in Hrej as [Hsize Hshape].
  unfold analyze_shelf_region. rewrite Hsize, Hshape. cbv zeta.
  intros H.
  match type of H with
  | (record_detection ?s ?n ?rec ≫= _) = _ =>
      destruct (record_detection s n rec) as [self2|] eqn:Hrec;
      simpl in H; [|discriminate]; exists rec, self2
  end.
  unfold _calculate_stability_metrics in H.
  destruct (detection_history self2 !! n) as [h2|] eqn:Hh2;
    simpl in H; [|discriminate].
  exists h2.
  match type of H with
  | (?X ≫= _) = _ => destruct X as [[self3 fired]|] eqn:Halert;
                      simpl in H; [|discriminate]
  end.
  inversion H; subst; clear H. simpl.
  repeat split; try reflexivity; assumption.
Qed.

Lemma improved_analyze_spec self roi n ts now self' r :
  analyze_shelf_region perform self roi n ts now = Some (self', r) →
  (self' = self ∧ r_should_alert r = false) ∨
  (∃ rec, accepted_step improved_view self self' n (default now ts)
            (r_should_alert r) rec).
Proof.
  intros H. destruct (rejected 50 roi) eqn:Hrej.
  - destruct (improved_rejected self roi n ts now Hrej) as [msg Hmsg].
    rewrite Hmsg in H. inversion H; subst. left. done.
  - destruct roi as [img|]; [|discriminate]. right.
    destruct (improved_accepted _ _ _ _ _ _ _ Hrej H)
      as (rec & self2 & h2 & _ & _ & Hrec & _ & Halert & _).
    exists rec.
    set (self0 := set_frame_count (frame_count self + 1) self) in *.
    destruct (improved_initialize_history_attrs self0 n)
      as (_ & _ & Hcap & Hcd & _).
    destruct (improved_initialize_history_tables self0 n)
      as (Hlook & Hmap & Htable).
    apply improved_record_detection_spec in Hrec as (h & Hh & ->).
    rewrite Hlook in Hh. inversion Hh; subst h; clear Hh.
    apply improved_should_trigger_alert_spec in Halert
      as [[-> ->] | (-> & _ & last & Hlast & Hgap & ->)];
      unfold accepted_step; simpl; rewrite ?Hcap, ?Hcd, ?Htable;
      rewrite <- Hmap, insert_insert_eq; simpl.
    + done.
    + repeat split; try done.
      simpl in Hlast. rewrite Htable in Hlast.
      change (v_cooldown improved_view self0) with (alert_cooldown self).
      unfold cooldown_after_init in *. simpl in *.
      rewrite Hlast. simpl. rewrite Hcd in Hgap. exact Hgap.
Qed.

Lemma improved_analyze_total self roi n ts now :
  consistent improved_view self →
  is_Some (analyze_shelf_region perform self roi n ts now).
Proof.
  intros Hc. destruct (rejected 50 roi) eqn:Hrej.
  - destruct (improved_rejected self roi n ts now Hrej) as [msg ->]. eauto.
  - destruct roi as [img|]; [|discriminate].
    apply rejected_false in Hrej as [Hsize Hshape].
    unfold analyze_shelf_region. rewrite Hsize, Hshape. cbv zeta.
    set (self0 := set_frame_count (frame_count self + 1) self).
    destruct (improved_initialize_history_tables self0 n)
      as (Hlook & _ & Htable).
    unfold record_detection. rewrite Hlook. simpl.
    unfold _calculate_stability_metrics. simpl.
    rewrite lookup_insert_eq. simpl.
    match goal with
    | |- is_Some (?X ≫= _) =>
        assert (Hs : is_Some X)
    end.
    { apply improved_should_trigger_alert_total. simpl.
      rewrite Htable. unfold cooldown_after_init. simpl.
      destruct (detection_history self !! n) eqn:E.
      - apply Hc. simpl. rewrite E. eauto.
      - rewrite lookup_insert_eq. eauto. }
    destruct Hs as [[self3 fired] ->]. simpl. eauto.
Qed.

Lemma improved_update_spec self v :
  v_history improved_view (update_sensitivity self v)
    = v_history improved_view self ∧
  v_cooldown improved_view (update_sensitivity self v)
    = v_cooldown improved_view self ∧
  v_capacity improved_view (update_sensitivity self v)
    = v_capacity improved_view self ∧
  v_cooldown_time improved_view (update_sensitivity self v)
    = v_cooldown_time improved_view self.
Proof. repeat split; reflexivity. Qed.

End ImprovedEntry.

(** ** EnhancedShelfDetector: the analysis entry point *)

Section EnhancedEntry.

Import EnhancedShelfDetector.

Variable perform : Image → Analysis.

Lemma enhanced_initialize_history_attrs self n :
  sensitivity (initialize_history self n) = sensitivity self ∧
  history_length (initialize_history self n) = history_length self ∧
  cooldown_time (initialize_history self n) = cooldown_time self ∧
  frame_count (initialize_history self n) = frame_count self.
Proof.
  unfold initialize_history.
  destruct (detection_history self !! n); repeat split; reflexivity.
Qed.

Lemma enhanced_initialize_history_tables self n :
  detection_history (initialize_history self n) !! n
    = Some (default [] (detection_history self !! n)) ∧
  <[n := default [] (detection_history self !! n)]> (detection_history self)
    = detection_history (initialize_history self n) ∧
  alert_cooldown (initialize_history self n)
    = cooldown_after_init enhanced_view self n.
Proof.
  unfold initialize_history, cooldown_after_init. simpl.
  destruct (detection_history self !! n) as [h|] eqn:E; simpl.
  - rewrite insert_id by done. done.
  - rewrite lookup_insert_eq. done.
Qed.

Lemma enhanced_record_detection_spec self n rec self' :
  record_detection self n rec = Some self' →
  ∃ h, detection_history self !! n = Some h ∧
       self' = set_detection_history
                 (<[n := trim (history_length self) (h ++ [rec])]>
                    (detection_history self)) self.
Proof.
  unfold record_detection. intros H.
  destruct (detection_history self !! n) as [h|]; simpl in H;
    [|discriminate].
  inversion H; subst. exists h. split; reflexivity.
Qed.

Lemma enhanced_should_alert_spec self n t is_empty confidence stability
    self' fired :
  _should_alert self n t is_empty confidence stability
    = Some (self', fired) →
  (fired = false ∧ self' = self) ∨
  (fired = true ∧ is_empty = true ∧
   ∃ last_alert,
     alert_cooldown self !! n = Some last_alert ∧
     cooldown_time self <= t - last_alert ∧
     self' = set_alert_cooldown (<[n := t]> (alert_cooldown self)) self).
Proof.
  unfold _should_alert. intros H.
  destruct is_empty; simpl in H; [|inversion H; auto].
  destruct (Qltb confidence 0.6); [inversion H; auto|].
  destruct (stability <? 3)%nat; [inversion H; auto|].
  destruct (alert_cooldown self !! n) as [last_alert|]; simpl in H;
    [|discriminate].
  destruct (Qltb (t - last_alert) (cooldown_time self)) eqn:Hcool;
    inversion H; subst; auto.
  right. apply Qltb_ge in Hcool. eauto 10.
Qed.

Lemma enhanced_should_alert_total self n t is_empty confidence stability :
  is_Some (alert_cooldown self !! n) →
  is_Some (_should_alert self n t is_empty confidence stability).
Proof.
  intros [last_alert Hlast]. unfold _should_alert.
  rewrite Hlast. simpl. repeat case_match; eauto.
Qed.

Lemma enhanced_rejected self roi n ts now :
  rejected 30 roi = true →
  ∃ msg, analyze_shelf_region perform self roi n ts now
         = Some (self, _create_result self true 1 msg n empty_high now).
Proof.
  unfold analyze_shelf_region, rejected.
  destruct roi as [img|]; [|eauto].
  destruct (size img =? 0)%nat; [eauto|]. simpl.
  intros ->. eauto.
Qed.

Lemma enhanced_accepted self img n ts now self' r :
  rejected 30 (Some img) = false →
  analyze_shelf_region perform self (Some img) n ts now = Some (self', r) →
  let t := default now ts in
  let self1 :=
    initialize_history (set_frame_count (frame_count self + 1) self) n in
  let c := _calculate_enhanced_confidence self1 (perform img) in
  ∃ rec self2,
    h_timestamp rec = t ∧
    h_is_empty rec = c.1.2 ∧
    record_detection self1 n rec = Some self2 ∧
    _should_alert self2 n t c.1.2 c.1.1 (_calculate_stability self2 n)
      = Some (self', r_should_alert r) ∧
    r_is_empty r = c.1.2 ∧
    r_confidence r = c.1.1 ∧
    r_stability r = _calculate_stability self2 n ∧
    detection_history self' = detection_history self2.
Proof.
  intros Hrej. apply rejected_false in Hrej as [Hsize Hshape].
  unfold analyze_shelf_region. rewrite Hsize, Hshape. cbv zeta.
  destruct (_calculate_enhanced_confidence _ (perform img))
    as [[confidence is_empty] visual_state] eqn:Hc.
  intros H.
  match type of H with
  | (record_detection ?s ?n ?rec ≫= _) = _ =>
      destruct (record_detection s n rec) as [self2|] eqn:Hrec;
      simpl in H; [|discriminate]; exists rec, self2
  end.
  match type of H with
  | (?X ≫= _) = _ => destruct X as [[self3 fired]|] eqn:Halert;
                      simpl in H; [|discriminate]
  end.
  inversion H; subst; clear H. simpl.
  repeat split; try reflexivity; try assumption.
  apply enhanced_should_alert_spec in Halert
    as [[_ ->] | (_ & _ & last & _ & _ & ->)]; reflexivity.
Qed.

Lemma enhanced_analyze_spec self roi n ts now self' r :
  analyze_shelf_region perform self roi n ts now = Some (self', r) →
  (self' = self ∧ r_should_alert r = false) ∨
  (∃ rec, accepted_step enhanced_view self self' n (default now ts)
            (r_should_alert r) rec).
Proof.
  intros H. destruct (rejected 30 roi) eqn:Hrej.
  - destruct (enhanced_rejected self roi n ts now Hrej) as [msg Hmsg].
    rewrite Hmsg in H. inversion H; subst. left. done.
  - destruct roi as [img|]; [|discriminate]. right.
    destruct (enhanced_accepted _ _ _ _ _ _ _ Hrej H)
      as (rec & self2 & _ & _ & Hrec & Halert & _).
    exists rec.
    set (self0 := set_frame_count (frame_count self + 1) self) in *.
    destruct (enhanced_initialize_history_attrs self0 n)
      as (_ & Hcap & Hcd & _).
    destruct (enhanced_initialize_history_tables self0 n)
      as (Hlook & Hmap & Htable).
    apply enhanced_record_detection_spec in Hrec as (h & Hh & ->).
    rewrite Hlook in Hh. inversion Hh; subst h; clear Hh.
    apply enhanced_should_alert_spec in Halert
      as [[-> ->] | (-> & _ & last & Hlast & Hgap & ->)];
      unfold accepted_step; simpl; rewrite ?Hcap, ?Hcd, ?Htable;
      rewrite <- Hmap, insert_insert_eq; simpl.
    + done.
    + repeat split; try done.
      simpl in Hlast. rewrite Htable in Hlast.
      change (v_cooldown enhanced_view self0) with (alert_cooldown self).
      unfold cooldown_after_init in *. simpl in *.
      rewrite Hlast. simpl. rewrite Hcd in Hgap. exact Hgap.
Qed.

Lemma enhanced_analyze_total self roi n ts now :
  consistent enhanced_view self →
  is_Some (analyze_shelf_region perform self roi n ts now).
Proof.
  intros Hc. destruct (rejected 30 roi) eqn:Hrej.
  - destruct (enhanced_rejected self roi n ts now Hrej) as [msg ->]. eauto.
  - destruct roi as [img|]; [|discriminate].
    apply rejected_false in Hrej as [Hsize Hshape].
    unfold analyze_shelf_region. rewrite Hsize, Hshape. cbv zeta.
    destruct (_calculate_enhanced_confidence _ (perform img))
      as [[confidence is_empty] visual_state] eqn:Hconf.
    set (self0 := set_frame_count (frame_count self + 1) self).
    destruct (enhanced_initialize_history_tables self0 n)
      as (Hlook & _ & Htable).
    unfold record_detection. rewrite Hlook. simpl.
    match goal with
    | |- is_Some (?X ≫= _) =>
        assert (Hs : is_Some X)
    end.
    { apply enhanced_should_alert_total. simpl.
      rewrite Htable. unfold cooldown_after_init. simpl.
      destruct (detection_history self !! n) eqn:E.
      - apply Hc. simpl. rewrite E. eauto.
      - rewrite lookup_insert_eq. eauto. }
    destruct Hs as [[self3 fired] ->]. simpl. eauto.
Qed.

Lemma enhanced_update_spec self v :
  v_history enhanced_view (update_sensitivity self v)
    = v_history enhanced_view self ∧
  v_cooldown enhanced_view (update_sensitivity self v)
    = v_cooldown enhanced_view self ∧
  v_capacity enhanced_view (update_sensitivity self v)
    = v_capacity enhanced_view self ∧
  v_cooldown_time enhanced_view (update_sensitivity self v)
    = v_cooldown_time enhanced_view self.
Proof. repeat split; reflexivity. Qed.

End EnhancedEntry.

(** ** YOLOv8mShelfDetector: the analysis entry point *)

Section Yolo8mEntry.

Import YOLOv8mShelfDetector.

Variable lib : Library.

Lemma yolo8m_initialize_history_attrs self n :
  sensitivity (initialize_history self n) = sensitivity self ∧
  detection_params (initialize_history self n) = detection_params self ∧
  history_length (initialize_history self n) = history_length self ∧
  cooldown_time (initialize_history self n) = cooldown_time self ∧
  yolo_model (initialize_history self n) = yolo_model self ∧
  product_classes (initialize_history self n) = product_classes self.
Proof.
  unfold initialize_history.
  destruct (detection_history self !! n); repeat split; reflexivity.
Qed.

Lemma yolo8m_initialize_history_tables self n :
  detection_history (initialize_history self n) !! n
    = Some (default [] (detection_history self !! n)) ∧
  <[n := default [] (detection_history self !! n)]> (detection_history self)
    = detection_history (initialize_history self n) ∧
  alert_cooldown (initialize_history self n)
    = cooldown_after_init yolo8m_view self n.
Proof.
  unfold initialize_history, cooldown_after_init. simpl.
  destruct (detection_history self !! n) as [h|] eqn:E; simpl.
  - rewrite insert_id by done. done.
  - rewrite lookup_insert_eq. done.
Qed.

Lemma yolo8m_record_detection_spec self n rec self' :
  record_detection self n rec = Some self' →
  ∃ h, detection_history self !! n = Some h ∧
       self' = set_detection_history
                 (<[n := trim (history_length self) (h ++ [rec])]>
                    (detection_history self)) self.
Proof.
  unfold record_detection. intros H.
  destruct (detection_history self !! n) as [h|]; simpl in H;
    [|discriminate].
  inversion H; subst. exists h. split; reflexivity.
Qed.

Lemma yolo8m_should_trigger_alert_spec self n c t self' fired :
  _should_trigger_alert self n c t = (self', fired) →
  (fired = false ∧ self' = self) ∨
  (fired = true ∧ c_is_empty c = true ∧
   cooldown_time self <= t - default 0 (alert_cooldown self !! n) ∧
   self' = set_alert_cooldown (<[n := t]> (alert_cooldown self)) self).
Proof.
  unfold _should_trigger_alert. intros H.
  destruct (c_is_empty c) eqn:Hempty; simpl in H;
    [|inversion H; auto].
  destruct (Qltb _ (cooldown_time self)) eqn:Hcool;
    [inversion H; auto|].
  destruct (Qleb 0.65 (c_empty_confidence c)); inversion H; subst; auto.
  right. apply Qltb_ge in Hcool. auto.
Qed.

Lemma yolo8m_rejected self roi n ts now :
  rejected 50 roi = true →
  ∃ msg, analyze_shelf_region lib self roi n ts now
         = Some (self, _create_error_result self msg n).
Proof.
  unfold analyze_shelf_region, rejected.
  destruct roi as [img|]; [|eauto].
  destruct (size img =? 0)%nat; [eauto|]. simpl.
  intros ->. eauto.
Qed.

Lemma yolo8m_accepted self img n ts now self' r :
  rejected 50 (Some img) = false →
  analyze_shelf_region lib self (Some img) n ts now = Some (self', r) →
  let t := default now ts in
  let self1 :=
    initialize_history (set_frame_count (frame_count self + 1) self) n in
  let c := _calculate_yolo_enhanced_confidence self1
             (_perform_yolo_enhanced_analysis lib self1 img) in
  ∃ rec self2,
    h_timestamp rec = t ∧
    h_is_empty rec = c_is_empty c ∧
    record_detection self1 n rec = Some self2 ∧
    _should_trigger_alert self2 n c t = (self', r_should_alert r) ∧
    r_is_empty r = c_is_empty c ∧
    r_confidence r = c_empty_confidence c ∧
    r_fullness_score r = c_fullness_score c ∧
    r_error r = None.
Proof.
  intros Hrej. apply rejected_false in Hrej as [Hsize Hshape].
  unfold analyze_shelf_region. rewrite Hsize, Hshape. cbv zeta.
  intros H.
  match type of H with
  | (record_detection ?s ?n ?rec ≫= _) = _ =>
      destruct (record_detection s n rec) as [self2|] eqn:Hrec;
      simpl in H; [|discriminate]; exists rec, self2
  end.
  match type of H with
  | context [_should_trigger_alert ?a ?b ?c ?d] =>
      destruct (_should_trigger_alert a b c d) as [self3 fired] eqn:Halert
  end.
  inversion H; subst; clear H. simpl.
  repeat split; try reflexivity; assumption.
Qed.

Lemma yolo8m_analyze_spec self roi n ts now self' r :
  analyze_shelf_region lib self roi n ts now = Some (self', r) →
  (self' = self ∧ r_should_alert r = false) ∨
  (∃ rec, accepted_step yolo8m_view self self' n (default now ts)
            (r_should_alert r) rec).
Proof.
  intros H. destruct (rejected 50 roi) eqn:Hrej.
  - destruct (yolo8m_rejected self roi n ts now Hrej) as [msg Hmsg].
    rewrite Hmsg in H. inversion H; subst. left. done.
  - destruct roi as [img|]; [|discriminate]. right.
    destruct (yolo8m_accepted _ _ _ _ _ _ _ Hrej H)
      as (rec & self2 & _ & _ & Hrec & Halert & _).
    exists rec.
    set (self0 := set_frame_count (frame_count self + 1) self) in *.
    destruct (yolo8m_initialize_history_attrs self0 n)
      as (_ & _ & Hcap & Hcd & _).
    destruct (yolo8m_initialize_history_tables self0 n)
      as (Hlook & Hmap & Htable).
    apply yolo8m_record_detection_spec in Hrec as (h & Hh & ->).
    rewrite Hlook in Hh. inversion Hh; subst h; clear Hh.
    apply yolo8m_should_trigger_alert_spec in Halert
      as [[-> ->] | (-> & _ & Hgap & ->)];
      unfold accepted_step; simpl; rewrite ?Hcap, ?Hcd, ?Htable;
      rewrite <- Hmap, insert_insert_eq; simpl.
    + done.
    + repeat split; try done.
      simpl in Hgap. rewrite Htable, Hcd in Hgap. exact Hgap.
Qed.

Lemma yolo8m_analyze_total self roi n ts now :
  consistent yolo8m_view self →
  is_Some (analyze_shelf_region lib self roi n ts now).
Proof.
  intros _. destruct (rejected 50 roi) eqn:Hrej.
  - destruct (yolo8m_rejected self roi n ts now Hrej) as [msg ->]. eauto.
  - destruct roi as [img|]; [|discriminate].
    apply rejected_false in Hrej as [Hsize Hshape].
    unfold analyze_shelf_region. rewrite Hsize, Hshape. cbv zeta.
    set (self0 := set_frame_count (frame_count self + 1) self).
    destruct (yolo8m_initialize_history_tables self0 n)
      as (Hlook & _ & _).
    unfold record_detection. rewrite Hlook. simpl.
    match goal with
    | |- context [_should_trigger_alert ?a ?b ?c ?d] =>
        destruct (_should_trigger_alert a b c d) as [self3 fired]
    end.
    eauto.
Qed.

Lemma yolo8m_update_spec self v :
  v_history yolo8m_view (update_sensitivity self v)
    = v_history yolo8m_view self ∧
  v_cooldown yolo8m_view (update_sensitivity self v)
    = v_cooldown yolo8m_view self ∧
  v_capacity yolo8m_view (update_sensitivity self v)
    = v_capacity yolo8m_view self ∧
  v_cooldown_time yolo8m_view (update_sensitivity self v)
    = v_cooldown_time yolo8m_view self.
Proof. repeat split; reflexivity. Qed.

End Yolo8mEntry.

(** * The claims *)

(** ** C1: minimum-size rejection *)

(** C1, as stated, fails for [YOLOv8mShelfDetector]: a 10 by 10 region is
    turned away, but the canned result says [is_empty = False] with
    confidence [0.0], not [is_empty = True] with confidence [1.0]. *)
Lemma C1_yolo8m_rejection_not_empty :
  rejected 50 (Some tiny_region) = true ∧
  ∃ self' r,
    YOLOv8mShelfDetector.analyze_shelf_region yolo8m_sample
      (YOLOv8mShelfDetector.__init__ 0.7 None) (Some tiny_region) "shelf"
      (Some 10) 0 = Some (self', r) ∧
    YOLOv8mShelfDetector.r_is_empty r = false ∧
    YOLOv8mShelfDetector.r_confidence r == 0 ∧
    ¬ YOLOv8mShelfDetector.r_confidence r == 1.
Proof.
  split; [reflexivity|].
  eexists _, _. split; [reflexivity|].
  simpl. split; [reflexivity|]. split; [reflexivity|]. discriminate.
Qed.

(** C1, amended: a region that is missing, has no samples or has a side
    below the minimum (50 pixels in the two YOLO detectors, 30 in the
    enhanced detector) gets a canned result that depends neither on the
    samples nor on the extractors, and the instance is left untouched.
    The canned result is [is_empty = True], confidence [1.0] in
    [ImprovedYOLODetector] and [EnhancedShelfDetector]; it is
    [is_empty = False], confidence [0.0] in [YOLOv8mShelfDetector]. *)
Theorem C1_minimum_size_rejection
    (roi roi' : option Image) (shelf_name : string) (timestamp : option Q)
    (now : Q) (Hshape : same_shape roi roi') :
  (∀ (perform perform' : Image → ImprovedYOLODetector.Analysis) self,
     rejected 50 roi = true →
     ∃ r,
       ImprovedYOLODetector.analyze_shelf_region perform self roi
         shelf_name timestamp now = Some (self, r) ∧
       ImprovedYOLODetector.analyze_shelf_region perform' self roi'
         shelf_name timestamp now = Some (self, r) ∧
       ImprovedYOLODetector.r_is_empty r = true ∧
       ImprovedYOLODetector.r_confidence r == 1) ∧
  (∀ (perform perform' : Image → EnhancedShelfDetector.Analysis) self,
     rejected 30 roi = true →
     ∃ r,
       EnhancedShelfDetector.analyze_shelf_region perform self roi
         shelf_name timestamp now = Some (self, r) ∧
       EnhancedShelfDetector.analyze_shelf_region perform' self roi'
         shelf_name timestamp now = Some (self, r) ∧
       EnhancedShelfDetector.r_is_empty r = true ∧
       EnhancedShelfDetector.r_confidence r == 1) ∧
  (∀ (lib lib' : YOLOv8mShelfDetector.Library) self,
     rejected 50 roi = true →
     ∃ r,
       YOLOv8mShelfDetector.analyze_shelf_region lib self roi
         shelf_name timestamp now = Some (self, r) ∧
       YOLOv8mShelfDetector.analyze_shelf_region lib' self roi'
         shelf_name timestamp now = Some (self, r) ∧
       YOLOv8mShelfDetector.r_is_empty r = false ∧
       YOLOv8mShelfDetector.r_confidence r == 0).
Proof.
  assert (Hsize : ∀ a b, same_shape (Some a) (Some b) →
            size a = size b ∧ shape0 a = shape0 b ∧ shape1 a = shape1 b).
  { intros a b (H0 & H1 & Hc). unfold size. rewrite H0, H1, Hc. done. }
  split; [|split].
  - intros perform perform' self Hrej.
    unfold ImprovedYOLODetector.analyze_shelf_region.
    destruct roi as [a|], roi' as [b|]; try contradiction.
    + destruct (Hsize a b Hshape) as (<- & <- & <-).
      simpl in Hrej. rewrite <- orb_assoc in Hrej.
      destruct (size a =? 0)%nat; [|simpl in Hrej; rewrite Hrej];
        eexists; repeat split; reflexivity.
    + eexists; repeat split; reflexivity.
  - intros perform perform' self Hrej.
    unfold EnhancedShelfDetector.analyze_shelf_region.
    destruct roi as [a|], roi' as [b|]; try contradiction.
    + destruct (Hsize a b Hshape) as (<- & <- & <-).
      simpl in Hrej. rewrite <- orb_assoc in Hrej.
      destruct (size a =? 0)%nat; [|simpl in Hrej; rewrite Hrej];
        eexists; repeat split; reflexivity.
    + eexists; repeat split; reflexivity.
  - intros lib lib' self Hrej.
    unfold YOLOv8mShelfDetector.analyze_shelf_region.
    destruct roi as [a|], roi' as [b|]; try contradiction.
    + destruct (Hsize a b Hshape) as (<- & <- & <-).
      simpl in Hrej. rewrite <- orb_assoc in Hrej.
      destruct (size a =? 0)%nat; [|simpl in Hrej; rewrite Hrej];
        eexists; repeat split; reflexivity.
    + eexists; repeat split; reflexivity.
Qed.

(** C1 at a 10 by 10 region, against a region of the same shape with
    other samples. *)
Lemma C1_minimum_size_rejection_witness :
  same_shape (Some tiny_region) (Some (uniform_region 10 10 7)) ∧
  rejected 50 (Some tiny_region) = true ∧
  ∃ r,
    ImprovedYOLODetector.analyze_shelf_region improved_sample
      (ImprovedYOLODetector.__init__ 0.7) (Some tiny_region) "shelf"
      (Some 10) 0 = Some (ImprovedYOLODetector.__init__ 0.7, r) ∧
    ImprovedYOLODetector.analyze_shelf_region (λ _, improved_busy)
      (ImprovedYOLODetector.__init__ 0.7) (Some (uniform_region 10 10 7))
      "shelf" (Some 10) 0 = Some (ImprovedYOLODetector.__init__ 0.7, r) ∧
    ImprovedYOLODetector.r_is_empty r = true ∧
    ImprovedYOLODetector.r_confidence r == 1.
Proof.
  assert (Hshape : same_shape (Some tiny_region)
                     (Some (uniform_region 10 10 7))).
  { simpl. repeat split; reflexivity. }
  split; [exact Hshape|]. split; [reflexivity|].
  exact (proj1 (C1_minimum_size_rejection (Some tiny_region)
                  (Some (uniform_region 10 10 7)) "shelf" (Some 10) 0
                  Hshape)
           improved_sample (λ _, improved_busy)
           (ImprovedYOLODetector.__init__ 0.7) eq_refl).
Defined.

(** ** C2: range of the aggregated confidence *)

(** C2, evaluated on the code: a freshly built detector at the default
    sensitivity 0.7 analyses a stocked region.  The aggregator takes the
    [is_empty = False] branch, multiplies by [2 - sensitivity = 1.3] and
    clamps from below only, so both [confidence] and [fullness_score]
    leave [[0, 1]]: 1.06743 in [ImprovedYOLODetector], 1.01335 in
    [YOLOv8mShelfDetector]. *)
Theorem C2_confidence_exceeds_one :
  (∃ self' r,
     ImprovedYOLODetector.analyze_shelf_region improved_sample
       (ImprovedYOLODetector.__init__ 0.7) (Some busy_region) "shelf"
       (Some 10) 0 = Some (self', r) ∧
     ImprovedYOLODetector.r_is_empty r = false ∧
     ImprovedYOLODetector.r_confidence r == 1.06743 ∧
     ImprovedYOLODetector.r_fullness_score r == 1.06743) ∧
  (∃ self' r,
     YOLOv8mShelfDetector.analyze_shelf_region yolo8m_sample
       (YOLOv8mShelfDetector.__init__ 0.7 None) (Some busy_region) "shelf"
       (Some 10) 0 = Some (self', r) ∧
     YOLOv8mShelfDetector.r_is_empty r = false ∧
     YOLOv8mShelfDetector.r_confidence r == 1.01335 ∧
     YOLOv8mShelfDetector.r_fullness_score r == 1.01335).
Proof.
  split.
  - eexists _, _. split; [vm_compute; reflexivity|].
    split; [reflexivity|]. split; reflexivity.
  - eexists _, _. split; [vm_compute; reflexivity|].
    split; [reflexivity|]. split; reflexivity.
Qed.

(** ** C8: a stocked shelf never alerts *)

(** C8: whatever the instance, the region, the section and the time, a
    result with [is_empty = False] has [should_alert = False], in each of
    the three detectors. *)
Theorem C8_no_alert_when_not_empty :
  (∀ perform self roi shelf_name timestamp now self' r,
     ImprovedYOLODetector.analyze_shelf_region perform self roi shelf_name
       timestamp now = Some (self', r) →
     ImprovedYOLODetector.r_is_empty r = false →
     ImprovedYOLODetector.r_should_alert r = false) ∧
  (∀ lib self roi shelf_name timestamp now self' r,
     YOLOv8mShelfDetector.analyze_shelf_region lib self roi shelf_name
       timestamp now = Some (self', r) →
     YOLOv8mShelfDetector.r_is_empty r = false →
     YOLOv8mShelfDetector.r_should_alert r = false) ∧
  (∀ perform self roi shelf_name timestamp now self' r,
     EnhancedShelfDetector.analyze_shelf_region perform self roi shelf_name
       timestamp now = Some (self', r) →
     EnhancedShelfDetector.r_is_empty r = false →
     EnhancedShelfDetector.r_should_alert r = false).
Proof.
  split; [|split].
  - intros perform self roi n ts now self' r H Hfull.
    destruct (rejected 50 roi) eqn:Hrej.
    + destruct (improved_rejected perform self roi n ts now Hrej)
        as [msg Hmsg].
      rewrite Hmsg in H. inversion H; subst. reflexivity.
    + destruct roi as [img|]; [|discriminate].
      destruct (improved_accepted _ _ _ _ _ _ _ _ Hrej H)
        as (rec & self2 & h2 & _ & _ & _ & _ & Halert & Hempty & _).
      apply improved_should_trigger_alert_spec in Halert
        as [[Hquiet _] | (_ & Hc & _)]; [exact Hquiet|].
      congruence.
  - intros lib self roi n ts now self' r H Hfull.
    destruct (rejected 50 roi) eqn:Hrej.
    + destruct (yolo8m_rejected lib self roi n ts now Hrej) as [msg Hmsg].
      rewrite Hmsg in H. inversion H; subst. reflexivity.
    + destruct roi as [img|]; [|discriminate].
      destruct (yolo8m_accepted _ _ _ _ _ _ _ _ Hrej H)
        as (rec & self2 & _ & _ & _ & Halert & Hempty & _).
      apply yolo8m_should_trigger_alert_spec in Halert
        as [[Hquiet _] | (_ & Hc & _)]; [exact Hquiet|].
      congruence.
  - intros perform self roi n ts now self' r H Hfull.
    destruct (rejected 30 roi) eqn:Hrej.
    + destruct (enhanced_rejected perform self roi n ts now Hrej)
        as [msg Hmsg].
      rewrite Hmsg in H. inversion H; subst. reflexivity.
    + destruct roi as [img|]; [|discriminate].
      destruct (enhanced_accepted _ _ _ _ _ _ _ _ Hrej H)
        as (rec & self2 & _ & _ & _ & Halert & Hempty & _).
      apply enhanced_should_alert_spec in Halert
        as [[Hquiet _] | (_ & Hc & _)]; [exact Hquiet|].
      congruence.
Qed.

(** C8 on a stocked region given to a fresh [ImprovedYOLODetector]. *)
Lemma C8_no_alert_when_not_empty_witness :
  ∃ self' r,
    ImprovedYOLODetector.analyze_shelf_region improved_sample
      (ImprovedYOLODetector.__init__ 0.7) (Some busy_region) "shelf"
      (Some 10) 0 = Some (self', r) ∧
    ImprovedYOLODetector.r_is_empty r = false ∧
    ImprovedYOLODetector.r_should_alert r = false.
Proof.
  eexists _, _.
  assert (Hrun :
    ImprovedYOLODetector.analyze_shelf_region improved_sample
      (ImprovedYOLODetector.__init__ 0.7) (Some busy_region) "shelf"
      (Some 10) 0 = Some _) by (vm_compute; reflexivity).
  split; [exact Hrun|]. split; [reflexivity|].
  exact (proj1 C8_no_alert_when_not_empty _ _ _ _ _ _ _ _ Hrun eq_refl).
Defined.

(** ** C10: fullness is tied to the confidence *)

(** C10: in every result, and so in every result that is not the canned
    one, [fullness_score] is [1 - confidence] when [is_empty] holds and
    [confidence] itself otherwise. *)
Theorem C10_fullness_determined :
  (∀ perform self roi shelf_name timestamp now self' r,
     ImprovedYOLODetector.analyze_shelf_region perform self roi shelf_name
       timestamp now = Some (self', r) →
     ImprovedYOLODetector.r_fullness_score r ==
       if ImprovedYOLODetector.r_is_empty r
       then 1 - ImprovedYOLODetector.r_confidence r
       else ImprovedYOLODetector.r_confidence r) ∧
  (∀ lib self roi shelf_name timestamp now self' r,
     YOLOv8mShelfDetector.analyze_shelf_region lib self roi shelf_name
       timestamp now = Some (self', r) →
     YOLOv8mShelfDetector.r_fullness_score r ==
       if YOLOv8mShelfDetector.r_is_empty r
       then 1 - YOLOv8mShelfDetector.r_confidence r
       else YOLOv8mShelfDetector.r_confidence r).
Proof.
  split.
  - intros perform self roi n ts now self' r H.
    destruct (rejected 50 roi) eqn:Hrej.
    + destruct (improved_rejected perform self roi n ts now Hrej)
        as [msg Hmsg].
      rewrite Hmsg in H. inversion H; subst. reflexivity.
    + destruct roi as [img|]; [|discriminate].
      destruct (improved_accepted _ _ _ _ _ _ _ _ Hrej H)
        as (rec & self2 & h2 & _ & _ & _ & _ & _ & -> & -> & -> & _).
      unfold ImprovedYOLODetector._calculate_improved_confidence.
      cbv zeta.
      match goal with
      | |- context [let '(_, _) := ?X in _] => destruct X as [base b]
      end.
      simpl. reflexivity.
  - intros lib self roi n ts now self' r H.
    destruct (rejected 50 roi) eqn:Hrej.
    + destruct (yolo8m_rejected lib self roi n ts now Hrej) as [msg Hmsg].
      rewrite Hmsg in H. inversion H; subst. reflexivity.
    + destruct roi as [img|]; [|discriminate].
      destruct (yolo8m_accepted _ _ _ _ _ _ _ _ Hrej H)
        as (rec & self2 & _ & _ & _ & _ & -> & -> & -> & _).
      unfold YOLOv8mShelfDetector._calculate_yolo_enhanced_confidence.
      cbv zeta.
      match goal with
      | |- context [let '(_, _) := ?X in _] => destruct X as [base b]
      end.
      simpl. reflexivity.
Qed.

(** C10 on a bare region given to a fresh [ImprovedYOLODetector]. *)
Lemma C10_fullness_determined_witness :
  ∃ self' r,
    ImprovedYOLODetector.analyze_shelf_region improved_sample
      (ImprovedYOLODetector.__init__ 0.7) (Some bare_region) "shelf"
      (Some 10) 0 = Some (self', r) ∧
    ImprovedYOLODetector.r_is_empty r = true ∧
    ImprovedYOLODetector.r_fullness_score r ==
      1 - ImprovedYOLODetector.r_confidence r.
Proof.
  eexists _, _.
  assert (Hrun :
    ImprovedYOLODetector.analyze_shelf_region improved_sample
      (ImprovedYOLODetector.__init__ 0.7) (Some bare_region) "shelf"
      (Some 10) 0 = Some _) by (vm_compute; reflexivity).
  split; [exact Hrun|]. split; [reflexivity|].
  exact (proj1 C10_fullness_determined _ _ _ _ _ _ _ _ Hrun).
Defined.

(** ** C6: the sensitivity knob is monotone *)

(** Every [Qnat _] of the goal is non-negative. *)
Ltac Qnat_nonneg_all :=
  repeat match goal with
    | |- context [Qnat ?n] =>
        pose proof (Qnat_nonneg n); generalize dependent (Qnat n); intros
    end.

Section Aggregators.

(** The aggregator of [ImprovedYOLODetector] reads the sensitivity in
    its last step only: the indicator count fixes [is_empty] and a base
    confidence, which the sensitivity then scales. *)
Lemma improved_confidence_shape
    (self : ImprovedYOLODetector.Detector)
    (analysis : ImprovedYOLODetector.Analysis) :
  ∃ (base : Q) (b : bool),
    (b = true → 0.65 <= base) ∧
    ∀ s : Q,
      let c := ImprovedYOLODetector._calculate_improved_confidence
                 (ImprovedYOLODetector.set_sensitivity s self) analysis in
      ImprovedYOLODetector.c_is_empty c = b ∧
      ImprovedYOLODetector.c_empty_confidence c
        = (if b then Qmin 1 (base * (1 + s * 0.3))
           else Qmax 0 (base * (2 - s))) ∧
      ImprovedYOLODetector.c_fullness_score c
        = (if b then 1 - ImprovedYOLODetector.c_empty_confidence c
           else ImprovedYOLODetector.c_empty_confidence c).
Proof.
  unfold ImprovedYOLODetector._calculate_improved_confidence. cbv zeta.
  cbn [ImprovedYOLODetector.detection_params
       ImprovedYOLODetector.set_sensitivity
       ImprovedYOLODetector.sensitivity].
  match goal with
  | |- context [let '(_, _) := ?X in _] => destruct X as [base b] eqn:E
  end.
  exists base, b.
  cbn [ImprovedYOLODetector.c_is_empty
       ImprovedYOLODetector.c_empty_confidence
       ImprovedYOLODetector.c_fullness_score].
  split; [|intros s; repeat split; reflexivity].
  intros ->.
  repeat match type of E with
         | (if ?c then _ else _) = _ => destruct c eqn:?
         end; inversion E; subst; clear E.
  all: Qnat_nonneg_all.
  all: try match goal with
         | |- context [Qmin ?a ?b] => case_min a b
         end; lra.
Qed.

Lemma yolo8m_confidence_shape
    (self : YOLOv8mShelfDetector.Detector)
    (analysis : YOLOv8mShelfDetector.Analysis) :
  ∃ (base : Q) (b : bool),
    0.08 <= base ∧
    ∀ s : Q,
      let c := YOLOv8mShelfDetector._calculate_yolo_enhanced_confidence
                 (YOLOv8mShelfDetector.set_sensitivity s self) analysis in
      YOLOv8mShelfDetector.c_is_empty c = b ∧
      YOLOv8mShelfDetector.c_empty_confidence c
        = (if b
           then Qmin 1 (base * (1 + s * 0.2)
                        + YOLOv8mShelfDetector.empty_confidence_boost
                            (YOLOv8mShelfDetector.detection_params self))
           else Qmax 0 (base * (2 - s))) ∧
      YOLOv8mShelfDetector.c_fullness_score c
        = (if b then 1 - YOLOv8mShelfDetector.c_empty_confidence c
           else YOLOv8mShelfDetector.c_empty_confidence c).
Proof.
  unfold YOLOv8mShelfDetector._calculate_yolo_enhanced_confidence.
  cbv zeta.
  cbn [YOLOv8mShelfDetector.detection_params
       YOLOv8mShelfDetector.set_sensitivity
       YOLOv8mShelfDetector.sensitivity].
  match goal with
  | |- context [let '(_, _) := ?X in _] => destruct X as [base b] eqn:E
  end.
  exists base, b.
  cbn [YOLOv8mShelfDetector.c_is_empty
       YOLOv8mShelfDetector.c_empty_confidence
       YOLOv8mShelfDetector.c_fullness_score].
  split; [|intros s; repeat split; reflexivity].
  repeat match type of E with
         | (if ?c then _ else _) = _ => destruct c eqn:?
         end; inversion E; subst; clear E.
  all: Qnat_nonneg_all.
  all: repeat match goal with
         | |- context [Qmin ?a ?b] => case_min a b
         | |- context [Qmax ?a ?b] => case_max a b
         end; lra.
Qed.

End Aggregators.

(** C6: with the region's analysis fixed, [is_empty] does not depend on
    the sensitivity; raising the sensitivity within its range never lowers
    the confidence of an empty verdict and never raises the confidence
    (which is then also the fullness score) of a stocked verdict. *)
Theorem C6_sensitivity_monotone (s1 s2 : Q)
    (Hle : s1 <= s2) (Hmax : s2 <= 1) :
  (∀ self analysis,
     let c1 := ImprovedYOLODetector._calculate_improved_confidence
                 (ImprovedYOLODetector.set_sensitivity s1 self) analysis in
     let c2 := ImprovedYOLODetector._calculate_improved_confidence
                 (ImprovedYOLODetector.set_sensitivity s2 self) analysis in
     ImprovedYOLODetector.c_is_empty c1 = ImprovedYOLODetector.c_is_empty c2 ∧
     (ImprovedYOLODetector.c_is_empty c1 = true →
        ImprovedYOLODetector.c_empty_confidence c1
          <= ImprovedYOLODetector.c_empty_confidence c2) ∧
     (ImprovedYOLODetector.c_is_empty c1 = false →
        ImprovedYOLODetector.c_empty_confidence c2
          <= ImprovedYOLODetector.c_empty_confidence c1 ∧
        ImprovedYOLODetector.c_fullness_score c2
          <= ImprovedYOLODetector.c_fullness_score c1)) ∧
  (∀ self analysis,
     let c1 := YOLOv8mShelfDetector._calculate_yolo_enhanced_confidence
                 (YOLOv8mShelfDetector.set_sensitivity s1 self) analysis in
     let c2 := YOLOv8mShelfDetector._calculate_yolo_enhanced_confidence
                 (YOLOv8mShelfDetector.set_sensitivity s2 self) analysis in
     YOLOv8mShelfDetector.c_is_empty c1 = YOLOv8mShelfDetector.c_is_empty c2 ∧
     (YOLOv8mShelfDetector.c_is_empty c1 = true →
        YOLOv8mShelfDetector.c_empty_confidence c1
          <= YOLOv8mShelfDetector.c_empty_confidence c2) ∧
     (YOLOv8mShelfDetector.c_is_empty c1 = false →
        YOLOv8mShelfDetector.c_empty_confidence c2
          <= YOLOv8mShelfDetector.c_empty_confidence c1 ∧
        YOLOv8mShelfDetector.c_fullness_score c2
          <= YOLOv8mShelfDetector.c_fullness_score c1)).
Proof.
  split.
  - intros self analysis.
    destruct (improved_confidence_shape self analysis)
      as (base & b & Hbase & Hs).
    destruct (Hs s1) as (E1 & C1 & F1), (Hs s2) as (E2 & C2 & F2).
    cbv zeta. rewrite E1, E2, F1, F2, C1, C2.
    split; [reflexivity|]. split.
    + intros ->. specialize (Hbase eq_refl).
      case_min 1 (base * (1 + s1 * 0.3));
        case_min 1 (base * (1 + s2 * 0.3)); nra.
    + intros ->.
      assert (Qmax 0 (base * (2 - s2)) <= Qmax 0 (base * (2 - s1))).
      { case_max 0 (base * (2 - s1)); case_max 0 (base * (2 - s2)); nra. }
      split; assumption.
  - intros self analysis.
    destruct (yolo8m_confidence_shape self analysis)
      as (base & b & Hbase & Hs).
    destruct (Hs s1) as (E1 & C1 & F1), (Hs s2) as (E2 & C2 & F2).
    cbv zeta. rewrite E1, E2, F1, F2, C1, C2.
    split; [reflexivity|]. split.
    + intros ->.
      match goal with
      | |- Qmin 1 ?x <= Qmin 1 ?y => case_min 1 x; case_min 1 y; nra
      end.
    + intros ->.
      assert (Qmax 0 (base * (2 - s2)) <= Qmax 0 (base * (2 - s1))).
      { case_max 0 (base * (2 - s1)); case_max 0 (base * (2 - s2)); nra. }
      split; assumption.
Qed.

(** C6 between the sensitivities 0.3 and 0.9 on a bare region's analysis:
    the empty verdict stays and its confidence does not drop. *)
Lemma C6_sensitivity_monotone_witness :
  0.3 <= 0.9 ∧ 0.9 <= 1 ∧
  let c1 := ImprovedYOLODetector._calculate_improved_confidence
              (ImprovedYOLODetector.__init__ 0.3) improved_bare in
  let c2 := ImprovedYOLODetector._calculate_improved_confidence
              (ImprovedYOLODetector.__init__ 0.9) improved_bare in
  ImprovedYOLODetector.c_is_empty c1 = true ∧
  ImprovedYOLODetector.c_empty_confidence c1
    <= ImprovedYOLODetector.c_empty_confidence c2.
Proof.
  assert (H1 : 0.3 <= 0.9) by (vm_compute; discriminate).
  assert (H2 : 0.9 <= 1) by (vm_compute; discriminate).
  split; [exact H1|]. split; [exact H2|].
  pose proof (proj1 (C6_sensitivity_monotone 0.3 0.9 H1 H2)
                (ImprovedYOLODetector.__init__ 0.7) improved_bare)
    as (_ & Hempty & _).
  split; [reflexivity|]. exact (Hempty eq_refl).
Defined.

(** ** The stored sensitivity and how it is read *)

Lemma clamp_spec (lo hi v : Q) :
  lo <= hi → Qmax lo (Qmin hi v) == clamp lo hi v.
Proof.
  intros Hlohi. unfold clamp.
  destruct (Qltb v lo) eqn:Hlo; [apply Qltb_lt in Hlo|apply Qltb_ge in Hlo];
    [|destruct (Qltb hi v) eqn:Hhi;
        [apply Qltb_lt in Hhi|apply Qltb_ge in Hhi]];
    case_min hi v; case_max lo v; case_max lo hi; lra.
Qed.

Section SensitivityIsRead.

Lemma improved_confidence_ext
    (self1 self2 : ImprovedYOLODetector.Detector) analysis :
  ImprovedYOLODetector.sensitivity self1
    = ImprovedYOLODetector.sensitivity self2 →
  ImprovedYOLODetector.detection_params self1
    = ImprovedYOLODetector.detection_params self2 →
  ImprovedYOLODetector._calculate_improved_confidence self1 analysis
    = ImprovedYOLODetector._calculate_improved_confidence self2 analysis.
Proof.
  unfold ImprovedYOLODetector._calculate_improved_confidence.
  intros -> ->. reflexivity.
Qed.

Lemma yolo8m_confidence_ext
    (self1 self2 : YOLOv8mShelfDetector.Detector) analysis :
  YOLOv8mShelfDetector.sensitivity self1
    = YOLOv8mShelfDetector.sensitivity self2 →
  YOLOv8mShelfDetector.detection_params self1
    = YOLOv8mShelfDetector.detection_params self2 →
  YOLOv8mShelfDetector._calculate_yolo_enhanced_confidence self1 analysis
    = YOLOv8mShelfDetector._calculate_yolo_enhanced_confidence self2
        analysis.
Proof.
  unfold YOLOv8mShelfDetector._calculate_yolo_enhanced_confidence.
  intros -> ->. reflexivity.
Qed.

Lemma yolo8m_detection_ext
    (self1 self2 : YOLOv8mShelfDetector.Detector) roi :
  YOLOv8mShelfDetector.yolo_model self1
    = YOLOv8mShelfDetector.yolo_model self2 →
  YOLOv8mShelfDetector.detection_params self1
    = YOLOv8mShelfDetector.detection_params self2 →
  YOLOv8mShelfDetector.product_classes self1
    = YOLOv8mShelfDetector.product_classes self2 →
  YOLOv8mShelfDetector._perform_yolo_detection self1 roi
    = YOLOv8mShelfDetector._perform_yolo_detection self2 roi.
Proof.
  unfold YOLOv8mShelfDetector._perform_yolo_detection,
    YOLOv8mShelfDetector.yolo_detection_body.
  intros -> Hparams Hclasses.
  assert (Hvisit : ∀ model,
    YOLOv8mShelfDetector.visit_box self1 model
      = YOLOv8mShelfDetector.visit_box self2 model).
  { intros model.
    unfold YOLOv8mShelfDetector.visit_box, YOLOv8mShelfDetector.is_product.
    rewrite Hparams, Hclasses. reflexivity. }
  destruct (YOLOv8mShelfDetector.yolo_model self2); [|reflexivity].
  rewrite Hvisit. reflexivity.
Qed.

Lemma enhanced_confidence_ext
    (self1 self2 : EnhancedShelfDetector.Detector) analysis :
  EnhancedShelfDetector.sensitivity self1
    = EnhancedShelfDetector.sensitivity self2 →
  EnhancedShelfDetector._calculate_enhanced_confidence self1 analysis
    = EnhancedShelfDetector._calculate_enhanced_confidence self2 analysis.
Proof.
  unfold EnhancedShelfDetector._calculate_enhanced_confidence.
  intros ->. reflexivity.
Qed.

(** An accepted analysis computes its confidence from the sensitivity
    stored in the instance it is called on, and leaves it stored. *)
Lemma improved_reads_sensitivity perform self img n ts now self' r :
  rejected 50 (Some img) = false →
  ImprovedYOLODetector.analyze_shelf_region perform self (Some img) n ts
    now = Some (self', r) →
  ImprovedYOLODetector.r_confidence r
    = ImprovedYOLODetector.c_empty_confidence
        (ImprovedYOLODetector._calculate_improved_confidence self
           (perform img)) ∧
  ImprovedYOLODetector.sensitivity self'
    = ImprovedYOLODetector.sensitivity self.
Proof.
  intros Hrej H.
  destruct (improved_accepted _ _ _ _ _ _ _ _ Hrej H)
    as (rec & self2 & h2 & _ & _ & Hrec & _ & Halert & _ & -> & _).
  set (self0 := ImprovedYOLODetector.set_frame_count _ self) in *.
  destruct (improved_initialize_history_attrs self0 n)
    as (Hs & Hp & _).
  split.
  - f_equal. apply improved_confidence_ext; [rewrite Hs|rewrite Hp]; done.
  - apply improved_record_detection_spec in Hrec as (h & _ & ->).
    apply improved_should_trigger_alert_spec in Halert
      as [[_ ->] | (_ & _ & last & _ & _ & ->)]; simpl; rewrite Hs; done.
Qed.

Lemma yolo8m_reads_sensitivity lib self img n ts now self' r :
  rejected 50 (Some img) = false →
  YOLOv8mShelfDetector.analyze_shelf_region lib self (Some img) n ts
    now = Some (self', r) →
  YOLOv8mShelfDetector.r_confidence r
    = YOLOv8mShelfDetector.c_empty_confidence
        (YOLOv8mShelfDetector._calculate_yolo_enhanced_confidence self
           (YOLOv8mShelfDetector._perform_yolo_enhanced_analysis lib self
              img)) ∧
  YOLOv8mShelfDetector.sensitivity self'
    = YOLOv8mShelfDetector.sensitivity self.
Proof.
  intros Hrej H.
  destruct (yolo8m_accepted _ _ _ _ _ _ _ _ Hrej H)
    as (rec & self2 & _ & _ & Hrec & Halert & _ & -> & _).
  set (self0 := YOLOv8mShelfDetector.set_frame_count _ self) in *.
  destruct (yolo8m_initialize_history_attrs self0 n)
    as (Hs & Hp & _ & _ & Hm & Hc).
  split.
  - f_equal.
    unfold YOLOv8mShelfDetector._perform_yolo_enhanced_analysis.
    rewrite (yolo8m_detection_ext _ self img Hm Hp Hc).
    apply yolo8m_confidence_ext; [rewrite Hs|rewrite Hp]; done.
  - apply yolo8m_record_detection_spec in Hrec as (h & _ & ->).
    apply yolo8m_should_trigger_alert_spec in Halert
      as [[_ ->] | (_ & _ & _ & ->)]; simpl; rewrite Hs; done.
Qed.

Lemma enhanced_reads_sensitivity perform self img n ts now self' r :
  rejected 30 (Some img) = false →
  EnhancedShelfDetector.analyze_shelf_region perform self (Some img) n ts
    now = Some (self', r) →
  EnhancedShelfDetector.r_confidence r
    = (EnhancedShelfDetector._calculate_enhanced_confidence self
         (perform img)).1.1 ∧
  EnhancedShelfDetector.sensitivity self'
    = EnhancedShelfDetector.sensitivity self.
Proof.
  intros Hrej H.
  destruct (enhanced_accepted _ _ _ _ _ _ _ _ Hrej H)
    as (rec & self2 & _ & _ & Hrec & Halert & _ & -> & _).
  set (self0 := EnhancedShelfDetector.set_frame_count _ self) in *.
  destruct (enhanced_initialize_history_attrs self0 n) as (Hs & _).
  split.
  - do 2 f_equal. apply enhanced_confidence_ext. rewrite Hs. done.
  - apply enhanced_record_detection_spec in Hrec as (h & _ & ->).
    apply enhanced_should_alert_spec in Halert
      as [[_ ->] | (_ & _ & last & _ & _ & ->)]; simpl; rewrite Hs; done.
Qed.

End SensitivityIsRead.

(** ** What does hold of the confidence range

    The lower bound holds on both branches and the upper bound holds on
    the [is_empty = True] branch; only the stocked branch lacks its upper
    clamp. *)

Lemma improved_confidence_bounds
    (self : ImprovedYOLODetector.Detector)
    (analysis : ImprovedYOLODetector.Analysis) :
  0.1 <= ImprovedYOLODetector.sensitivity self →
  ImprovedYOLODetector.sensitivity self <= 1 →
  let c := ImprovedYOLODetector._calculate_improved_confidence self
             analysis in
  0 <= ImprovedYOLODetector.c_empty_confidence c ∧
  0 <= ImprovedYOLODetector.c_fullness_score c ∧
  (ImprovedYOLODetector.c_is_empty c = true →
   ImprovedYOLODetector.c_empty_confidence c <= 1 ∧
   ImprovedYOLODetector.c_fullness_score c <= 1).
Proof.
  intros Hlo Hhi.
  destruct (improved_confidence_shape self analysis)
    as (base & b & Hbase & Hs).
  destruct (Hs (ImprovedYOLODetector.sensitivity self)) as (E & C & F).
  rewrite (improved_confidence_ext _ self) in E, C, F by reflexivity.
  cbv zeta. rewrite E, F, C. clear E C F Hs.
  set (s := ImprovedYOLODetector.sensitivity self) in *.
  destruct b.
  - specialize (Hbase eq_refl).
    case_min 1 (base * (1 + s * 0.3)); repeat split; intros; nra.
  - case_max 0 (base * (2 - s)); repeat split; intros;
      try discriminate; nra.
Qed.

Lemma yolo8m_confidence_bounds
    (self : YOLOv8mShelfDetector.Detector)
    (analysis : YOLOv8mShelfDetector.Analysis) :
  0.1 <= YOLOv8mShelfDetector.sensitivity self →
  YOLOv8mShelfDetector.sensitivity self <= 1 →
  0 <= YOLOv8mShelfDetector.empty_confidence_boost
         (YOLOv8mShelfDetector.detection_params self) →
  let c := YOLOv8mShelfDetector._calculate_yolo_enhanced_confidence self
             analysis in
  0 <= YOLOv8mShelfDetector.c_empty_confidence c ∧
  0 <= YOLOv8mShelfDetector.c_fullness_score c ∧
  (YOLOv8mShelfDetector.c_is_empty c = true →
   YOLOv8mShelfDetector.c_empty_confidence c <= 1 ∧
   YOLOv8mShelfDetector.c_fullness_score c <= 1).
Proof.
  intros Hlo Hhi Hboost.
  destruct (yolo8m_confidence_shape self analysis)
    as (base & b & Hbase & Hs).
  destruct (Hs (YOLOv8mShelfDetector.sensitivity self)) as (E & C & F).
  rewrite (yolo8m_confidence_ext _ self) in E, C, F by reflexivity.
  cbv zeta. rewrite E, F, C. clear E C F Hs.
  set (s := YOLOv8mShelfDetector.sensitivity self) in *.
  set (boost := YOLOv8mShelfDetector.empty_confidence_boost _) in *.
  destruct b.
  - case_min 1 (base * (1 + s * 0.2) + boost); repeat split; intros; nra.
  - case_max 0 (base * (2 - s)); repeat split; intros;
      try discriminate; nra.
Qed.

(** ** C4: updating the sensitivity *)

(** C4, as stated, fails for [YOLOv8mShelfDetector]: [update_sensitivity(1.0)]
    stores 0.9, whereas 1.0 clamped into [[0.1, 1.0]] is 1.0. *)
Lemma C4_yolo8m_upper_bound_is_0_9 :
  let self := YOLOv8mShelfDetector.update_sensitivity
                (YOLOv8mShelfDetector.__init__ 0.7 None) 1 in
  YOLOv8mShelfDetector.sensitivity self == 0.9 ∧
  clamp 0.1 1 1 == 1 ∧
  ¬ YOLOv8mShelfDetector.sensitivity self == clamp 0.1 1 1.
Proof.
  cbv zeta. split; [reflexivity|]. split; [reflexivity|]. discriminate.
Qed.

(** C4, amended: [update_sensitivity(v)] stores [v] clamped into
    [[0.1, 1.0]] in [ImprovedYOLODetector] and [EnhancedShelfDetector], and
    [v] clamped into [[0.1, 0.9]] in [YOLOv8mShelfDetector].  The very next
    accepted analysis computes its confidence with the stored value and
    keeps it stored. *)
Theorem C4_update_sensitivity (v : Q) :
  (∀ self,
     let updated := ImprovedYOLODetector.update_sensitivity self v in
     ImprovedYOLODetector.sensitivity updated == clamp 0.1 1 v ∧
     ∀ perform img shelf_name timestamp now self' r,
       rejected 50 (Some img) = false →
       ImprovedYOLODetector.analyze_shelf_region perform updated (Some img)
         shelf_name timestamp now = Some (self', r) →
       ImprovedYOLODetector.r_confidence r
         = ImprovedYOLODetector.c_empty_confidence
             (ImprovedYOLODetector._calculate_improved_confidence updated
                (perform img)) ∧
       ImprovedYOLODetector.sensitivity self'
         = ImprovedYOLODetector.sensitivity updated) ∧
  (∀ self,
     let updated := EnhancedShelfDetector.update_sensitivity self v in
     EnhancedShelfDetector.sensitivity updated == clamp 0.1 1 v ∧
     ∀ perform img shelf_name timestamp now self' r,
       rejected 30 (Some img) = false →
       EnhancedShelfDetector.analyze_shelf_region perform updated (Some img)
         shelf_name timestamp now = Some (self', r) →
       EnhancedShelfDetector.r_confidence r
         = (EnhancedShelfDetector._calculate_enhanced_confidence updated
              (perform img)).1.1 ∧
       EnhancedShelfDetector.sensitivity self'
         = EnhancedShelfDetector.sensitivity updated) ∧
  (∀ self,
     let updated := YOLOv8mShelfDetector.update_sensitivity self v in
     YOLOv8mShelfDetector.sensitivity updated == clamp 0.1 0.9 v ∧
     ∀ lib img shelf_name timestamp now self' r,
       rejected 50 (Some img) = false →
       YOLOv8mShelfDetector.analyze_shelf_region lib updated (Some img)
         shelf_name timestamp now = Some (self', r) →
       YOLOv8mShelfDetector.r_confidence r
         = YOLOv8mShelfDetector.c_empty_confidence
             (YOLOv8mShelfDetector._calculate_yolo_enhanced_confidence
                updated
                (YOLOv8mShelfDetector._perform_yolo_enhanced_analysis lib
                   updated img)) ∧
       YOLOv8mShelfDetector.sensitivity self'
         = YOLOv8mShelfDetector.sensitivity updated).
Proof.
  split; [|split]; intros self; cbv zeta; (split; [|intros]).
  - simpl. apply clamp_spec. lra.
  - eapply improved_reads_sensitivity; eauto.
  - simpl. apply clamp_spec. lra.
  - eapply enhanced_reads_sensitivity; eauto.
  - simpl. apply clamp_spec. lra.
  - eapply yolo8m_reads_sensitivity; eauto.
Qed.

(** C4 at [update_sensitivity(1.7)] on a fresh [ImprovedYOLODetector],
    followed by the analysis of a bare region: 1.0 is stored, the
    confidence is the one computed at sensitivity 1.0 and 1.0 stays
    stored. *)
Lemma C4_update_sensitivity_witness :
  let updated := ImprovedYOLODetector.update_sensitivity
                   (ImprovedYOLODetector.__init__ 0.7) 1.7 in
  rejected 50 (Some bare_region) = false ∧
  ImprovedYOLODetector.sensitivity updated == 1 ∧
  ∃ self' r,
    ImprovedYOLODetector.analyze_shelf_region improved_sample updated
      (Some bare_region) "shelf" (Some 10) 0 = Some (self', r) ∧
    ImprovedYOLODetector.r_confidence r
      = ImprovedYOLODetector.c_empty_confidence
          (ImprovedYOLODetector._calculate_improved_confidence
             (ImprovedYOLODetector.__init__ 1) improved_bare) ∧
    ImprovedYOLODetector.sensitivity self' = 1.
Proof.
  cbv zeta.
  pose proof (proj1 (C4_update_sensitivity 1.7)
                (ImprovedYOLODetector.__init__ 0.7)) as [Hstored Huse].
  split; [reflexivity|]. split; [exact Hstored|].
  eexists _, _.
  assert (Hrun :
    ImprovedYOLODetector.analyze_shelf_region improved_sample
      (ImprovedYOLODetector.update_sensitivity
         (ImprovedYOLODetector.__init__ 0.7) 1.7)
      (Some bare_region) "shelf" (Some 10) 0 = Some _)
    by (vm_compute; reflexivity).
  split; [exact Hrun|].
  exact (Huse improved_sample bare_region "shelf" (Some 10) 0 _ _
           eq_refl Hrun).
Defined.

(** ** C5: the stability score *)

Lemma lastn_fmap {A B} (f : A → B) (n : nat) (xs : list A) :
  f <$> lastn n xs = lastn n (f <$> xs).
Proof. unfold lastn. rewrite fmap_drop, length_fmap. reflexivity. Qed.

(** C5, as stated, fails on a short history: after an empty verdict
    followed by a stocked one, [ImprovedYOLODetector] reports stability 2
    (the number of records), whereas only one of the two records agrees
    with the most recent one. *)
Lemma C5_short_history_counts_records :
  ∃ self' call1 r1 call2 r2 history,
    run (ImprovedYOLODetector.analyze_shelf_region improved_sample)
        ImprovedYOLODetector.update_sensitivity
        (ImprovedYOLODetector.__init__ 0.7)
        [Analyze (Some bare_region) "shelf" (Some 10) 0;
         Analyze (Some busy_region) "shelf" (Some 11) 0]
      = Some (self', [(call1, Some r1); (call2, Some r2)]) ∧
    ImprovedYOLODetector.detection_history self' !! "shelf" = Some history ∧
    ImprovedYOLODetector.h_is_empty <$> history = [true; false] ∧
    ImprovedYOLODetector.r_stability r2 = 2%nat ∧
    spec_stability (ImprovedYOLODetector.h_is_empty <$> history) = 1%nat.
Proof.
  eexists _, _, _, _, _, _.
  split; [vm_compute; reflexivity|].
  split; [vm_compute; reflexivity|].
  repeat split; reflexivity.
Qed.

(** C5, amended: after an accepted analysis, the stability score is the
    number of records retained for the section when there are fewer than
    three of them; from three records on it is the number of the most
    recent at most five records whose [is_empty] equals that of the most
    recent record, capped at five. *)
Theorem C5_stability_score :
  (∀ perform self img shelf_name timestamp now self' r,
     rejected 50 (Some img) = false →
     ImprovedYOLODetector.analyze_shelf_region perform self (Some img)
       shelf_name timestamp now = Some (self', r) →
     ∃ history,
       ImprovedYOLODetector.detection_history self' !! shelf_name
         = Some history ∧
       ImprovedYOLODetector.r_stability r
         = if (length history <? 3)%nat then length history
           else spec_stability (ImprovedYOLODetector.h_is_empty <$> history)) ∧
  (∀ perform self img shelf_name timestamp now self' r,
     rejected 30 (Some img) = false →
     EnhancedShelfDetector.analyze_shelf_region perform self (Some img)
       shelf_name timestamp now = Some (self', r) →
     ∃ history,
       EnhancedShelfDetector.detection_history self' !! shelf_name
         = Some history ∧
       EnhancedShelfDetector.r_stability r
         = if (length history <? 3)%nat then length history
           else spec_stability (EnhancedShelfDetector.h_is_empty <$> history)).
Proof.
  split.
  - intros perform self img n ts now self' r Hrej H.
    destruct (improved_accepted _ _ _ _ _ _ _ _ Hrej H)
      as (rec & self2 & h2 & _ & _ & _ & Hh2 & Halert & _ & _ & _ & -> & _).
    exists h2. split.
    + apply improved_should_trigger_alert_spec in Halert
        as [[_ ->] | (_ & _ & last & _ & _ & ->)]; exact Hh2.
    + unfold ImprovedYOLODetector.stability_of_history, spec_stability.
      destruct (length h2 <? 3)%nat; [reflexivity|].
      cbn [ImprovedYOLODetector.consistency_score].
      rewrite lastn_fmap. reflexivity.
  - intros perform self img n ts now self' r Hrej H.
    destruct (enhanced_accepted _ _ _ _ _ _ _ _ Hrej H)
      as (rec & self2 & _ & _ & Hrec & _ & _ & _ & -> & ->).
    apply enhanced_record_detection_spec in Hrec as (h & _ & ->).
    eexists. split.
    + simpl. apply lookup_insert_eq.
    + unfold EnhancedShelfDetector._calculate_stability, spec_stability.
      simpl. rewrite lookup_insert_eq.
      match goal with
      | |- context [(length ?l <? 3)%nat] => destruct (length l <? 3)%nat
      end; [reflexivity|].
      rewrite lastn_fmap. reflexivity.
Qed.

(** C5 on a bare region given to a fresh [ImprovedYOLODetector]: one
    record, stability 1. *)
Lemma C5_stability_score_witness :
  rejected 50 (Some bare_region) = false ∧
  ∃ self' r history,
    ImprovedYOLODetector.analyze_shelf_region improved_sample
      (ImprovedYOLODetector.__init__ 0.7) (Some bare_region) "shelf"
      (Some 10) 0 = Some (self', r) ∧
    ImprovedYOLODetector.detection_history self' !! "shelf"
      = Some history ∧
    ImprovedYOLODetector.r_stability r
      = if (length history <? 3)%nat then length history
        else spec_stability (ImprovedYOLODetector.h_is_empty <$> history).
Proof.
  split; [reflexivity|].
  assert (Hrun :
    ∃ self' r,
      ImprovedYOLODetector.analyze_shelf_region improved_sample
        (ImprovedYOLODetector.__init__ 0.7) (Some bare_region) "shelf"
        (Some 10) 0 = Some (self', r))
    by (eexists _, _; vm_compute; reflexivity).
  destruct Hrun as (self' & r & Hrun).
  destruct (proj1 C5_stability_score improved_sample _ bare_region _ _ _ _ _
              eq_refl Hrun)
    as (history & Hhistory & Hscore).
  exists self', r, history. auto.
Defined.

(** ** C7 and C3: the history bound and the cooldown spacing *)

Lemma trim_below {A} (capacity : nat) (history : list A) (record : A) :
  (length history < capacity)%nat →
  trim capacity (history ++ [record]) = history ++ [record].
Proof.
  intros Hlt. unfold trim. rewrite length_app. simpl.
  destruct (capacity <? length history + 1)%nat eqn:E; [|reflexivity].
  apply Nat.ltb_lt in E. lia.
Qed.

Lemma trim_full {A} (capacity : nat) (oldest : A) (rest : list A)
    (record : A) :
  length (oldest :: rest) = capacity →
  trim capacity ((oldest :: rest) ++ [record]) = rest ++ [record].
Proof.
  intros Hlen. unfold trim. rewrite length_app, Hlen. simpl.
  destruct (capacity <? capacity + 1)%nat eqn:E; [reflexivity|].
  apply Nat.ltb_ge in E. lia.
Qed.

(** A detector fresh from [__init__] has no history at all. *)
Lemma improved_init_consistent_bounded (sensitivity : Q) :
  consistent improved_view (ImprovedYOLODetector.__init__ sensitivity) ∧
  bounded improved_view (ImprovedYOLODetector.__init__ sensitivity).
Proof.
  split.
  - intros n [h Hh]. simpl in Hh. rewrite lookup_empty in Hh. discriminate.
  - intros n h Hh. simpl in Hh. rewrite lookup_empty in Hh. discriminate.
Qed.

Lemma enhanced_init_consistent_bounded (sensitivity : Q) :
  consistent enhanced_view (EnhancedShelfDetector.__init__ sensitivity) ∧
  bounded enhanced_view (EnhancedShelfDetector.__init__ sensitivity).
Proof.
  split.
  - intros n [h Hh]. simpl in Hh. rewrite lookup_empty in Hh. discriminate.
  - intros n h Hh. simpl in Hh. rewrite lookup_empty in Hh. discriminate.
Qed.

Lemma yolo8m_init_consistent_bounded (sensitivity : Q) model :
  consistent yolo8m_view (YOLOv8mShelfDetector.__init__ sensitivity model) ∧
  bounded yolo8m_view (YOLOv8mShelfDetector.__init__ sensitivity model).
Proof.
  split.
  - intros n [h Hh]. simpl in Hh. rewrite lookup_empty in Hh. discriminate.
  - intros n h Hh. simpl in Hh. rewrite lookup_empty in Hh. discriminate.
Qed.

(** The history of the analysed section after an accepted analysis: the
    new record, stamped with the call's timestamp, goes to the end and the
    list is cut back to the capacity from the front. *)
Lemma improved_history_after perform self img n ts now self' r :
  rejected 50 (Some img) = false →
  ImprovedYOLODetector.analyze_shelf_region perform self (Some img) n ts
    now = Some (self', r) →
  ∃ rec,
    ImprovedYOLODetector.h_timestamp rec = default now ts ∧
    ImprovedYOLODetector.detection_history self' !! n
      = Some (trim (ImprovedYOLODetector.history_length self)
                (default [] (ImprovedYOLODetector.detection_history self
                               !! n) ++ [rec])).
Proof.
  intros Hrej H.
  destruct (improved_accepted _ _ _ _ _ _ _ _ Hrej H)
    as (rec & self2 & h2 & Hts & _ & Hrec & _ & Halert & _).
  exists rec. split; [exact Hts|].
  set (self0 := ImprovedYOLODetector.set_frame_count _ self) in *.
  destruct (improved_initialize_history_attrs self0 n)
    as (_ & _ & Hcap & _).
  destruct (improved_initialize_history_tables self0 n) as (Hlook & _).
  apply improved_record_detection_spec in Hrec as (h & Hh & ->).
  rewrite Hlook in Hh. inversion Hh; subst h; clear Hh.
  apply improved_should_trigger_alert_spec in Halert
    as [[_ ->] | (_ & _ & last & _ & _ & ->)];
    simpl; rewrite lookup_insert_eq, Hcap; reflexivity.
Qed.

Lemma enhanced_history_after perform self img n ts now self' r :
  rejected 30 (Some img) = false →
  EnhancedShelfDetector.analyze_shelf_region perform self (Some img) n ts
    now = Some (self', r) →
  ∃ rec,
    EnhancedShelfDetector.h_timestamp rec = default now ts ∧
    EnhancedShelfDetector.detection_history self' !! n
      = Some (trim (EnhancedShelfDetector.history_length self)
                (default [] (EnhancedShelfDetector.detection_history self
                               !! n) ++ [rec])).
Proof.
  intros Hrej H.
  destruct (enhanced_accepted _ _ _ _ _ _ _ _ Hrej H)
    as (rec & self2 & Hts & _ & Hrec & _ & _ & _ & _ & Hsame).
  exists rec. split; [exact Hts|]. rewrite Hsame.
  set (self0 := EnhancedShelfDetector.set_frame_count _ self) in *.
  destruct (enhanced_initialize_history_attrs self0 n) as (_ & Hcap & _).
  destruct (enhanced_initialize_history_tables self0 n) as (Hlook & _).
  apply enhanced_record_detection_spec in Hrec as (h & Hh & ->).
  rewrite Hlook in Hh. inversion Hh; subst h; clear Hh.
  simpl. rewrite lookup_insert_eq, Hcap. reflexivity.
Qed.

(** C7: starting from an instance whose histories are within the capacity
    (a fresh one in particular), no sequence of calls raises and every
    retained history stays within [history_length]; an accepted analysis
    appends its record at the end and, when the section's history was
    already full, drops the oldest record. *)
Theorem C7_history_bound :
  (∀ perform self calls,
     consistent improved_view self →
     bounded improved_view self →
     ∃ self' log,
       run (ImprovedYOLODetector.analyze_shelf_region perform)
           ImprovedYOLODetector.update_sensitivity self calls
         = Some (self', log) ∧
       bounded improved_view self') ∧
  (∀ perform self img shelf_name timestamp now self' r history,
     rejected 50 (Some img) = false →
     ImprovedYOLODetector.analyze_shelf_region perform self (Some img)
       shelf_name timestamp now = Some (self', r) →
     ImprovedYOLODetector.detection_history self !! shelf_name
       = Some history →
     ∃ rec,
       ImprovedYOLODetector.h_timestamp rec = default now timestamp ∧
       ((length history < ImprovedYOLODetector.history_length self)%nat →
        ImprovedYOLODetector.detection_history self' !! shelf_name
          = Some (history ++ [rec])) ∧
       (∀ oldest rest,
          history = oldest :: rest →
          length history = ImprovedYOLODetector.history_length self →
          ImprovedYOLODetector.detection_history self' !! shelf_name
            = Some (rest ++ [rec]))) ∧
  (∀ perform self calls,
     consistent enhanced_view self →
     bounded enhanced_view self →
     ∃ self' log,
       run (EnhancedShelfDetector.analyze_shelf_region perform)
           EnhancedShelfDetector.update_sensitivity self calls
         = Some (self', log) ∧
       bounded enhanced_view self') ∧
  (∀ perform self img shelf_name timestamp now self' r history,
     rejected 30 (Some img) = false →
     EnhancedShelfDetector.analyze_shelf_region perform self (Some img)
       shelf_name timestamp now = Some (self', r) →
     EnhancedShelfDetector.detection_history self !! shelf_name
       = Some history →
     ∃ rec,
       EnhancedShelfDetector.h_timestamp rec = default now timestamp ∧
       ((length history < EnhancedShelfDetector.history_length self)%nat →
        EnhancedShelfDetector.detection_history self' !! shelf_name
          = Some (history ++ [rec])) ∧
       (∀ oldest rest,
          history = oldest :: rest →
          length history = EnhancedShelfDetector.history_length self →
          EnhancedShelfDetector.detection_history self' !! shelf_name
            = Some (rest ++ [rec]))).
Proof.
  split; [|split; [|split]].
  - intros perform self calls Hc Hb.
    destruct (run_total improved_view _ _ ImprovedYOLODetector.r_should_alert
                (improved_analyze_spec perform)
                (improved_analyze_total perform)
                improved_update_spec calls self Hc) as [[self' log] Hrun].
    exists self', log. split; [exact Hrun|].
    exact (run_bounded improved_view _ _ ImprovedYOLODetector.r_should_alert
             (improved_analyze_spec perform) improved_update_spec
             calls self self' log Hrun Hb).
  - intros perform self img n ts now self' r history Hrej H Hhist.
    destruct (improved_history_after _ _ _ _ _ _ _ _ Hrej H)
      as (rec & Hts & Hafter).
    rewrite Hhist in Hafter. simpl in Hafter.
    exists rec. split; [exact Hts|]. split.
    + intros Hlt. rewrite Hafter, trim_below by exact Hlt. reflexivity.
    + intros oldest rest -> Hlen.
      rewrite Hafter, trim_full by exact Hlen. reflexivity.
  - intros perform self calls Hc Hb.
    destruct (run_total enhanced_view _ _ EnhancedShelfDetector.r_should_alert
                (enhanced_analyze_spec perform)
                (enhanced_analyze_total perform)
                enhanced_update_spec calls self Hc) as [[self' log] Hrun].
    exists self', log. split; [exact Hrun|].
    exact (run_bounded enhanced_view _ _ EnhancedShelfDetector.r_should_alert
             (enhanced_analyze_spec perform) enhanced_update_spec
             calls self self' log Hrun Hb).
  - intros perform self img n ts now self' r history Hrej H Hhist.
    destruct (enhanced_history_after _ _ _ _ _ _ _ _ Hrej H)
      as (rec & Hts & Hafter).
    rewrite Hhist in Hafter. simpl in Hafter.
    exists rec. split; [exact Hts|]. split.
    + intros Hlt. rewrite Hafter, trim_below by exact Hlt. reflexivity.
    + intros oldest rest -> Hlen.
      rewrite Hafter, trim_full by exact Hlen. reflexivity.
Qed.

(** Thirteen analyses of one section by an [EnhancedShelfDetector], whose
    capacity is eight. *)
Lemma C7_history_bound_witness :
  consistent enhanced_view (EnhancedShelfDetector.__init__ 0.7) ∧
  bounded enhanced_view (EnhancedShelfDetector.__init__ 0.7) ∧
  ∃ self' log,
    run (EnhancedShelfDetector.analyze_shelf_region enhanced_sample)
        EnhancedShelfDetector.update_sensitivity
        (EnhancedShelfDetector.__init__ 0.7)
        ((λ k : nat, Analyze (Some bare_region) "shelf"
                       (Some (Qnat k)) 0) <$> seq 0 13)
      = Some (self', log) ∧
    bounded enhanced_view self'.
Proof.
  destruct (enhanced_init_consistent_bounded 0.7) as [Hc Hb].
  split; [exact Hc|]. split; [exact Hb|].
  exact (proj1 (proj2 (proj2 C7_history_bound)) enhanced_sample
           (EnhancedShelfDetector.__init__ 0.7)
           ((λ k : nat, Analyze (Some bare_region) "shelf"
                          (Some (Qnat k)) 0) <$> seq 0 13)
           Hc Hb).
Defined.

(** C3: in each detector, whatever calls are issued and whatever
    timestamps they carry, two alerts of one section are at least
    [cooldown_time] apart, the later call coming after the earlier one;
    and from an instance whose sections all have a cooldown entry (a fresh
    one in particular) no call raises. *)
Theorem C3_cooldown_invariant :
  (∀ perform self calls,
     0 <= ImprovedYOLODetector.cooldown_time self →
     (consistent improved_view self →
      is_Some (run (ImprovedYOLODetector.analyze_shelf_region perform)
                   ImprovedYOLODetector.update_sensitivity self calls)) ∧
     (∀ self' log,
        run (ImprovedYOLODetector.analyze_shelf_region perform)
            ImprovedYOLODetector.update_sensitivity self calls
          = Some (self', log) →
        spaced (ImprovedYOLODetector.cooldown_time self)
          (alerts ImprovedYOLODetector.r_should_alert log))) ∧
  (∀ lib self calls,
     0 <= YOLOv8mShelfDetector.cooldown_time self →
     (consistent yolo8m_view self →
      is_Some (run (YOLOv8mShelfDetector.analyze_shelf_region lib)
                   YOLOv8mShelfDetector.update_sensitivity self calls)) ∧
     (∀ self' log,
        run (YOLOv8mShelfDetector.analyze_shelf_region lib)
            YOLOv8mShelfDetector.update_sensitivity self calls
          = Some (self', log) →
        spaced (YOLOv8mShelfDetector.cooldown_time self)
          (alerts YOLOv8mShelfDetector.r_should_alert log))) ∧
  (∀ perform self calls,
     0 <= EnhancedShelfDetector.cooldown_time self →
     (consistent enhanced_view self →
      is_Some (run (EnhancedShelfDetector.analyze_shelf_region perform)
                   EnhancedShelfDetector.update_sensitivity self calls)) ∧
     (∀ self' log,
        run (EnhancedShelfDetector.analyze_shelf_region perform)
            EnhancedShelfDetector.update_sensitivity self calls
          = Some (self', log) →
        spaced (EnhancedShelfDetector.cooldown_time self)
          (alerts EnhancedShelfDetector.r_should_alert log))).
Proof.
  split; [|split].
  - intros perform self calls Hcd. split.
    + apply (run_total improved_view _ _ ImprovedYOLODetector.r_should_alert
               (improved_analyze_spec perform)
               (improved_analyze_total perform) improved_update_spec).
    + intros self' log Hrun.
      exact (run_spaced improved_view _ _ _
               (improved_analyze_spec perform) improved_update_spec
               self calls self' log Hcd Hrun).
  - intros lib self calls Hcd. split.
    + apply (run_total yolo8m_view _ _ YOLOv8mShelfDetector.r_should_alert
               (yolo8m_analyze_spec lib)
               (yolo8m_analyze_total lib) yolo8m_update_spec).
    + intros self' log Hrun.
      exact (run_spaced yolo8m_view _ _ _
               (yolo8m_analyze_spec lib) yolo8m_update_spec
               self calls self' log Hcd Hrun).
  - intros perform self calls Hcd. split.
    + apply (run_total enhanced_view _ _ EnhancedShelfDetector.r_should_alert
               (enhanced_analyze_spec perform)
               (enhanced_analyze_total perform) enhanced_update_spec).
    + intros self' log Hrun.
      exact (run_spaced enhanced_view _ _ _
               (enhanced_analyze_spec perform) enhanced_update_spec
               self calls self' log Hcd Hrun).
Qed.

(** The scenario of the specification on an [EnhancedShelfDetector]
    (cooldown 2.0): a bare shelf seen at 9.0, 9.5, 10.0, 10.5 and 12.1
    alerts at 10.0, stays quiet at 10.5 and alerts again at 12.1. *)
Lemma C3_cooldown_invariant_witness :
  0 <= EnhancedShelfDetector.cooldown_time
         (EnhancedShelfDetector.__init__ 0.7) ∧
  ∃ self' log,
    run (EnhancedShelfDetector.analyze_shelf_region enhanced_sample)
        EnhancedShelfDetector.update_sensitivity
        (EnhancedShelfDetector.__init__ 0.7)
        [Analyze (Some bare_region) "shelf" (Some 9) 0;
         Analyze (Some bare_region) "shelf" (Some 9.5) 0;
         Analyze (Some bare_region) "shelf" (Some 10) 0;
         Analyze (Some bare_region) "shelf" (Some 10.5) 0;
         Analyze (Some bare_region) "shelf" (Some 12.1) 0]
      = Some (self', log) ∧
    alerts EnhancedShelfDetector.r_should_alert log
      = [("shelf", 10); ("shelf", 12.1)] ∧
    spaced 2 (alerts EnhancedShelfDetector.r_should_alert log).
Proof.
  assert (Hcd : 0 <= EnhancedShelfDetector.cooldown_time
                       (EnhancedShelfDetector.__init__ 0.7))
    by (vm_compute; discriminate).
  split; [exact Hcd|].
  eexists _, _.
  assert (Hrun :
    run (EnhancedShelfDetector.analyze_shelf_region enhanced_sample)
        EnhancedShelfDetector.update_sensitivity
        (EnhancedShelfDetector.__init__ 0.7)
        [Analyze (Some bare_region) "shelf" (Some 9) 0;
         Analyze (Some bare_region) "shelf" (Some 9.5) 0;
         Analyze (Some bare_region) "shelf" (Some 10) 0;
         Analyze (Some bare_region) "shelf" (Some 10.5) 0;
         Analyze (Some bare_region) "shelf" (Some 12.1) 0]
      = Some _) by (vm_compute; reflexivity).
  split; [exact Hrun|]. split; [reflexivity|].
  exact (proj2 (proj2 (proj2 C3_cooldown_invariant) enhanced_sample
                  (EnhancedShelfDetector.__init__ 0.7) _ Hcd)
           _ _ Hrun).
Defined.

(** ** C9: which detections count *)

Section YoloDetection.

Import YOLOv8mShelfDetector.

Variable self : Detector.
Variable model : YoloModel.

(** The inner loop keeps exactly the qualifying boxes, in order, and
    records the area of each. *)
Lemma visit_boxes (bs : list Box) :
  (∀ box, box ∈ bs → is_Some (names model !! cls box)) →
  ∃ visited,
    mapM (visit_box self model) bs = Some visited ∧
    p_area <$> omap id visited
      = box_area <$> filter (λ box, qualifies self model box = true) bs.
Proof.
  induction bs as [|box bs IH]; intros Hnames.
  - exists []. split; reflexivity.
  - destruct IH as (visited & Hvisited & Hareas).
    { intros b Hb. apply Hnames. right. exact Hb. }
    destruct (Hnames box) as [class_name Hname]; [left|].
    assert (Hq : qualifies self model box
                 = is_product self class_name (conf box)).
    { unfold qualifies. rewrite Hname. reflexivity. }
    unfold mapM. fold (mapM (visit_box self model) bs).
    rewrite Hvisited.
    unfold visit_box. rewrite Hname. simpl.
    rewrite filter_cons.
    destruct (is_product self class_name (conf box)) eqn:Hp.
    + destruct (xyxy box) as [[[x1 y1] x2] y2] eqn:Hbox. simpl.
      eexists. split; [reflexivity|].
      simpl. rewrite decide_True by exact Hq.
      rewrite fmap_cons. f_equal; [|exact Hareas].
      unfold box_area. rewrite Hbox. reflexivity.
    + simpl. eexists. split; [reflexivity|].
      simpl. rewrite decide_False by (rewrite Hq; discriminate).
      exact Hareas.
Qed.

End YoloDetection.

(** C9, as stated, fails on a label that is not lower case: the class
    ["Bottle"] is not in the product-class set, yet its detection is
    counted and its box enters the coverage, because the guard looks up
    the lower-cased label. *)
Lemma C9_label_is_lowercased_first :
  let self := YOLOv8mShelfDetector.__init__ 0.7 (Some capital_model) in
  let detection :=
    YOLOv8mShelfDetector._perform_yolo_detection self busy_region in
  ∃ results,
    YOLOv8mShelfDetector.predict capital_model busy_region = Some results ∧
    filter (λ box, spec_qualifies self capital_model box = true)
      (YOLOv8mShelfDetector.all_boxes results) = [] ∧
    YOLOv8mShelfDetector.product_count detection = 1%nat ∧
    YOLOv8mShelfDetector.coverage_ratio detection == 5 # 18.
Proof.
  cbv zeta. eexists. split; [reflexivity|].
  split; [vm_compute; reflexivity|].
  split; vm_compute; reflexivity.
Qed.

(** C9, amended: when the model is loaded and inference goes through, the
    detections that count are those whose lower-cased class label is in
    the product-class set and whose confidence is strictly above the
    threshold; [product_count] is their number and [coverage_ratio] is the
    sum of their box areas divided by the region's area, capped at 1 (and
    0 for a region of no area).  No other detection enters either
    value. *)
Theorem C9_product_detections
    (self : YOLOv8mShelfDetector.Detector)
    (model : YOLOv8mShelfDetector.YoloModel) (roi : Image)
    (results : list YOLOv8mShelfDetector.YoloResult)
    (Hmodel : YOLOv8mShelfDetector.yolo_model self = Some model)
    (Hresults : YOLOv8mShelfDetector.predict model roi = Some results)
    (Hnames : ∀ box, box ∈ YOLOv8mShelfDetector.all_boxes results →
                is_Some (YOLOv8mShelfDetector.names model
                           !! YOLOv8mShelfDetector.cls box)) :
  let counted :=
    filter (λ box, qualifies self model box = true)
      (YOLOv8mShelfDetector.all_boxes results) in
  let detection := YOLOv8mShelfDetector._perform_yolo_detection self roi in
  let roi_area := (shape0 roi * shape1 roi)%nat in
  YOLOv8mShelfDetector.yolo_available detection = true ∧
  YOLOv8mShelfDetector.product_count detection = length counted ∧
  YOLOv8mShelfDetector.coverage_ratio detection
    = if (0 <? roi_area)%nat
      then Qmin 1 (Qsum (box_area <$> counted) / Qnat roi_area)
      else 0.
Proof.
  cbv zeta.
  destruct (visit_boxes self model _ Hnames) as (visited & Hvisited & Hareas).
  unfold YOLOv8mShelfDetector._perform_yolo_detection,
    YOLOv8mShelfDetector.yolo_detection_body.
  rewrite Hmodel, Hresults. simpl. rewrite Hvisited. simpl.
  split; [reflexivity|]. split.
  - rewrite <- (length_fmap YOLOv8mShelfDetector.p_area), Hareas.
    apply length_fmap.
  - rewrite Hareas. reflexivity.
Qed.

(** C9 on a model that reports a bottle, a person and a cup at confidence
    0.15: only the bottle counts, and it covers a quarter of a 60 by 60
    region. *)
Lemma C9_product_detections_witness :
  let self := YOLOv8mShelfDetector.__init__ 0.7 (Some shelf_model) in
  let detection :=
    YOLOv8mShelfDetector._perform_yolo_detection self busy_region in
  YOLOv8mShelfDetector.yolo_available detection = true ∧
  YOLOv8mShelfDetector.product_count detection = 1%nat ∧
  YOLOv8mShelfDetector.coverage_ratio detection
    = Qmin 1 (Qsum [box_area (YOLOv8mShelfDetector.mkBox 39 0.9
                                (0, 0, 30, 30))] / Qnat 3600).
Proof.
  cbv zeta.
  assert (Hnames :
    ∀ box,
      box ∈ YOLOv8mShelfDetector.all_boxes
              [YOLOv8mShelfDetector.mkYoloResult
                 (Some [YOLOv8mShelfDetector.mkBox 39 0.9 (0, 0, 30, 30);
                        YOLOv8mShelfDetector.mkBox 0 0.95 (0, 0, 50, 50);
                        YOLOv8mShelfDetector.mkBox 41 0.15 (5, 5, 25, 25)])] →
      is_Some (YOLOv8mShelfDetector.names shelf_model
                 !! YOLOv8mShelfDetector.cls box)).
  { intros box Hbox. simpl in Hbox.
    repeat (apply elem_of_cons in Hbox as [-> | Hbox];
            [vm_compute; eauto|]).
    apply elem_of_nil in Hbox. contradiction. }
  exact (C9_product_detections
           (YOLOv8mShelfDetector.__init__ 0.7 (Some shelf_model))
           shelf_model busy_region _ eq_refl eq_refl Hnames).
Defined.

(** * Further properties of the detectors *)

(** ** ImprovedYOLODetector: the verdict and its confidence band *)

Lemma Qnat_le (n m : nat) : (n ≤ m)%nat → Qnat n <= Qnat m.
Proof. intros H. unfold Qnat. rewrite <- Zle_Qle. lia. Qed.

Lemma Qnat_1 : Qnat 1 == 1.
Proof. reflexivity. Qed.

Lemma count_true_5 (a b c d e : bool) : (count_true [a; b; c; d; e] ≤ 5)%nat.
Proof. apply (count_true_le [a; b; c; d; e]). Qed.

(** The aggregator of [ImprovedYOLODetector] read as a function of the
    number of indicators. *)
Lemma improved_confidence_by_count
    (self : ImprovedYOLODetector.Detector)
    (analysis : ImprovedYOLODetector.Analysis) :
  let c := ImprovedYOLODetector._calculate_improved_confidence self
             analysis in
  let n := ImprovedYOLODetector.c_empty_indicators c in
  ImprovedYOLODetector.c_is_empty c = (3 <=? n)%nat ∧
  (n ≤ 8)%nat ∧
  ((3 ≤ n)%nat →
   ImprovedYOLODetector.c_empty_confidence c
     = Qmin 1 ((if (5 <=? n)%nat
                then 0.85 + Qmin 0.15 (Qnat (n - 5) * 0.03)
                else 0.65 + Qnat (n - 3) * 0.1)
               * (1 + ImprovedYOLODetector.sensitivity self * 0.3))).
Proof.
  unfold ImprovedYOLODetector._calculate_improved_confidence. cbv zeta.
  match goal with
  | |- context [let '(_, _) := ?X in _] => destruct X as [base b] eqn:E
  end.
  cbn [ImprovedYOLODetector.c_is_empty
       ImprovedYOLODetector.c_empty_confidence
       ImprovedYOLODetector.c_empty_indicators].
  match type of E with
  | context [(5 <=? ?t)%nat] => set (n := t) in *
  end.
  assert (Hn : (n ≤ 8)%nat).
  { subst n.
    match goal with
    | |- (count_true ?l + count_true ?k ≤ 8)%nat =>
        pose proof (count_true_le l); pose proof (count_true_le k);
        assert (length k ≤ 3)%nat
          by (destruct (ImprovedYOLODetector.supermarket_mode _);
              simpl; lia)
    end.
    simpl in *. lia. }
  clearbody n.
  destruct (5 <=? n)%nat eqn:H5;
    [apply Nat.leb_le in H5|apply Nat.leb_gt in H5].
  - inversion E; subst; clear E.
    split; [symmetry; apply Nat.leb_le; lia|]. split; auto.
  - destruct (3 <=? n)%nat eqn:H3.
    + inversion E; subst; clear E. repeat split; auto.
    + apply Nat.leb_gt in H3.
      destruct (2 <=? n)%nat eqn:H2; inversion E; subst; clear E.
      * split; [reflexivity|]. split; [exact Hn|]. lia.
      * split; [reflexivity|]. split; [exact Hn|]. lia.
Qed.

Lemma improved_empty_floor
    (self : ImprovedYOLODetector.Detector)
    (analysis : ImprovedYOLODetector.Analysis) :
  0 <= ImprovedYOLODetector.sensitivity self →
  let c := ImprovedYOLODetector._calculate_improved_confidence self
             analysis in
  ImprovedYOLODetector.c_is_empty c = true →
  0.65 <= ImprovedYOLODetector.c_empty_confidence c.
Proof.
  intros Hs.
  destruct (improved_confidence_shape self analysis)
    as (base & b & Hbase & Hshape).
  destruct (Hshape (ImprovedYOLODetector.sensitivity self)) as (E & C & _).
  rewrite (improved_confidence_ext _ self) in E, C by reflexivity.
  cbv zeta. rewrite E, C. intros ->. specialize (Hbase eq_refl).
  set (s := ImprovedYOLODetector.sensitivity self) in *.
  case_min 1 (base * (1 + s * 0.3)); nra.
Qed.

(** X1: the verdict of [ImprovedYOLODetector] is empty exactly when at
    least three of the at most eight indicators are set; the branch for
    exactly two indicators computes [is_empty] but never yields it. *)
Theorem X1_improved_verdict_by_count
    (self : ImprovedYOLODetector.Detector)
    (analysis : ImprovedYOLODetector.Analysis) :
  let c := ImprovedYOLODetector._calculate_improved_confidence self
             analysis in
  ImprovedYOLODetector.c_is_empty c
    = (3 <=? ImprovedYOLODetector.c_empty_indicators c)%nat ∧
  (ImprovedYOLODetector.c_empty_indicators c ≤ 8)%nat ∧
  (ImprovedYOLODetector.c_supermarket_indicators c ≤ 3)%nat.
Proof.
  destruct (improved_confidence_by_count self analysis) as (He & Hn & _).
  cbv zeta in *. split; [exact He|]. split; [exact Hn|].
  unfold ImprovedYOLODetector._calculate_improved_confidence. cbv zeta.
  match goal with
  | |- context [let '(_, _) := ?X in _] => destruct X as [base b]
  end.
  cbn [ImprovedYOLODetector.c_supermarket_indicators].
  match goal with
  | |- (count_true ?k ≤ 3)%nat =>
      pose proof (count_true_le k);
      assert (length k ≤ 3)%nat
        by (destruct (ImprovedYOLODetector.supermarket_mode _); simpl; lia)
  end.
  lia.
Qed.

(** X2: for one instance with a non-negative sensitivity, an analysis
    with at least as many indicators as one judged empty is judged empty
    too, with a confidence that is not lower. *)
Theorem X2_improved_more_evidence_more_confidence
    (self : ImprovedYOLODetector.Detector)
    (analysis1 analysis2 : ImprovedYOLODetector.Analysis)
    (Hs : 0 <= ImprovedYOLODetector.sensitivity self) :
  let c1 := ImprovedYOLODetector._calculate_improved_confidence self
              analysis1 in
  let c2 := ImprovedYOLODetector._calculate_improved_confidence self
              analysis2 in
  (ImprovedYOLODetector.c_empty_indicators c1
     ≤ ImprovedYOLODetector.c_empty_indicators c2)%nat →
  ImprovedYOLODetector.c_is_empty c1 = true →
  ImprovedYOLODetector.c_is_empty c2 = true ∧
  ImprovedYOLODetector.c_empty_confidence c1
    <= ImprovedYOLODetector.c_empty_confidence c2.
Proof.
  destruct (improved_confidence_by_count self analysis1) as (He1 & _ & Hc1).
  destruct (improved_confidence_by_count self analysis2) as (He2 & _ & Hc2).
  cbv zeta in *.
  set (n1 := ImprovedYOLODetector.c_empty_indicators _) in *.
  set (n2 := ImprovedYOLODetector.c_empty_indicators
               (ImprovedYOLODetector._calculate_improved_confidence self
                  analysis2)) in *.
  intros Hle Hempty. rewrite He1 in Hempty. apply Nat.leb_le in Hempty.
  rewrite He2. split; [apply Nat.leb_le; lia|].
  rewrite Hc1, Hc2 by lia.
  set (s := ImprovedYOLODetector.sensitivity self) in *.
  assert (Hband :
    (if (5 <=? n1)%nat then 0.85 + Qmin 0.15 (Qnat (n1 - 5) * 0.03)
     else 0.65 + Qnat (n1 - 3) * 0.1)
    <= (if (5 <=? n2)%nat then 0.85 + Qmin 0.15 (Qnat (n2 - 5) * 0.03)
        else 0.65 + Qnat (n2 - 3) * 0.1)).
  { destruct (Nat.leb_spec 5 n1) as [H1|H1];
      destruct (Nat.leb_spec 5 n2) as [H2|H2]; try lia.
    - pose proof (Qnat_le (n1 - 5) (n2 - 5) ltac:(lia)).
      case_min 0.15 (Qnat (n1 - 5) * 0.03);
        case_min 0.15 (Qnat (n2 - 5) * 0.03); lra.
    - pose proof (Qnat_le (n1 - 3) 1 ltac:(lia)) as H. rewrite Qnat_1 in H.
      pose proof (Qnat_nonneg (n2 - 5)).
      case_min 0.15 (Qnat (n2 - 5) * 0.03); lra.
    - pose proof (Qnat_le (n1 - 3) (n2 - 3) ltac:(lia)). lra. }
  assert (Hpos :
    0 <= (if (5 <=? n1)%nat then 0.85 + Qmin 0.15 (Qnat (n1 - 5) * 0.03)
          else 0.65 + Qnat (n1 - 3) * 0.1)).
  { destruct (5 <=? n1)%nat.
    - pose proof (Qnat_nonneg (n1 - 5)).
      case_min 0.15 (Qnat (n1 - 5) * 0.03); lra.
    - pose proof (Qnat_nonneg (n1 - 3)). lra. }
  clear Hc1 Hc2.
  match goal with
  | |- Qmin 1 (?x * ?k) <= Qmin 1 (?y * ?k) =>
      set (band1 := x) in *; set (band2 := y) in *
  end.
  clearbody band1 band2.
  case_min 1 (band1 * (1 + s * 0.3)); case_min 1 (band2 * (1 + s * 0.3));
    nra.
Qed.

(** X2 between a region with three indicators and one with eight, at the
    default sensitivity. *)
Lemma X2_improved_more_evidence_more_confidence_witness :
  let self := ImprovedYOLODetector.__init__ 0.7 in
  let three :=
    ImprovedYOLODetector.mkAnalysis
      (mkUniformity 3000 0.05 false) (mkObjects 1 0.2 0.08)
      (mkColor 0.5 false) (mkTexture 0.5 false) (mkStructure 3.3 true) in
  0 <= ImprovedYOLODetector.sensitivity self ∧
  ImprovedYOLODetector.c_is_empty
    (ImprovedYOLODetector._calculate_improved_confidence self improved_bare)
    = true ∧
  ImprovedYOLODetector.c_empty_confidence
    (ImprovedYOLODetector._calculate_improved_confidence self three)
  <= ImprovedYOLODetector.c_empty_confidence
       (ImprovedYOLODetector._calculate_improved_confidence self
          improved_bare).
Proof.
  cbv zeta.
  assert (Hs : 0 <= ImprovedYOLODetector.sensitivity
                      (ImprovedYOLODetector.__init__ 0.7))
    by (vm_compute; discriminate).
  split; [exact Hs|].
  exact (X2_improved_more_evidence_more_confidence
           (ImprovedYOLODetector.__init__ 0.7)
           (ImprovedYOLODetector.mkAnalysis
              (mkUniformity 3000 0.05 false) (mkObjects 1 0.2 0.08)
              (mkColor 0.5 false) (mkTexture 0.5 false)
              (mkStructure 3.3 true))
           improved_bare Hs ltac:(vm_compute; lia) eq_refl).
Defined.

(** ** ImprovedYOLODetector: what an accepted analysis returns and stores *)

(** Every field of the result and of the stored record, in terms of the
    instance the call was made on. *)
Lemma improved_accepted_full perform self img n ts now self' r :
  rejected 50 (Some img) = false →
  ImprovedYOLODetector.analyze_shelf_region perform self (Some img) n ts
    now = Some (self', r) →
  let t := default now ts in
  let c := ImprovedYOLODetector._calculate_improved_confidence self
             (perform img) in
  let vs := _determine_visual_state
              (ImprovedYOLODetector.c_empty_confidence c)
              (ImprovedYOLODetector.c_is_empty c) in
  let level := ImprovedYOLODetector._determine_alert_level
                 (ImprovedYOLODetector.c_empty_confidence c)
                 (ImprovedYOLODetector.c_is_empty c) in
  let rec :=
    ImprovedYOLODetector.mkRecord t
      (ImprovedYOLODetector.c_is_empty c)
      (ImprovedYOLODetector.c_empty_confidence c)
      (ImprovedYOLODetector.c_fullness_score c)
      vs level (perform img)
      (ImprovedYOLODetector.frame_count self + 1) in
  let h2 :=
    trim (ImprovedYOLODetector.history_length self)
      (default [] (ImprovedYOLODetector.detection_history self !! n)
         ++ [rec]) in
  let stab := ImprovedYOLODetector.stability_of_history h2 in
  ∃ self2,
    ImprovedYOLODetector.alert_cooldown self2
      = cooldown_after_init improved_view self n ∧
    ImprovedYOLODetector.cooldown_time self2
      = ImprovedYOLODetector.cooldown_time self ∧
    ImprovedYOLODetector._should_trigger_alert self2 n t c stab level
      = Some (self', ImprovedYOLODetector.r_should_alert r) ∧
    ImprovedYOLODetector.detection_history self' !! n = Some h2 ∧
    ImprovedYOLODetector.frame_count self'
      = (ImprovedYOLODetector.frame_count self + 1)%nat ∧
    r = ImprovedYOLODetector.mkResult
          (ImprovedYOLODetector.c_is_empty c)
          (ImprovedYOLODetector.c_empty_confidence c)
          (ImprovedYOLODetector.c_fullness_score c)
          (ImprovedYOLODetector.r_should_alert r)
          level vs
          (ImprovedYOLODetector.consistency_score stab)
          (ImprovedYOLODetector.detection_strength stab)
          (ImprovedYOLODetector.DetailsAnalysis (perform img))
          (ImprovedYOLODetector.c_method_scores c)
          (ImprovedYOLODetector.frame_count self + 1)
          t
          (ImprovedYOLODetector.trend stab).
Proof.
  intros Hrej. apply rejected_false in Hrej as [Hsize Hshape].
  unfold ImprovedYOLODetector.analyze_shelf_region.
  rewrite Hsize, Hshape. cbv zeta.
  set (self0 := ImprovedYOLODetector.set_frame_count _ self).
  destruct (improved_initialize_history_attrs self0 n)
    as (Hs & Hp & Hcap & Hcd & Hfc).
  destruct (improved_initialize_history_tables self0 n)
    as (Hlook & _ & Htable).
  rewrite (improved_confidence_ext
             (ImprovedYOLODetector.initialize_history self0 n) self)
    by (rewrite ?Hs, ?Hp; reflexivity).
  rewrite Hfc.
  unfold ImprovedYOLODetector.record_detection. rewrite Hlook, Hcap.
  cbn [mbind option_bind mret option_ret].
  unfold ImprovedYOLODetector._calculate_stability_metrics.
  cbn [ImprovedYOLODetector.detection_history
       ImprovedYOLODetector.set_detection_history].
  rewrite lookup_insert_eq.
  cbn [mbind option_bind mret option_ret].
  match goal with
  | |- (?X ≫= _) = _ → _ =>
      destruct X as [[self3 fired]|] eqn:Halert;
      cbn [mbind option_bind mret option_ret]; [|discriminate]
  end.
  intros H. inversion H; subst; clear H.
  eexists. split; [|split; [|split; [exact Halert|]]].
  - cbn [ImprovedYOLODetector.alert_cooldown
         ImprovedYOLODetector.set_detection_history]. exact Htable.
  - cbn [ImprovedYOLODetector.cooldown_time
         ImprovedYOLODetector.set_detection_history]. exact Hcd.
  - apply improved_should_trigger_alert_spec in Halert
      as [[_ ->] | (_ & _ & last & _ & _ & ->)];
      (split; [simpl; apply lookup_insert_eq|]);
      (split; [simpl; rewrite Hfc; reflexivity|]);
      simpl; rewrite ?Hfc; reflexivity.
Qed.

Lemma improved_should_trigger_alert_fired self n t c stab level self' :
  ImprovedYOLODetector._should_trigger_alert self n t c stab level
    = Some (self', true) →
  ImprovedYOLODetector.c_is_empty c = true ∧
  0.5 <= ImprovedYOLODetector.c_empty_confidence c ∧
  (2 ≤ ImprovedYOLODetector.consistency_score stab)%nat.
Proof.
  unfold ImprovedYOLODetector._should_trigger_alert. intros H.
  destruct (ImprovedYOLODetector.c_is_empty c); simpl in H;
    [|discriminate].
  destruct (ImprovedYOLODetector.is_NONE level); simpl in H;
    [discriminate|].
  destruct (Qltb _ 0.5) eqn:Hconf; [discriminate|].
  destruct (_ <? 2)%nat eqn:Hstab; [discriminate|].
  apply Qltb_ge in Hconf. apply Nat.ltb_ge in Hstab. auto.
Qed.

(** The visual state and the alert level of an empty verdict whose
    confidence is at least 0.65. *)
Lemma improved_levels_of_empty (confidence : Q) :
  0.65 <= confidence →
  let level := ImprovedYOLODetector._determine_alert_level confidence true in
  let state := _determine_visual_state confidence true in
  (level = CRITICAL ∧ state = CRITICALLY_EMPTY ∧ 0.85 <= confidence) ∨
  (level = HIGH ∧ state = MOSTLY_EMPTY ∧ confidence < 0.85) ∨
  (level = MEDIUM ∧ state = PARTIALLY_EMPTY ∧ confidence < 0.70).
Proof.
  intros Hfloor.
  unfold ImprovedYOLODetector._determine_alert_level,
    _determine_visual_state. simpl.
  destruct (Qleb 0.85 confidence) eqn:H85.
  { apply Qleb_le in H85. auto. }
  apply Qleb_gt in H85.
  destruct (Qleb 0.70 confidence) eqn:H70; [auto|].
  apply Qleb_gt in H70.
  destruct (Qleb 0.55 confidence) eqn:H55; [auto 10|].
  apply Qleb_gt in H55. lra.
Qed.

(** X3: with a non-negative sensitivity, an empty verdict of
    [ImprovedYOLODetector] has confidence at least 0.65, so its alert
    level is CRITICAL, HIGH or MEDIUM and its visual state is the matching
    CRITICALLY_EMPTY, MOSTLY_EMPTY or PARTIALLY_EMPTY (LOW, LOW_STOCK and
    UNCERTAIN never occur); a stocked verdict has level NONE and state
    WELL_STOCKED.  The canned result is the first pair. *)
Theorem X3_improved_levels
    perform self roi shelf_name timestamp now self' r
    (Hs : 0 <= ImprovedYOLODetector.sensitivity self)
    (Hrun : ImprovedYOLODetector.analyze_shelf_region perform self roi
              shelf_name timestamp now = Some (self', r)) :
  (ImprovedYOLODetector.r_is_empty r = true →
   0.65 <= ImprovedYOLODetector.r_confidence r ∧
   ((ImprovedYOLODetector.r_alert_level r = CRITICAL ∧
     ImprovedYOLODetector.r_visual_state r = CRITICALLY_EMPTY) ∨
    (ImprovedYOLODetector.r_alert_level r = HIGH ∧
     ImprovedYOLODetector.r_visual_state r = MOSTLY_EMPTY) ∨
    (ImprovedYOLODetector.r_alert_level r = MEDIUM ∧
     ImprovedYOLODetector.r_visual_state r = PARTIALLY_EMPTY))) ∧
  (ImprovedYOLODetector.r_is_empty r = false →
   ImprovedYOLODetector.r_alert_level r = NONE ∧
   ImprovedYOLODetector.r_visual_state r = WELL_STOCKED).
Proof.
  destruct (rejected 50 roi) eqn:Hrej.
  - destruct (improved_rejected perform self roi shelf_name timestamp now
                Hrej) as [msg Hmsg].
    rewrite Hmsg in Hrun. inversion Hrun; subst. simpl.
    split; [|discriminate]. intros _. split; [lra|auto].
  - destruct roi as [img|]; [|discriminate].
    destruct (improved_accepted_full _ _ _ _ _ _ _ _ Hrej Hrun)
      as (self2 & _ & _ & _ & _ & _ & ->).
    cbn [ImprovedYOLODetector.r_is_empty ImprovedYOLODetector.r_confidence
         ImprovedYOLODetector.r_alert_level
         ImprovedYOLODetector.r_visual_state].
    split.
    + intros Hempty.
      pose proof (improved_empty_floor self (perform img) Hs Hempty)
        as Hfloor.
      split; [exact Hfloor|]. rewrite Hempty.
      destruct (improved_levels_of_empty _ Hfloor)
        as [(-> & -> & _) | [(-> & -> & _) | (-> & -> & _)]]; auto.
    + intros ->. split; reflexivity.
Qed.

(** X3 on a bare region given to a fresh detector. *)
Lemma X3_improved_levels_witness :
  ∃ self' r,
    ImprovedYOLODetector.analyze_shelf_region improved_sample
      (ImprovedYOLODetector.__init__ 0.7) (Some bare_region) "shelf"
      (Some 10) 0 = Some (self', r) ∧
    ImprovedYOLODetector.r_is_empty r = true ∧
    0.65 <= ImprovedYOLODetector.r_confidence r ∧
    ImprovedYOLODetector.r_alert_level r = CRITICAL ∧
    ImprovedYOLODetector.r_visual_state r = CRITICALLY_EMPTY.
Proof.
  eexists _, _.
  assert (Hrun :
    ImprovedYOLODetector.analyze_shelf_region improved_sample
      (ImprovedYOLODetector.__init__ 0.7) (Some bare_region) "shelf"
      (Some 10) 0 = Some _) by (vm_compute; reflexivity).
  assert (Hs : 0 <= ImprovedYOLODetector.sensitivity
                      (ImprovedYOLODetector.__init__ 0.7))
    by (vm_compute; discriminate).
  split; [exact Hrun|]. split; [reflexivity|].
  split; [|split; reflexivity].
  exact (proj1 (proj1 (X3_improved_levels _ _ _ _ _ _ _ _ Hs Hrun) eq_refl)).
Defined.

(** X4: with a non-negative sensitivity, an accepted analysis of
    [ImprovedYOLODetector] alerts exactly when the verdict is empty, the
    stability score is at least 2 and the time since the section's stored
    alert time is at least [cooldown_time]; the tests on the alert level
    and on a confidence below 0.5 never decide. *)
Theorem X4_improved_alert_decision
    perform self img shelf_name timestamp now self' r last_alert
    (Hrej : rejected 50 (Some img) = false)
    (Hs : 0 <= ImprovedYOLODetector.sensitivity self)
    (Hlast : cooldown_after_init improved_view self shelf_name
               !! shelf_name = Some last_alert)
    (Hrun : ImprovedYOLODetector.analyze_shelf_region perform self
              (Some img) shelf_name timestamp now = Some (self', r)) :
  ImprovedYOLODetector.r_should_alert r = true ↔
  ImprovedYOLODetector.r_is_empty r = true ∧
  (2 ≤ ImprovedYOLODetector.r_stability r)%nat ∧
  ImprovedYOLODetector.cooldown_time self
    <= default now timestamp - last_alert.
Proof.
  destruct (improved_accepted_full _ _ _ _ _ _ _ _ Hrej Hrun)
    as (self2 & Hcool & Hcd & Halert & _ & _ & Hr).
  cbv zeta in *.
  set (c := ImprovedYOLODetector._calculate_improved_confidence self
              (perform img)) in *.
  set (stab := ImprovedYOLODetector.stability_of_history _) in *.
  assert (Hfields :
    ImprovedYOLODetector.r_is_empty r = ImprovedYOLODetector.c_is_empty c ∧
    ImprovedYOLODetector.r_stability r
      = ImprovedYOLODetector.consistency_score stab).
  { rewrite Hr. split; reflexivity. }
  destruct Hfields as [-> ->].
  revert Halert. generalize (ImprovedYOLODetector.r_should_alert r).
  intros fired Halert.
  unfold ImprovedYOLODetector._should_trigger_alert in Halert.
  rewrite Hcool, Hlast, Hcd in Halert.
  destruct (ImprovedYOLODetector.c_is_empty c) eqn:Hempty;
    simpl in Halert.
  2:{ inversion Halert; subst. split; [discriminate|].
      intros [? _]. discriminate. }
  pose proof (improved_empty_floor self (perform img) Hs Hempty) as Hfloor.
  fold c in Hfloor.
  assert (HNONE : ImprovedYOLODetector.is_NONE
                    (ImprovedYOLODetector._determine_alert_level
                       (ImprovedYOLODetector.c_empty_confidence c) true)
                  = false).
  { destruct (improved_levels_of_empty _ Hfloor)
      as [(-> & _) | [(-> & _) | (-> & _)]]; reflexivity. }
  rewrite HNONE in Halert. simpl in Halert.
  assert (Hconf : Qltb (ImprovedYOLODetector.c_empty_confidence c) 0.5
                  = false) by (apply Qltb_ge; lra).
  rewrite Hconf in Halert.
  destruct (_ <? 2)%nat eqn:Hstab.
  { apply Nat.ltb_lt in Hstab. inversion Halert; subst.
    split; [discriminate|]. intros (_ & ? & _). lia. }
  apply Nat.ltb_ge in Hstab.
  destruct (Qltb _ (ImprovedYOLODetector.cooldown_time self)) eqn:Hgap;
    inversion Halert; subst.
  - apply Qltb_lt in Hgap. split; [discriminate|].
    intros (_ & _ & Hle). exfalso. exact (Qlt_not_le _ _ Hgap Hle).
  - apply Qltb_ge in Hgap. split; auto.
Qed.

(** X4 on the second look at a bare shelf, 1.5 seconds or more after time
    0: it alerts. *)
Lemma X4_improved_alert_decision_witness :
  let self :=
    ImprovedYOLODetector.mkDetector 0.7
      {[ "shelf" := [ImprovedYOLODetector.mkRecord 9 true 1 0
                       CRITICALLY_EMPTY CRITICAL improved_bare 1] ]}
      {[ "shelf" := 0 ]} 1
      (ImprovedYOLODetector.detection_params
         (ImprovedYOLODetector.__init__ 0.7)) 10 1.5 in
  rejected 50 (Some bare_region) = false ∧
  0 <= ImprovedYOLODetector.sensitivity self ∧
  cooldown_after_init improved_view self "shelf" !! "shelf" = Some 0 ∧
  ∃ self' r,
    ImprovedYOLODetector.analyze_shelf_region improved_sample self
      (Some bare_region) "shelf" (Some 10) 0 = Some (self', r) ∧
    ImprovedYOLODetector.r_should_alert r = true.
Proof.
  cbv zeta.
  set (self :=
    ImprovedYOLODetector.mkDetector 0.7
      {[ "shelf" := [ImprovedYOLODetector.mkRecord 9 true 1 0
                       CRITICALLY_EMPTY CRITICAL improved_bare 1] ]}
      {[ "shelf" := 0 ]} 1
      (ImprovedYOLODetector.detection_params
         (ImprovedYOLODetector.__init__ 0.7)) 10 1.5).
  split; [reflexivity|].
  assert (Hs : 0 <= ImprovedYOLODetector.sensitivity self)
    by (vm_compute; discriminate).
  split; [exact Hs|].
  assert (Hlast : cooldown_after_init improved_view self "shelf" !! "shelf"
                  = Some 0) by (vm_compute; reflexivity).
  split; [exact Hlast|].
  eexists _, _.
  assert (Hrun :
    ImprovedYOLODetector.analyze_shelf_region improved_sample self
      (Some bare_region) "shelf" (Some 10) 0 = Some _)
    by (vm_compute; reflexivity).
  split; [exact Hrun|].
  apply (proj2 (X4_improved_alert_decision improved_sample self bare_region
                  "shelf" (Some 10) 0 _ _ 0 eq_refl Hs Hlast Hrun)).
  split; [reflexivity|]. split; [vm_compute; lia|].
  vm_compute. discriminate.
Defined.

(** ** The stability score and the records behind it *)

Lemma trim_snoc_nonempty {A} (capacity : nat) (history : list A) (x : A) :
  (1 ≤ capacity)%nat →
  last (trim capacity (history ++ [x])) = Some x.
Proof.
  intros Hcap. unfold trim. rewrite length_app. simpl.
  destruct (capacity <? length history + 1)%nat eqn:E.
  - apply Nat.ltb_lt in E.
    destruct history as [|y rest]; [simpl in E; lia|].
    simpl. rewrite drop_0. apply last_snoc.
  - apply last_snoc.
Qed.

Lemma last_Some_length {A} (l : list A) (x : A) :
  last l = Some x → (1 ≤ length l)%nat.
Proof. destruct l; [discriminate|simpl; lia]. Qed.

(** Among the elements of a non-empty list, those equal to the last one
    are at least one and at most all. *)
Lemma matches_last_bounds (states : list bool) :
  (1 ≤ length states)%nat →
  let k := length (filter (λ state, Some state = last states) states) in
  (1 ≤ k ∧ k ≤ length states)%nat.
Proof.
  intros Hlen. cbv zeta. split; [|apply length_filter].
  destruct (last states) as [x|] eqn:Hlast.
  - apply last_Some in Hlast as [l' ->].
    rewrite filter_app, length_app, filter_cons.
    rewrite decide_True by reflexivity. simpl. lia.
  - apply last_None in Hlast. subst. simpl in Hlen. lia.
Qed.

Lemma spec_stability_bounds (states : list bool) :
  (1 ≤ length states)%nat →
  (1 ≤ spec_stability states ∧ spec_stability states ≤ 5 ∧
   spec_stability states ≤ length states)%nat.
Proof.
  intros Hlen. unfold spec_stability. cbv zeta.
  assert (Hrecent : (1 ≤ length (lastn 5 states))%nat)
    by (rewrite length_lastn; lia).
  destruct (matches_last_bounds (lastn 5 states) Hrecent) as [Hlo Hhi].
  cbv zeta in *. rewrite length_lastn in Hhi. lia.
Qed.

Lemma improved_consistency_bounds
    (history : list ImprovedYOLODetector.DetectionRecord) :
  (1 ≤ length history)%nat →
  let score := ImprovedYOLODetector.consistency_score
                 (ImprovedYOLODetector.stability_of_history history) in
  (1 ≤ score ∧ score ≤ 5 ∧ score ≤ length history)%nat.
Proof.
  intros Hlen. unfold ImprovedYOLODetector.stability_of_history. cbv zeta.
  destruct (length history <? 3)%nat eqn:E.
  - apply Nat.ltb_lt in E. simpl. lia.
  - cbn [ImprovedYOLODetector.consistency_score].
    rewrite lastn_fmap.
    pose proof (spec_stability_bounds
                  (ImprovedYOLODetector.h_is_empty <$> history)) as H.
    rewrite length_fmap in H. exact (H Hlen).
Qed.

Lemma enhanced_stability_bounds self n history :
  EnhancedShelfDetector.detection_history self !! n = Some history →
  (1 ≤ length history)%nat →
  let score := EnhancedShelfDetector._calculate_stability self n in
  (1 ≤ score ∧ score ≤ 5 ∧ score ≤ length history)%nat.
Proof.
  intros Hh Hlen. unfold EnhancedShelfDetector._calculate_stability.
  rewrite Hh. cbv zeta.
  destruct (length history <? 3)%nat eqn:E.
  - apply Nat.ltb_lt in E. lia.
  - rewrite lastn_fmap.
    pose proof (spec_stability_bounds
                  (EnhancedShelfDetector.h_is_empty <$> history)) as H.
    rewrite length_fmap in H. exact (H Hlen).
Qed.

Lemma enhanced_should_alert_fired self n t is_empty confidence stability
    self' :
  EnhancedShelfDetector._should_alert self n t is_empty confidence stability
    = Some (self', true) →
  is_empty = true ∧ 0.6 <= confidence ∧ (3 ≤ stability)%nat.
Proof.
  unfold EnhancedShelfDetector._should_alert. intros H.
  destruct is_empty; simpl in H; [|discriminate].
  destruct (Qltb confidence 0.6) eqn:Hconf; [discriminate|].
  destruct (stability <? 3)%nat eqn:Hstab; [discriminate|].
  apply Qltb_ge in Hconf. apply Nat.ltb_ge in Hstab. auto.
Qed.

(** X5: after an accepted analysis on a detector that retains at least
    one record per section, the stability score is at least 1, at most 5
    and at most the number of records retained for the section. *)
Theorem X5_stability_range :
  (∀ perform self img shelf_name timestamp now self' r,
     rejected 50 (Some img) = false →
     (1 ≤ ImprovedYOLODetector.history_length self)%nat →
     ImprovedYOLODetector.analyze_shelf_region perform self (Some img)
       shelf_name timestamp now = Some (self', r) →
     ∃ history,
       ImprovedYOLODetector.detection_history self' !! shelf_name
         = Some history ∧
       (1 ≤ ImprovedYOLODetector.r_stability r ∧
        ImprovedYOLODetector.r_stability r ≤ 5 ∧
        ImprovedYOLODetector.r_stability r ≤ length history)%nat) ∧
  (∀ perform self img shelf_name timestamp now self' r,
     rejected 30 (Some img) = false →
     (1 ≤ EnhancedShelfDetector.history_length self)%nat →
     EnhancedShelfDetector.analyze_shelf_region perform self (Some img)
       shelf_name timestamp now = Some (self', r) →
     ∃ history,
       EnhancedShelfDetector.detection_history self' !! shelf_name
         = Some history ∧
       (1 ≤ EnhancedShelfDetector.r_stability r ∧
        EnhancedShelfDetector.r_stability r ≤ 5 ∧
        EnhancedShelfDetector.r_stability r ≤ length history)%nat).
Proof.
  split.
  - intros perform self img n ts now self' r Hrej Hcap Hrun.
    destruct (improved_accepted_full _ _ _ _ _ _ _ _ Hrej Hrun)
      as (self2 & _ & _ & _ & Hh & _ & Hr).
    cbv zeta in *. eexists. split; [exact Hh|].
    rewrite Hr. cbn [ImprovedYOLODetector.r_stability].
    apply improved_consistency_bounds.
    eapply last_Some_length. apply trim_snoc_nonempty. exact Hcap.
  - intros perform self img n ts now self' r Hrej Hcap Hrun.
    destruct (enhanced_history_after _ _ _ _ _ _ _ _ Hrej Hrun)
      as (rec & _ & Hh).
    destruct (enhanced_accepted _ _ _ _ _ _ _ _ Hrej Hrun)
      as (rec' & self2 & _ & _ & _ & _ & _ & _ & -> & Hsame).
    eexists. split; [exact Hh|].
    rewrite Hsame in Hh.
    apply (enhanced_stability_bounds self2 n _ Hh).
    eapply last_Some_length. apply trim_snoc_nonempty. exact Hcap.
Qed.

(** X5 on the first look at a bare shelf. *)
Lemma X5_stability_range_witness :
  rejected 50 (Some bare_region) = false ∧
  (1 ≤ ImprovedYOLODetector.history_length
         (ImprovedYOLODetector.__init__ 0.7))%nat ∧
  ∃ self' r history,
    ImprovedYOLODetector.analyze_shelf_region improved_sample
      (ImprovedYOLODetector.__init__ 0.7) (Some bare_region) "shelf"
      (Some 10) 0 = Some (self', r) ∧
    ImprovedYOLODetector.detection_history self' !! "shelf"
      = Some history ∧
    (1 ≤ ImprovedYOLODetector.r_stability r ∧
     ImprovedYOLODetector.r_stability r ≤ 5 ∧
     ImprovedYOLODetector.r_stability r ≤ length history)%nat.
Proof.
  split; [reflexivity|].
  assert (Hcap : (1 ≤ ImprovedYOLODetector.history_length
                        (ImprovedYOLODetector.__init__ 0.7))%nat)
    by (vm_compute; lia).
  split; [exact Hcap|].
  assert (Hrun :
    ∃ self' r,
      ImprovedYOLODetector.analyze_shelf_region improved_sample
        (ImprovedYOLODetector.__init__ 0.7) (Some bare_region) "shelf"
        (Some 10) 0 = Some (self', r))
    by (eexists _, _; vm_compute; reflexivity).
  destruct Hrun as (self' & r & Hrun).
  destruct (proj1 X5_stability_range improved_sample _ bare_region _ _ _
              _ _ eq_refl Hcap Hrun) as (history & Hh & Hbounds).
  exists self', r, history. auto.
Defined.

(** X6: an alert needs history.  In [ImprovedYOLODetector] an alert is
    raised only when the section retains at least two records, in
    [EnhancedShelfDetector] only when it retains at least three; the
    first analysis of a section (the first two, in the enhanced detector)
    never alerts. *)
Theorem X6_alert_needs_records :
  (∀ perform self roi shelf_name timestamp now self' r,
     ImprovedYOLODetector.analyze_shelf_region perform self roi shelf_name
       timestamp now = Some (self', r) →
     ImprovedYOLODetector.r_should_alert r = true →
     ∃ history,
       ImprovedYOLODetector.detection_history self' !! shelf_name
         = Some history ∧ (2 ≤ length history)%nat) ∧
  (∀ perform self roi shelf_name timestamp now self' r,
     EnhancedShelfDetector.analyze_shelf_region perform self roi shelf_name
       timestamp now = Some (self', r) →
     EnhancedShelfDetector.r_should_alert r = true →
     ∃ history,
       EnhancedShelfDetector.detection_history self' !! shelf_name
         = Some history ∧ (3 ≤ length history)%nat).
Proof.
  split.
  - intros perform self roi n ts now self' r Hrun Hfired.
    destruct (rejected 50 roi) eqn:Hrej.
    { destruct (improved_rejected perform self roi n ts now Hrej)
        as [msg Hmsg].
      rewrite Hmsg in Hrun. inversion Hrun; subst. discriminate. }
    destruct roi as [img|]; [|discriminate].
    destruct (improved_accepted_full _ _ _ _ _ _ _ _ Hrej Hrun)
      as (self2 & _ & _ & Halert & Hh & _ & _).
    cbv zeta in *. rewrite Hfired in Halert.
    apply improved_should_trigger_alert_fired in Halert as (_ & _ & Hstab).
    match type of Hstab with
    | (2 ≤ ImprovedYOLODetector.consistency_score
             (ImprovedYOLODetector.stability_of_history ?h))%nat =>
        remember h as history eqn:Ehistory
    end.
    clear Ehistory. exists history. split; [exact Hh|].
    destruct history as [|x rest]; [simpl in Hstab; lia|].
    pose proof (improved_consistency_bounds (x :: rest)
                  ltac:(simpl; lia)) as Hb.
    cbv zeta in Hb. lia.
  - intros perform self roi n ts now self' r Hrun Hfired.
    destruct (rejected 30 roi) eqn:Hrej.
    { destruct (enhanced_rejected perform self roi n ts now Hrej)
        as [msg Hmsg].
      rewrite Hmsg in Hrun. inversion Hrun; subst. discriminate. }
    destruct roi as [img|]; [|discriminate].
    destruct (enhanced_history_after _ _ _ _ _ _ _ _ Hrej Hrun)
      as (rec & _ & Hh).
    destruct (enhanced_accepted _ _ _ _ _ _ _ _ Hrej Hrun)
      as (rec' & self2 & _ & _ & _ & Halert & _ & _ & _ & Hsame).
    rewrite Hfired in Halert.
    apply enhanced_should_alert_fired in Halert as (_ & _ & Hstab).
    eexists. split; [exact Hh|].
    rewrite Hsame in Hh.
    unfold EnhancedShelfDetector._calculate_stability in Hstab.
    rewrite Hh in Hstab.
    match type of Hstab with
    | context [(length ?h <? 3)%nat] =>
        destruct (length h <? 3)%nat eqn:E;
        [exact Hstab | apply Nat.ltb_ge in E; exact E]
    end.
Qed.

(** X6 on a bare shelf seen three times by an [EnhancedShelfDetector]:
    the third look alerts, with three records retained. *)
Lemma X6_alert_needs_records_witness :
  let self :=
    EnhancedShelfDetector.mkDetector 0.7
      {[ "shelf" :=
           [EnhancedShelfDetector.mkRecord 9 true 1
              EnhancedShelfDetector.empty_high
              (EnhancedShelfDetector.mkAnalysis 0 0 0 0 0);
            EnhancedShelfDetector.mkRecord 9.5 true 1
              EnhancedShelfDetector.empty_high
              (EnhancedShelfDetector.mkAnalysis 0 0 0 0 0)] ]}
      {[ "shelf" := 0 ]} 2 8 2 in
  ∃ self' r history,
    EnhancedShelfDetector.analyze_shelf_region enhanced_sample self
      (Some bare_region) "shelf" (Some 10) 0 = Some (self', r) ∧
    EnhancedShelfDetector.r_should_alert r = true ∧
    EnhancedShelfDetector.detection_history self' !! "shelf"
      = Some history ∧ (3 ≤ length history)%nat.
Proof.
  cbv zeta.
  match goal with
  | |- ∃ self' r history, ?run = Some (self', r) ∧ _ =>
      assert (Hrun : ∃ self' r, run = Some (self', r)
                                ∧ EnhancedShelfDetector.r_should_alert r
                                  = true)
        by (eexists _, _; split; vm_compute; reflexivity)
  end.
  destruct Hrun as (self' & r & Hrun & Hfired).
  destruct (proj2 X6_alert_needs_records _ _ _ _ _ _ _ _ Hrun Hfired)
    as (history & Hh & Hlen).
  exists self', r, history. auto.
Defined.

(** ** ImprovedYOLODetector: the trend and the newest record *)

Lemma Qnat_S (n : nat) : Qnat (S n) == Qnat n + 1.
Proof.
  unfold Qnat. rewrite Nat2Z.inj_succ, <- Z.add_1_r, inject_Z_plus.
  reflexivity.
Qed.

Lemma Qsum_const (f : Q) (xs : list Q) :
  Forall (λ x, x == f) xs → Qsum xs == Qnat (length xs) * f.
Proof.
  induction 1 as [|x xs Hx _ IH].
  - change (Qnat (length [])) with 0. change (Qsum []) with 0. lra.
  - change (Qsum (x :: xs)) with (x + Qsum xs).
    change (length (x :: xs)) with (S (length xs)).
    rewrite IH, Hx, Qnat_S. lra.
Qed.

(** The mean of equal values is that value. *)
Lemma Qmean_const (f : Q) (xs : list Q) :
  (1 ≤ length xs)%nat → Forall (λ x, x == f) xs → Qmean xs == f.
Proof.
  intros Hlen Hall. unfold Qmean. rewrite (Qsum_const f xs Hall).
  assert (Hpos : 0 < Qnat (length xs)).
  { destruct xs as [|x xs]; [simpl in Hlen; lia|].
    simpl length. rewrite Qnat_S.
    pose proof (Qnat_nonneg (length xs)). lra. }
  field. lra.
Qed.

Lemma lastn_3_of_5 {A} (xs : list A) :
  (5 ≤ length xs)%nat → lastn 3 xs = drop 2 (lastn 5 xs).
Proof.
  intros Hlen. unfold lastn. rewrite drop_drop. f_equal. lia.
Qed.

Lemma improved_trend_unknown
    (history : list ImprovedYOLODetector.DetectionRecord) :
  ImprovedYOLODetector.trend
    (ImprovedYOLODetector.stability_of_history history) = UNKNOWN
  ↔ (length history < 5)%nat.
Proof.
  unfold ImprovedYOLODetector.stability_of_history. cbv zeta.
  destruct (Nat.ltb_spec (length history) 3) as [H3|H3].
  - simpl. split; [lia|reflexivity].
  - cbn [ImprovedYOLODetector.trend].
    destruct (Nat.leb_spec 5 (length history)) as [H5|H5].
    + split; [|lia].
      destruct (Qltb _ _); [discriminate|].
      destruct (Qltb _ _); discriminate.
    + split; [lia|reflexivity].
Qed.

Lemma improved_trend_steady (f : Q)
    (history : list ImprovedYOLODetector.DetectionRecord) :
  (5 ≤ length history)%nat →
  Forall (λ rec, ImprovedYOLODetector.h_fullness_score rec == f)
    (lastn 5 history) →
  ImprovedYOLODetector.trend
    (ImprovedYOLODetector.stability_of_history history) = STABLE.
Proof.
  intros Hlen Hall.
  unfold ImprovedYOLODetector.stability_of_history. cbv zeta.
  destruct (Nat.ltb_spec (length history) 3) as [H3|H3]; [lia|].
  cbn [ImprovedYOLODetector.trend].
  destruct (Nat.leb_spec 5 (length history)) as [H5|H5]; [|lia].
  assert (Hold :
    Qmean (ImprovedYOLODetector.h_fullness_score
             <$> take 3 (lastn 5 history)) == f).
  { apply Qmean_const.
    - rewrite length_fmap, length_take, length_lastn. lia.
    - apply Forall_fmap, Forall_take. exact Hall. }
  assert (Hnew :
    Qmean (ImprovedYOLODetector.h_fullness_score <$> lastn 3 history)
      == f).
  { apply Qmean_const.
    - rewrite length_fmap, length_lastn. lia.
    - rewrite lastn_3_of_5 by exact Hlen.
      apply Forall_fmap, Forall_drop. exact Hall. }
  set (old_avg := Qmean (_ <$> take 3 _)) in *.
  set (new_avg := Qmean (_ <$> lastn 3 _)) in *.
  assert (E1 : Qltb (old_avg + 0.1) new_avg = false)
    by (apply Qltb_ge; lra).
  assert (E2 : Qltb new_avg (old_avg - 0.1) = false)
    by (apply Qltb_ge; lra).
  rewrite E1, E2. reflexivity.
Qed.

(** X7: the trend reported by [ImprovedYOLODetector] is UNKNOWN exactly
    while the section retains fewer than five records (not three: between
    three and four records the stability is computed but the trend is
    not). *)
Theorem X7_improved_trend_unknown
    perform self img shelf_name timestamp now self' r
    (Hrej : rejected 50 (Some img) = false)
    (Hrun : ImprovedYOLODetector.analyze_shelf_region perform self
              (Some img) shelf_name timestamp now = Some (self', r)) :
  ∃ history,
    ImprovedYOLODetector.detection_history self' !! shelf_name
      = Some history ∧
    (ImprovedYOLODetector.r_trend r = UNKNOWN
     ↔ (length history < 5)%nat).
Proof.
  destruct (improved_accepted_full _ _ _ _ _ _ _ _ Hrej Hrun)
    as (self2 & _ & _ & _ & Hh & _ & Hr).
  cbv zeta in *. eexists. split; [exact Hh|].
  rewrite Hr. cbn [ImprovedYOLODetector.r_trend].
  apply improved_trend_unknown.
Qed.

(** X7 on the first look at a bare shelf. *)
Lemma X7_improved_trend_unknown_witness :
  rejected 50 (Some bare_region) = false ∧
  ∃ self' r history,
    ImprovedYOLODetector.analyze_shelf_region improved_sample
      (ImprovedYOLODetector.__init__ 0.7) (Some bare_region) "shelf"
      (Some 10) 0 = Some (self', r) ∧
    ImprovedYOLODetector.detection_history self' !! "shelf"
      = Some history ∧
    (ImprovedYOLODetector.r_trend r = UNKNOWN
     ↔ (length history < 5)%nat).
Proof.
  split; [reflexivity|].
  assert (Hrun :
    ∃ self' r,
      ImprovedYOLODetector.analyze_shelf_region improved_sample
        (ImprovedYOLODetector.__init__ 0.7) (Some bare_region) "shelf"
        (Some 10) 0 = Some (self', r))
    by (eexists _, _; vm_compute; reflexivity).
  destruct Hrun as (self' & r & Hrun).
  destruct (X7_improved_trend_unknown improved_sample _ bare_region _ _ _
              _ _ eq_refl Hrun) as (history & Hh & Htrend).
  exists self', r, history. auto.
Defined.

(** X8: when the five most recent records of the section, the new one
    included, carry the same fullness score, the reported trend is
    STABLE. *)
Theorem X8_improved_trend_steady
    perform self img shelf_name timestamp now self' r history (f : Q)
    (Hrej : rejected 50 (Some img) = false)
    (Hrun : ImprovedYOLODetector.analyze_shelf_region perform self
              (Some img) shelf_name timestamp now = Some (self', r))
    (Hhistory : ImprovedYOLODetector.detection_history self' !! shelf_name
                = Some history)
    (Hlen : (5 ≤ length history)%nat)
    (Hsteady : Forall (λ rec, ImprovedYOLODetector.h_fullness_score rec
                                == f) (lastn 5 history)) :
  ImprovedYOLODetector.r_trend r = STABLE.
Proof.
  destruct (improved_accepted_full _ _ _ _ _ _ _ _ Hrej Hrun)
    as (self2 & _ & _ & _ & Hh & _ & Hr).
  cbv zeta in *. rewrite Hhistory in Hh. inversion Hh as [Eh].
  rewrite Hr. cbn [ImprovedYOLODetector.r_trend]. rewrite <- Eh.
  exact (improved_trend_steady f history Hlen Hsteady).
Qed.

(** X8 on the fifth look at a bare shelf. *)
Lemma X8_improved_trend_steady_witness :
  let past k :=
    ImprovedYOLODetector.mkRecord (Qnat k) true 1 0 CRITICALLY_EMPTY
      CRITICAL improved_bare k in
  let self :=
    ImprovedYOLODetector.mkDetector 0.7
      {[ "shelf" := [past 1; past 2; past 3; past 4]%nat ]}
      {[ "shelf" := 2 ]} 4
      (ImprovedYOLODetector.detection_params
         (ImprovedYOLODetector.__init__ 0.7)) 10 1.5 in
  rejected 50 (Some bare_region) = false ∧
  ∃ self' r,
    ImprovedYOLODetector.analyze_shelf_region improved_sample self
      (Some bare_region) "shelf" (Some 5) 0 = Some (self', r) ∧
    ImprovedYOLODetector.r_trend r = STABLE.
Proof.
  cbv zeta. split; [reflexivity|].
  eexists _, _.
  match goal with
  | |- ?run = _ ∧ _ =>
      assert (Hrun : run = Some _) by (vm_compute; reflexivity)
  end.
  split; [exact Hrun|].
  eapply (X8_improved_trend_steady improved_sample _ bare_region "shelf"
            (Some 5) 0 _ _ _ 0 eq_refl Hrun).
  - vm_compute. reflexivity.
  - vm_compute. lia.
  - repeat constructor.
Defined.

(** X9: on a detector that retains at least one record per section, the
    newest record of the analysed section mirrors the returned result:
    same verdict, confidence, fullness score, visual state, alert level,
    timestamp and frame number. *)
Theorem X9_improved_newest_record
    perform self img shelf_name timestamp now self' r
    (Hrej : rejected 50 (Some img) = false)
    (Hcap : (1 ≤ ImprovedYOLODetector.history_length self)%nat)
    (Hrun : ImprovedYOLODetector.analyze_shelf_region perform self
              (Some img) shelf_name timestamp now = Some (self', r)) :
  ∃ history rec,
    ImprovedYOLODetector.detection_history self' !! shelf_name
      = Some history ∧
    last history = Some rec ∧
    ImprovedYOLODetector.h_is_empty rec
      = ImprovedYOLODetector.r_is_empty r ∧
    ImprovedYOLODetector.h_empty_confidence rec
      = ImprovedYOLODetector.r_confidence r ∧
    ImprovedYOLODetector.h_fullness_score rec
      = ImprovedYOLODetector.r_fullness_score r ∧
    ImprovedYOLODetector.h_visual_state rec
      = ImprovedYOLODetector.r_visual_state r ∧
    ImprovedYOLODetector.h_alert_level rec
      = ImprovedYOLODetector.r_alert_level r ∧
    ImprovedYOLODetector.h_timestamp rec
      = ImprovedYOLODetector.r_timestamp r ∧
    ImprovedYOLODetector.h_frame_number rec
      = ImprovedYOLODetector.r_frame_count r ∧
    ImprovedYOLODetector.r_frame_count r
      = ImprovedYOLODetector.frame_count self'.
Proof.
  destruct (improved_accepted_full _ _ _ _ _ _ _ _ Hrej Hrun)
    as (self2 & _ & _ & _ & Hh & Hfc & Hr).
  cbv zeta in *. eexists _, _. split; [exact Hh|].
  split; [apply trim_snoc_nonempty; exact Hcap|].
  rewrite Hr, Hfc. simpl. repeat split; reflexivity.
Qed.

(** X9 on the first look at a bare shelf. *)
Lemma X9_improved_newest_record_witness :
  rejected 50 (Some bare_region) = false ∧
  (1 ≤ ImprovedYOLODetector.history_length
         (ImprovedYOLODetector.__init__ 0.7))%nat ∧
  ∃ self' r history rec,
    ImprovedYOLODetector.analyze_shelf_region improved_sample
      (ImprovedYOLODetector.__init__ 0.7) (Some bare_region) "shelf"
      (Some 10) 0 = Some (self', r) ∧
    ImprovedYOLODetector.detection_history self' !! "shelf"
      = Some history ∧
    last history = Some rec ∧
    ImprovedYOLODetector.h_empty_confidence rec
      = ImprovedYOLODetector.r_confidence r.
Proof.
  split; [reflexivity|].
  assert (Hcap : (1 ≤ ImprovedYOLODetector.history_length
                        (ImprovedYOLODetector.__init__ 0.7))%nat)
    by (vm_compute; lia).
  split; [exact Hcap|].
  assert (Hrun :
    ∃ self' r,
      ImprovedYOLODetector.analyze_shelf_region improved_sample
        (ImprovedYOLODetector.__init__ 0.7) (Some bare_region) "shelf"
        (Some 10) 0 = Some (self', r))
    by (eexists _, _; vm_compute; reflexivity).
  destruct Hrun as (self' & r & Hrun).
  destruct (X9_improved_newest_record improved_sample _ bare_region _ _ _
              _ _ eq_refl Hcap Hrun)
    as (history & rec & Hh & Hlast & _ & Hconf & _).
  exists self', r, history, rec. auto.
Defined.

(** ** Over whole runs: isolation, counting, the history as a queue and
    the cooldown table *)

Lemma lastn_all {A} (n : nat) (xs : list A) :
  (length xs ≤ n)%nat → lastn n xs = xs.
Proof.
  intros H. unfold lastn.
  replace (length xs - n)%nat with 0%nat by lia. apply drop_0.
Qed.

Lemma trim_lastn {A} (capacity : nat) (xs : list A) :
  (length xs ≤ capacity + 1)%nat → trim capacity xs = lastn capacity xs.
Proof.
  intros H. unfold trim, lastn.
  destruct (Nat.ltb_spec capacity (length xs)) as [Hlt|Hge].
  - f_equal. lia.
  - replace (length xs - capacity)%nat with 0%nat by lia.
    symmetry. apply drop_0.
Qed.

Lemma trim_fmap {A B} (f : A → B) (capacity : nat) (xs : list A) :
  f <$> trim capacity xs = trim capacity (f <$> xs).
Proof.
  unfold trim. rewrite length_fmap.
  destruct (capacity <? length xs)%nat; [apply fmap_drop|reflexivity].
Qed.

(** Cutting to the last [n] elements early does not change the last [n]
    elements of a longer list. *)
Lemma lastn_app_lastn {A} (n : nat) (xs ys : list A) :
  lastn n (lastn n xs ++ ys) = lastn n (xs ++ ys).
Proof.
  destruct (Nat.le_gt_cases (length xs) n) as [Hle|Hgt].
  - rewrite (lastn_all n xs) by exact Hle. reflexivity.
  - unfold lastn. rewrite !length_app, length_drop.
    set (k := (length xs - n)%nat).
    replace (xs ++ ys) with (take k xs ++ (drop k xs ++ ys))
      by (rewrite app_assoc, take_drop; reflexivity).
    replace (length xs + length ys - n)%nat with (k + length ys)%nat
      by (subst k; lia).
    rewrite drop_app_add' by (rewrite length_take; subst k; lia).
    f_equal. subst k. lia.
Qed.

Lemma accepted_step_other {D Rec} (V : View D Rec) self self' n t fired rec
    (m : string) :
  accepted_step V self self' n t fired rec →
  m ≠ n →
  v_history V self' !! m = v_history V self !! m ∧
  v_cooldown V self' !! m = v_cooldown V self !! m.
Proof.
  intros (_ & _ & Hhist & Hcool) Hne.
  rewrite Hhist. rewrite lookup_insert_ne by done. split; [reflexivity|].
  unfold cooldown_after_init in Hcool.
  assert (Htable :
    match v_history V self !! n with
    | Some _ => v_cooldown V self
    | None => <[n := 0]> (v_cooldown V self)
    end !! m = v_cooldown V self !! m).
  { destruct (v_history V self !! n);
      [|rewrite lookup_insert_ne by done]; reflexivity. }
  destruct fired.
  - destruct Hcool as [-> _]. rewrite lookup_insert_ne by done.
    exact Htable.
  - rewrite Hcool. exact Htable.
Qed.

(** X10: sections are independent.  In each detector, analysing one
    section leaves the history and the cooldown entry of every other
    section as they were. *)
Theorem X10_sections_are_isolated (shelf_name other : string)
    (Hother : other ≠ shelf_name) :
  (∀ perform self roi timestamp now self' r,
     ImprovedYOLODetector.analyze_shelf_region perform self roi shelf_name
       timestamp now = Some (self', r) →
     ImprovedYOLODetector.detection_history self' !! other
       = ImprovedYOLODetector.detection_history self !! other ∧
     ImprovedYOLODetector.alert_cooldown self' !! other
       = ImprovedYOLODetector.alert_cooldown self !! other) ∧
  (∀ lib self roi timestamp now self' r,
     YOLOv8mShelfDetector.analyze_shelf_region lib self roi shelf_name
       timestamp now = Some (self', r) →
     YOLOv8mShelfDetector.detection_history self' !! other
       = YOLOv8mShelfDetector.detection_history self !! other ∧
     YOLOv8mShelfDetector.alert_cooldown self' !! other
       = YOLOv8mShelfDetector.alert_cooldown self !! other) ∧
  (∀ perform self roi timestamp now self' r,
     EnhancedShelfDetector.analyze_shelf_region perform self roi shelf_name
       timestamp now = Some (self', r) →
     EnhancedShelfDetector.detection_history self' !! other
       = EnhancedShelfDetector.detection_history self !! other ∧
     EnhancedShelfDetector.alert_cooldown self' !! other
       = EnhancedShelfDetector.alert_cooldown self !! other).
Proof.
  split; [|split].
  - intros perform self roi ts now self' r Hrun.
    apply improved_analyze_spec in Hrun as [[-> _] | [rec Hacc]]; [done|].
    exact (accepted_step_other improved_view _ _ _ _ _ _ other Hacc Hother).
  - intros lib self roi ts now self' r Hrun.
    apply yolo8m_analyze_spec in Hrun as [[-> _] | [rec Hacc]]; [done|].
    exact (accepted_step_other yolo8m_view _ _ _ _ _ _ other Hacc Hother).
  - intros perform self roi ts now self' r Hrun.
    apply enhanced_analyze_spec in Hrun as [[-> _] | [rec Hacc]]; [done|].
    exact (accepted_step_other enhanced_view _ _ _ _ _ _ other Hacc Hother).
Qed.

(** X10 on a detector that knows the section "dairy" and analyses
    "bread". *)
Lemma X10_sections_are_isolated_witness :
  let self :=
    ImprovedYOLODetector.mkDetector 0.7
      {[ "dairy" := [ImprovedYOLODetector.mkRecord 9 true 1 0
                       CRITICALLY_EMPTY CRITICAL improved_bare 1] ]}
      {[ "dairy" := 0 ]} 1
      (ImprovedYOLODetector.detection_params
         (ImprovedYOLODetector.__init__ 0.7)) 10 1.5 in
  "dairy" ≠ "bread" ∧
  ∃ self' r,
    ImprovedYOLODetector.analyze_shelf_region improved_sample self
      (Some bare_region) "bread" (Some 10) 0 = Some (self', r) ∧
    ImprovedYOLODetector.detection_history self' !! "dairy"
      = ImprovedYOLODetector.detection_history self !! "dairy" ∧
    ImprovedYOLODetector.alert_cooldown self' !! "dairy"
      = ImprovedYOLODetector.alert_cooldown self !! "dairy".
Proof.
  cbv zeta.
  assert (Hother : "dairy" ≠ "bread") by discriminate.
  split; [exact Hother|].
  eexists _, _.
  match goal with
  | |- ?run = _ ∧ _ =>
      assert (Hrun : run = Some _) by (vm_compute; reflexivity)
  end.
  split; [exact Hrun|].
  exact (proj1 (X10_sections_are_isolated "bread" "dairy" Hother)
           _ _ _ _ _ _ _ Hrun).
Defined.

Section Runs.

Context {D Rec R : Type}.
Variable V : View D Rec.
Variable stamp : Rec → Q.
Variable count : D → nat.
Variable minimum : nat.
Variable analyze :
  D → option Image → string → option Q → Q → option (D * R).
Variable update : D → Q → D.
Variable should_alert : R → bool.

Hypothesis analyze_spec : ∀ self roi shelf_name timestamp now self' result,
  analyze self roi shelf_name timestamp now = Some (self', result) →
  (self' = self ∧ should_alert result = false) ∨
  (∃ record,
     accepted_step V self self' shelf_name (default now timestamp)
       (should_alert result) record).

Hypothesis analyze_rejected :
  ∀ self roi shelf_name timestamp now self' result,
    analyze self roi shelf_name timestamp now = Some (self', result) →
    rejected minimum roi = true → self' = self.

Hypothesis analyze_accepted :
  ∀ self roi shelf_name timestamp now self' result,
    analyze self roi shelf_name timestamp now = Some (self', result) →
    rejected minimum roi = false →
    count self' = (count self + 1)%nat ∧
    ∃ record,
      stamp record = default now timestamp ∧
      v_history V self' !! shelf_name
        = Some (trim (v_capacity V self)
                  (default [] (v_history V self !! shelf_name)
                     ++ [record])).

Hypothesis update_spec : ∀ self v,
  v_history V (update self v) = v_history V self ∧
  v_cooldown V (update self v) = v_cooldown V self ∧
  v_capacity V (update self v) = v_capacity V self ∧
  v_cooldown_time V (update self v) = v_cooldown_time V self.

Hypothesis update_count : ∀ self v, count (update self v) = count self.

Lemma run_count calls : ∀ self self' log,
  run analyze update self calls = Some (self', log) →
  count self'
    = (count self + length (filter (λ call, is_accepted minimum call = true)
                              calls))%nat.
Proof.
  induction calls as [|call rest IH]; simpl; intros self self' log Hrun.
  - inversion Hrun; subst. simpl. lia.
  - destruct (step analyze update self call) as [[self1 out]|] eqn:Hstep;
      simpl in Hrun; [|discriminate].
    destruct (run analyze update self1 rest) as [[self2 log2]|] eqn:Hrest;
      simpl in Hrun; inversion Hrun; subst; clear Hrun.
    rewrite (IH _ _ _ Hrest). rewrite filter_cons.
    destruct call as [roi n ts now | v]; simpl in Hstep.
    + destruct (analyze self roi n ts now) as [[s r]|] eqn:E;
        simpl in Hstep; inversion Hstep; subst; clear Hstep.
      destruct (rejected minimum roi) eqn:Hrej.
      * rewrite (analyze_rejected _ _ _ _ _ _ _ E Hrej).
        rewrite decide_False by (simpl; rewrite Hrej; done). reflexivity.
      * destruct (analyze_accepted _ _ _ _ _ _ _ E Hrej) as [-> _].
        rewrite decide_True by (simpl; rewrite Hrej; done). simpl. lia.
    + inversion Hstep; subst; clear Hstep. rewrite update_count.
      rewrite decide_False by done. reflexivity.
Qed.

Lemma run_history_stamps calls : ∀ self self' log (shelf_name : string),
  bounded V self →
  run analyze update self calls = Some (self', log) →
  stamp <$> default [] (v_history V self' !! shelf_name)
    = lastn (v_capacity V self)
        ((stamp <$> default [] (v_history V self !! shelf_name))
           ++ omap (accepted_at minimum shelf_name) calls).
Proof.
  induction calls as [|call rest IH]; simpl;
    intros self self' log shelf Hb Hrun.
  - inversion Hrun; subst. rewrite app_nil_r.
    symmetry. apply lastn_all. rewrite length_fmap.
    destruct (v_history V self' !! shelf) as [h|] eqn:Hh; simpl.
    + exact (Hb _ _ Hh).
    + lia.
  - destruct (step analyze update self call) as [[self1 out]|] eqn:Hstep;
      simpl in Hrun; [|discriminate].
    destruct (run analyze update self1 rest) as [[self2 log2]|] eqn:Hrest;
      simpl in Hrun; inversion Hrun; subst; clear Hrun.
    pose proof (step_invariants V analyze update should_alert analyze_spec
                  update_spec _ _ _ _ Hstep) as (Hb1 & _ & _).
    rewrite (IH _ _ _ shelf (Hb1 Hb) Hrest).
    destruct call as [roi n ts now | v]; simpl in Hstep.
    + destruct (analyze self roi n ts now) as [[s r]|] eqn:E;
        simpl in Hstep; inversion Hstep; subst; clear Hstep.
      unfold accepted_at at 2.
      destruct (rejected minimum roi) eqn:Hrej; simpl.
      * rewrite (analyze_rejected _ _ _ _ _ _ _ E Hrej). reflexivity.
      * destruct (analyze_accepted _ _ _ _ _ _ _ E Hrej)
          as (_ & rec & Hstamp & Hnew).
        assert (Hrest' :
          v_capacity V self1 = v_capacity V self ∧
          (shelf ≠ n →
           v_history V self1 !! shelf = v_history V self !! shelf)).
        { pose proof (analyze_spec _ _ _ _ _ _ _ E)
            as [[-> _] | [rec' Hacc]]; [done|].
          split; [apply Hacc|]. intros Hne.
          exact (proj1 (accepted_step_other V _ _ _ _ _ _ shelf Hacc Hne)). }
        destruct Hrest' as [Hcap Hothers]. rewrite Hcap.
        destruct (decide (n = shelf)) as [->|Hne].
        -- rewrite bool_decide_eq_true_2 by reflexivity. simpl.
           rewrite Hnew. simpl. rewrite trim_fmap, fmap_app. simpl.
           rewrite Hstamp.
           rewrite trim_lastn.
           ++ rewrite lastn_app_lastn, <- app_assoc. reflexivity.
           ++ rewrite length_app, length_fmap. simpl.
              destruct (v_history V self !! shelf) as [h|] eqn:Hh; simpl.
              ** pose proof (Hb _ _ Hh). lia.
              ** lia.
        -- rewrite bool_decide_eq_false_2 by exact Hne. simpl.
           rewrite Hothers by congruence. reflexivity.
    + inversion Hstep; subst; clear Hstep. simpl.
      destruct (update_spec self v) as (-> & _ & -> & _). reflexivity.
Qed.

(** While a known section does not alert, its cooldown entry stays. *)
Lemma run_quiet calls : ∀ self self' log (shelf_name : string),
  run analyze update self calls = Some (self', log) →
  alert_times shelf_name (alerts should_alert log) = [] →
  is_Some (v_history V self !! shelf_name) →
  v_cooldown V self' !! shelf_name = v_cooldown V self !! shelf_name.
Proof.
  induction calls as [|call rest IH]; simpl;
    intros self self' log shelf Hrun Hquiet Hknown.
  - inversion Hrun; subst. reflexivity.
  - destruct (step analyze update self call) as [[self1 out]|] eqn:Hstep;
      simpl in Hrun; [|discriminate].
    destruct (run analyze update self1 rest) as [[self2 log2]|] eqn:Hrest;
      simpl in Hrun; inversion Hrun; subst; clear Hrun.
    unfold alerts in Hquiet. cbn [omap list_omap] in Hquiet.
    fold (alerts should_alert log2) in Hquiet.
    destruct call as [roi n ts now | v]; simpl in Hstep.
    + destruct (analyze self roi n ts now) as [[s r]|] eqn:E;
        simpl in Hstep; inversion Hstep; subst; clear Hstep.
      cbn [alert_of] in Hquiet.
      apply analyze_spec in E as [[-> Hq] | [rec Hacc]].
      * rewrite Hq in Hquiet. eauto.
      * destruct (decide (shelf = n)) as [->|Hne].
        -- destruct (should_alert r) eqn:Hfire.
           { unfold alert_times in Hquiet. cbn [omap list_omap] in Hquiet.
             simpl in Hquiet.
             rewrite bool_decide_eq_true_2 in Hquiet by reflexivity.
             discriminate. }
           destruct Hacc as (_ & _ & Hhist & Hcool). simpl in Hcool.
           rewrite (IH self1 _ _ n Hrest Hquiet)
             by (rewrite Hhist, lookup_insert_eq; eauto).
           rewrite Hcool. unfold cooldown_after_init.
           destruct Hknown as [h ->]. reflexivity.
        -- destruct (accepted_step_other V _ _ _ _ _ _ shelf Hacc Hne)
             as [Hh Hc].
           assert (Hq : alert_times shelf (alerts should_alert log2) = []).
           { destruct (should_alert r); [|exact Hquiet].
             unfold alert_times in Hquiet. cbn [omap list_omap] in Hquiet.
             simpl in Hquiet.
             rewrite bool_decide_eq_false_2 in Hquiet by congruence.
             exact Hquiet. }
           rewrite (IH self1 _ _ shelf Hrest Hq) by (rewrite Hh; exact Hknown).
           exact Hc.
    + inversion Hstep; subst; clear Hstep. cbn [alert_of] in Hquiet.
      destruct (update_spec self v) as (Hh & Hc & _ & _).
      rewrite (IH _ _ _ shelf Hrest Hquiet) by (rewrite Hh; exact Hknown).
      rewrite Hc. reflexivity.
Qed.

Lemma run_last_alert calls : ∀ self self' log (shelf_name : string) (t : Q),
  run analyze update self calls = Some (self', log) →
  last (alert_times shelf_name (alerts should_alert log)) = Some t →
  v_cooldown V self' !! shelf_name = Some t.
Proof.
  induction calls as [|call rest IH]; simpl;
    intros self self' log shelf t Hrun Hlast.
  - inversion Hrun; subst. discriminate.
  - destruct (step analyze update self call) as [[self1 out]|] eqn:Hstep;
      simpl in Hrun; [|discriminate].
    destruct (run analyze update self1 rest) as [[self2 log2]|] eqn:Hrest;
      simpl in Hrun; inversion Hrun; subst; clear Hrun.
    unfold alerts in Hlast. cbn [omap list_omap] in Hlast.
    fold (alerts should_alert log2) in Hlast.
    destruct (alert_of should_alert (call, out)) as [[n t0]|] eqn:Ehead;
      [|eauto].
    unfold alert_times in Hlast. cbn [omap list_omap] in Hlast.
    fold (alert_times shelf (alerts should_alert log2)) in Hlast.
    simpl in Hlast.
    destruct (bool_decide (n = shelf)) eqn:Ename; [|eauto].
    apply bool_decide_eq_true_1 in Ename. subst n.
    destruct (alert_times shelf (alerts should_alert log2))
      as [|t1 later] eqn:Elater.
    + simpl in Hlast. inversion Hlast; subst t0; clear Hlast.
      destruct call as [roi n ts now | v]; simpl in Hstep; [|discriminate].
      destruct (analyze self roi n ts now) as [[s r]|] eqn:E;
        simpl in Hstep; inversion Hstep; subst; clear Hstep.
      cbn [alert_of] in Ehead.
      destruct (should_alert r) eqn:Hfire; [|discriminate].
      inversion Ehead; subst; clear Ehead.
      apply analyze_spec in E as [[_ Hq] | [rec Hacc]]; [congruence|].
      rewrite Hfire in Hacc.
      destruct Hacc as (_ & _ & Hhist & Hcool & _).
      rewrite (run_quiet rest self1 _ _ shelf Hrest Elater)
        by (rewrite Hhist, lookup_insert_eq; eauto).
      rewrite Hcool. apply lookup_insert_eq.
    + apply (IH self1 _ _ shelf t Hrest). rewrite Elater.
      rewrite <- Hlast. reflexivity.
Qed.

End Runs.

Lemma improved_after perform self roi n ts now self' r :
  ImprovedYOLODetector.analyze_shelf_region perform self roi n ts now
    = Some (self', r) →
  rejected 50 roi = false →
  ImprovedYOLODetector.frame_count self'
    = (ImprovedYOLODetector.frame_count self + 1)%nat ∧
  ∃ rec,
    ImprovedYOLODetector.h_timestamp rec = default now ts ∧
    v_history improved_view self' !! n
      = Some (trim (v_capacity improved_view self)
                (default [] (v_history improved_view self !! n) ++ [rec])).
Proof.
  intros Hrun Hrej. destruct roi as [img|]; [|discriminate].
  destruct (improved_accepted_full _ _ _ _ _ _ _ _ Hrej Hrun)
    as (self2 & _ & _ & _ & Hh & Hfc & _).
  cbv zeta in *. split; [exact Hfc|].
  eexists. split; [|exact Hh]. reflexivity.
Qed.

Lemma enhanced_after perform self roi n ts now self' r :
  EnhancedShelfDetector.analyze_shelf_region perform self roi n ts now
    = Some (self', r) →
  rejected 30 roi = false →
  EnhancedShelfDetector.frame_count self'
    = (EnhancedShelfDetector.frame_count self + 1)%nat ∧
  ∃ rec,
    EnhancedShelfDetector.h_timestamp rec = default now ts ∧
    v_history enhanced_view self' !! n
      = Some (trim (v_capacity enhanced_view self)
                (default [] (v_history enhanced_view self !! n) ++ [rec])).
Proof.
  intros Hrun Hrej. destruct roi as [img|]; [|discriminate].
  split; [|exact (enhanced_history_after _ _ _ _ _ _ _ _ Hrej Hrun)].
  destruct (enhanced_accepted _ _ _ _ _ _ _ _ Hrej Hrun)
    as (rec & self2 & _ & _ & Hrec & Halert & _).
  set (self0 := EnhancedShelfDetector.set_frame_count _ self) in *.
  destruct (enhanced_initialize_history_attrs self0 n) as (_ & _ & _ & Hfc).
  apply enhanced_record_detection_spec in Hrec as (h & _ & ->).
  apply enhanced_should_alert_spec in Halert
    as [[_ ->] | (_ & _ & last & _ & _ & ->)]; simpl; rewrite Hfc;
    reflexivity.
Qed.

Lemma yolo8m_after lib self roi n ts now self' r :
  YOLOv8mShelfDetector.analyze_shelf_region lib self roi n ts now
    = Some (self', r) →
  rejected 50 roi = false →
  YOLOv8mShelfDetector.frame_count self'
    = (YOLOv8mShelfDetector.frame_count self + 1)%nat ∧
  ∃ rec,
    YOLOv8mShelfDetector.h_timestamp rec = default now ts ∧
    v_history yolo8m_view self' !! n
      = Some (trim (v_capacity yolo8m_view self)
                (default [] (v_history yolo8m_view self !! n) ++ [rec])).
Proof.
  intros Hrun Hrej. destruct roi as [img|]; [|discriminate].
  destruct (yolo8m_accepted _ _ _ _ _ _ _ _ Hrej Hrun)
    as (rec & self2 & Hts & _ & Hrec & Halert & _).
  set (self0 := YOLOv8mShelfDetector.set_frame_count _ self) in *.
  destruct (yolo8m_initialize_history_attrs self0 n)
    as (_ & _ & Hcap & _).
  destruct (yolo8m_initialize_history_tables self0 n) as (Hlook & _).
  assert (Hfc : YOLOv8mShelfDetector.frame_count
                  (YOLOv8mShelfDetector.initialize_history self0 n)
                = (YOLOv8mShelfDetector.frame_count self + 1)%nat).
  { unfold YOLOv8mShelfDetector.initialize_history.
    destruct (YOLOv8mShelfDetector.detection_history self0 !! n);
      reflexivity. }
  apply yolo8m_record_detection_spec in Hrec as (h & Hh & ->).
  rewrite Hlook in Hh. inversion Hh; subst h; clear Hh.
  apply yolo8m_should_trigger_alert_spec in Halert
    as [[_ ->] | (_ & _ & _ & ->)];
    (split; [simpl; exact Hfc|]);
    exists rec; (split; [exact Hts|]);
    simpl; rewrite lookup_insert_eq, Hcap; reflexivity.
Qed.

Lemma improved_rejected_same perform self roi n ts now self' r :
  ImprovedYOLODetector.analyze_shelf_region perform self roi n ts now
    = Some (self', r) →
  rejected 50 roi = true → self' = self.
Proof.
  intros Hrun Hrej.
  destruct (improved_rejected perform self roi n ts now Hrej) as [msg Hmsg].
  rewrite Hmsg in Hrun. inversion Hrun. reflexivity.
Qed.

Lemma enhanced_rejected_same perform self roi n ts now self' r :
  EnhancedShelfDetector.analyze_shelf_region perform self roi n ts now
    = Some (self', r) →
  rejected 30 roi = true → self' = self.
Proof.
  intros Hrun Hrej.
  destruct (enhanced_rejected perform self roi n ts now Hrej) as [msg Hmsg].
  rewrite Hmsg in Hrun. inversion Hrun. reflexivity.
Qed.

Lemma yolo8m_rejected_same lib self roi n ts now self' r :
  YOLOv8mShelfDetector.analyze_shelf_region lib self roi n ts now
    = Some (self', r) →
  rejected 50 roi = true → self' = self.
Proof.
  intros Hrun Hrej.
  destruct (yolo8m_rejected lib self roi n ts now Hrej) as [msg Hmsg].
  rewrite Hmsg in Hrun. inversion Hrun. reflexivity.
Qed.

(** X11: [frame_count] counts the accepted analyses.  After any sequence
    of calls it has grown by the number of analyses whose region passed
    the size checks; rejected regions and sensitivity updates do not
    count. *)
Theorem X11_frame_count_counts_accepted (calls : list Call) :
  (∀ perform self self' log,
     run (ImprovedYOLODetector.analyze_shelf_region perform)
         ImprovedYOLODetector.update_sensitivity self calls
       = Some (self', log) →
     ImprovedYOLODetector.frame_count self'
       = (ImprovedYOLODetector.frame_count self
          + length (filter (λ call, is_accepted 50 call = true) calls))%nat) ∧
  (∀ lib self self' log,
     run (YOLOv8mShelfDetector.analyze_shelf_region lib)
         YOLOv8mShelfDetector.update_sensitivity self calls
       = Some (self', log) →
     YOLOv8mShelfDetector.frame_count self'
       = (YOLOv8mShelfDetector.frame_count self
          + length (filter (λ call, is_accepted 50 call = true) calls))%nat) ∧
  (∀ perform self self' log,
     run (EnhancedShelfDetector.analyze_shelf_region perform)
         EnhancedShelfDetector.update_sensitivity self calls
       = Some (self', log) →
     EnhancedShelfDetector.frame_count self'
       = (EnhancedShelfDetector.frame_count self
          + length (filter (λ call, is_accepted 30 call = true) calls))%nat).
Proof.
  split; [|split].
  - intros perform self self' log.
    apply (run_count improved_view ImprovedYOLODetector.h_timestamp
             ImprovedYOLODetector.frame_count 50
             (ImprovedYOLODetector.analyze_shelf_region perform) _
             (improved_rejected_same perform) (improved_after perform)).
    reflexivity.
  - intros lib self self' log.
    apply (run_count yolo8m_view YOLOv8mShelfDetector.h_timestamp
             YOLOv8mShelfDetector.frame_count 50
             (YOLOv8mShelfDetector.analyze_shelf_region lib) _
             (yolo8m_rejected_same lib) (yolo8m_after lib)).
    reflexivity.
  - intros perform self self' log.
    apply (run_count enhanced_view EnhancedShelfDetector.h_timestamp
             EnhancedShelfDetector.frame_count 30
             (EnhancedShelfDetector.analyze_shelf_region perform) _
             (enhanced_rejected_same perform) (enhanced_after perform)).
    reflexivity.
Qed.

(** X11 on three calls of which one carries a region that is too small
    and one only changes the sensitivity. *)
Lemma X11_frame_count_counts_accepted_witness :
  ∃ self' log,
    run (ImprovedYOLODetector.analyze_shelf_region improved_sample)
        ImprovedYOLODetector.update_sensitivity
        (ImprovedYOLODetector.__init__ 0.7)
        [Analyze (Some bare_region) "shelf" (Some 1) 0;
         Analyze (Some tiny_region) "shelf" (Some 2) 0;
         UpdateSensitivity 0.5]
      = Some (self', log) ∧
    ImprovedYOLODetector.frame_count self' = 1%nat.
Proof.
  eexists _, _.
  match goal with
  | |- ?r = _ ∧ _ => assert (Hrun : r = Some _) by (vm_compute; reflexivity)
  end.
  split; [exact Hrun|].
  exact (proj1 (X11_frame_count_counts_accepted _) _ _ _ _ Hrun).
Defined.

(** X12: the history is a queue of the accepted analyses.  Starting from
    an instance whose histories are within the capacity, after any
    sequence of calls the timestamps retained for a section are the last
    [history_length] of: the timestamps retained before, followed by the
    timestamps of the accepted analyses of that section, in call order. *)
Theorem X12_history_is_a_queue (calls : list Call) (shelf_name : string) :
  (∀ perform self self' log,
     bounded improved_view self →
     run (ImprovedYOLODetector.analyze_shelf_region perform)
         ImprovedYOLODetector.update_sensitivity self calls
       = Some (self', log) →
     ImprovedYOLODetector.h_timestamp
       <$> default [] (ImprovedYOLODetector.detection_history self'
                         !! shelf_name)
     = lastn (ImprovedYOLODetector.history_length self)
         ((ImprovedYOLODetector.h_timestamp
             <$> default [] (ImprovedYOLODetector.detection_history self
                               !! shelf_name))
            ++ omap (accepted_at 50 shelf_name) calls)) ∧
  (∀ lib self self' log,
     bounded yolo8m_view self →
     run (YOLOv8mShelfDetector.analyze_shelf_region lib)
         YOLOv8mShelfDetector.update_sensitivity self calls
       = Some (self', log) →
     YOLOv8mShelfDetector.h_timestamp
       <$> default [] (YOLOv8mShelfDetector.detection_history self'
                         !! shelf_name)
     = lastn (YOLOv8mShelfDetector.history_length self)
         ((YOLOv8mShelfDetector.h_timestamp
             <$> default [] (YOLOv8mShelfDetector.detection_history self
                               !! shelf_name))
            ++ omap (accepted_at 50 shelf_name) calls)) ∧
  (∀ perform self self' log,
     bounded enhanced_view self →
     run (EnhancedShelfDetector.analyze_shelf_region perform)
         EnhancedShelfDetector.update_sensitivity self calls
       = Some (self', log) →
     EnhancedShelfDetector.h_timestamp
       <$> default [] (EnhancedShelfDetector.detection_history self'
                         !! shelf_name)
     = lastn (EnhancedShelfDetector.history_length self)
         ((EnhancedShelfDetector.h_timestamp
             <$> default [] (EnhancedShelfDetector.detection_history self
                               !! shelf_name))
            ++ omap (accepted_at 30 shelf_name) calls)).
Proof.
  split; [|split].
  - intros perform self self' log Hb Hrun.
    exact (run_history_stamps improved_view ImprovedYOLODetector.h_timestamp
             ImprovedYOLODetector.frame_count 50 _ _
             ImprovedYOLODetector.r_should_alert
             (improved_analyze_spec perform)
             (improved_rejected_same perform) (improved_after perform)
             improved_update_spec calls self self' log shelf_name Hb Hrun).
  - intros lib self self' log Hb Hrun.
    exact (run_history_stamps yolo8m_view YOLOv8mShelfDetector.h_timestamp
             YOLOv8mShelfDetector.frame_count 50 _ _
             YOLOv8mShelfDetector.r_should_alert
             (yolo8m_analyze_spec lib)
             (yolo8m_rejected_same lib) (yolo8m_after lib)
             yolo8m_update_spec calls self self' log shelf_name Hb Hrun).
  - intros perform self self' log Hb Hrun.
    exact (run_history_stamps enhanced_view EnhancedShelfDetector.h_timestamp
             EnhancedShelfDetector.frame_count 30 _ _
             EnhancedShelfDetector.r_should_alert
             (enhanced_analyze_spec perform)
             (enhanced_rejected_same perform) (enhanced_after perform)
             enhanced_update_spec calls self self' log shelf_name Hb Hrun).
Qed.

(** X12 on eleven looks at one section by an [EnhancedShelfDetector]
    (capacity eight), with a look at another section in between: the
    retained timestamps are those of the last eight looks. *)
Lemma X12_history_is_a_queue_witness :
  let calls :=
    ((λ k : nat, Analyze (Some bare_region) "shelf" (Some (Qnat k)) 0)
       <$> seq 0 6)
    ++ [Analyze (Some busy_region) "bread" (Some 100) 0]
    ++ ((λ k : nat, Analyze (Some bare_region) "shelf" (Some (Qnat k)) 0)
          <$> seq 6 5) in
  bounded enhanced_view (EnhancedShelfDetector.__init__ 0.7) ∧
  ∃ self' log,
    run (EnhancedShelfDetector.analyze_shelf_region enhanced_sample)
        EnhancedShelfDetector.update_sensitivity
        (EnhancedShelfDetector.__init__ 0.7) calls = Some (self', log) ∧
    EnhancedShelfDetector.h_timestamp
      <$> default [] (EnhancedShelfDetector.detection_history self'
                        !! "shelf")
    = Qnat <$> seq 3 8.
Proof.
  cbv zeta.
  destruct (enhanced_init_consistent_bounded 0.7) as [_ Hb].
  split; [exact Hb|].
  eexists _, _.
  match goal with
  | |- ?r = _ ∧ _ => assert (Hrun : r = Some _) by (vm_compute; reflexivity)
  end.
  split; [exact Hrun|].
  exact (proj2 (proj2 (X12_history_is_a_queue _ "shelf")) _ _ _ _ Hb Hrun).
Defined.

(** X13: the cooldown table remembers the last alert.  After any sequence
    of calls in which a section alerted, [alert_cooldown] holds for that
    section the timestamp of its most recent alert. *)
Theorem X13_cooldown_is_last_alert (calls : list Call) (shelf_name : string)
    (t : Q) :
  (∀ perform self self' log,
     run (ImprovedYOLODetector.analyze_shelf_region perform)
         ImprovedYOLODetector.update_sensitivity self calls
       = Some (self', log) →
     last (alert_times shelf_name
             (alerts ImprovedYOLODetector.r_should_alert log)) = Some t →
     ImprovedYOLODetector.alert_cooldown self' !! shelf_name = Some t) ∧
  (∀ lib self self' log,
     run (YOLOv8mShelfDetector.analyze_shelf_region lib)
         YOLOv8mShelfDetector.update_sensitivity self calls
       = Some (self', log) →
     last (alert_times shelf_name
             (alerts YOLOv8mShelfDetector.r_should_alert log)) = Some t →
     YOLOv8mShelfDetector.alert_cooldown self' !! shelf_name = Some t) ∧
  (∀ perform self self' log,
     run (EnhancedShelfDetector.analyze_shelf_region perform)
         EnhancedShelfDetector.update_sensitivity self calls
       = Some (self', log) →
     last (alert_times shelf_name
             (alerts EnhancedShelfDetector.r_should_alert log)) = Some t →
     EnhancedShelfDetector.alert_cooldown self' !! shelf_name = Some t).
Proof.
  split; [|split].
  - intros perform self self' log Hrun Hlast.
    exact (run_last_alert improved_view _ _ _
             (improved_analyze_spec perform) improved_update_spec
             calls self self' log shelf_name t Hrun Hlast).
  - intros lib self self' log Hrun Hlast.
    exact (run_last_alert yolo8m_view _ _ _
             (yolo8m_analyze_spec lib) yolo8m_update_spec
             calls self self' log shelf_name t Hrun Hlast).
  - intros perform self self' log Hrun Hlast.
    exact (run_last_alert enhanced_view _ _ _
             (enhanced_analyze_spec perform) enhanced_update_spec
             calls self self' log shelf_name t Hrun Hlast).
Qed.

(** X13 on the five looks of the cooldown scenario: the table ends with
    12.1, the time of the second alert. *)
Lemma X13_cooldown_is_last_alert_witness :
  ∃ self' log,
    run (EnhancedShelfDetector.analyze_shelf_region enhanced_sample)
        EnhancedShelfDetector.update_sensitivity
        (EnhancedShelfDetector.__init__ 0.7)
        [Analyze (Some bare_region) "shelf" (Some 9) 0;
         Analyze (Some bare_region) "shelf" (Some 9.5) 0;
         Analyze (Some bare_region) "shelf" (Some 10) 0;
         Analyze (Some bare_region) "shelf" (Some 10.5) 0;
         Analyze (Some bare_region) "shelf" (Some 12.1) 0]
      = Some (self', log) ∧
    last (alert_times "shelf"
            (alerts EnhancedShelfDetector.r_should_alert log))
      = Some 12.1 ∧
    EnhancedShelfDetector.alert_cooldown self' !! "shelf" = Some 12.1.
Proof.
  eexists _, _.
  match goal with
  | |- ?r = _ ∧ _ => assert (Hrun : r = Some _) by (vm_compute; reflexivity)
  end.
  split; [exact Hrun|].
  match goal with
  | |- ?l = _ ∧ _ =>
      assert (Hlast : l = Some 12.1) by (vm_compute; reflexivity)
  end.
  split; [exact Hlast|].
  exact (proj2 (proj2 (X13_cooldown_is_last_alert _ "shelf" 12.1))
           _ _ _ _ Hrun Hlast).
Defined.

(** ** YOLOv8mShelfDetector: the detection pass *)

Section YoloPass.

Import YOLOv8mShelfDetector.

Lemma visit_box_is_Some self model box :
  is_Some (visit_box self model box) ↔ is_Some (names model !! cls box).
Proof.
  unfold visit_box.
  destruct (names model !! cls box) as [class_name|]; simpl.
  - split; [eauto|intros _].
    destruct (is_product self class_name (conf box)); [|eauto].
    destruct (xyxy box) as [[[x1 y1] x2] y2]. eauto.
  - split; intros [? ?]; discriminate.
Qed.

Lemma visit_box_product self model box p :
  visit_box self model box = Some (Some p) →
  lower (p_class p) ∈ product_classes self ∧
  yolo_confidence_threshold (detection_params self) < p_confidence p ∧
  names model !! cls box = Some (p_class p) ∧
  p_confidence p = conf box ∧
  p_bbox p = xyxy box ∧
  p_area p = box_area box.
Proof.
  unfold visit_box, box_area.
  destruct (names model !! cls box) as [class_name|]; simpl;
    [|discriminate].
  destruct (is_product self class_name (conf box)) eqn:Hp;
    [|discriminate].
  destruct (xyxy box) as [[[x1 y1] x2] y2]. simpl.
  intros H. inversion H; subst; clear H. simpl.
  unfold is_product in Hp. apply andb_true_iff in Hp as [Hclass Hconf].
  apply bool_decide_eq_true in Hclass. apply Qltb_lt in Hconf.
  repeat split; auto.
Qed.

Lemma yolo_detection_body_is_Some self model roi :
  is_Some (yolo_detection_body self model roi) ↔
  ∃ results, predict model roi = Some results ∧
    ∀ box, box ∈ all_boxes results → is_Some (names model !! cls box).
Proof.
  unfold yolo_detection_body.
  destruct (predict model roi) as [results|]; simpl.
  - destruct (mapM (visit_box self model) (all_boxes results))
      as [visited|] eqn:Hvisit; simpl.
    + split; [intros _|eauto]. exists results. split; [reflexivity|].
      intros box Hbox.
      assert (Hall : is_Some (mapM (visit_box self model)
                                (all_boxes results))) by eauto.
      apply mapM_is_Some in Hall.
      rewrite Forall_forall in Hall.
      apply visit_box_is_Some with (self := self). apply Hall, Hbox.
    + split; [intros [? ?]; discriminate|].
      intros (results' & Heq & Hall). inversion Heq; subst results'.
      assert (Hsome : is_Some (mapM (visit_box self model)
                                 (all_boxes results))).
      { apply mapM_is_Some, Forall_forall. intros box Hbox.
        apply visit_box_is_Some, Hall, Hbox. }
      rewrite Hvisit in Hsome. destruct Hsome; discriminate.
  - split; [intros [? ?]; discriminate|].
    intros (results & Heq & _). discriminate.
Qed.

Lemma yolo_detection_body_available self model roi y :
  yolo_detection_body self model roi = Some y → yolo_available y = true.
Proof.
  unfold yolo_detection_body.
  destruct (predict model roi) as [results|]; simpl; [|discriminate].
  destruct (mapM _ _) as [visited|]; simpl; [|discriminate].
  intros H. inversion H. reflexivity.
Qed.

(** X14: when the YOLO pass counts.  [_perform_yolo_detection] reports
    [yolo_available] exactly when a model is loaded, the inference call
    returns, and every box it returned, product or not, has a class id the
    model names.  In every other case the whole result is the canned
    "unavailable" dictionary, so one unnamed class id discards the
    products collected before it as well. *)
Theorem X14_yolo_detection_availability (self : Detector) (roi : Image) :
  let y := _perform_yolo_detection self roi in
  (yolo_available y = true ↔
   ∃ model results,
     yolo_model self = Some model ∧
     predict model roi = Some results ∧
     ∀ box, box ∈ all_boxes results → is_Some (names model !! cls box)) ∧
  (yolo_available y = false → y = yolo_unavailable).
Proof.
  cbv zeta. unfold _perform_yolo_detection.
  destruct (yolo_model self) as [model|].
  - destruct (yolo_detection_body self model roi) as [y|] eqn:Hbody; simpl.
    + pose proof (yolo_detection_body_available _ _ _ _ Hbody) as Hy.
      split; [|rewrite Hy; discriminate].
      split; [intros _|intros _; exact Hy].
      assert (Hsome : is_Some (yolo_detection_body self model roi))
        by eauto.
      apply yolo_detection_body_is_Some in Hsome
        as (results & Hres & Hall).
      eauto.
    + split; [|reflexivity].
      split; [discriminate|].
      intros (model' & results & Hm & Hres & Hall).
      inversion Hm; subst model'.
      assert (Hsome : is_Some (yolo_detection_body self model roi)).
      { apply yolo_detection_body_is_Some. eauto. }
      rewrite Hbody in Hsome. destruct Hsome; discriminate.
  - split; [|reflexivity]. split; [discriminate|].
    intros (model & results & Hm & _). discriminate.
Qed.

(** Every product the YOLO pass keeps passed the guard, and carries the
    area of its own box. *)
Lemma yolo_detection_products (self : Detector) (roi : Image) (p : Product) :
  p ∈ products_detected (_perform_yolo_detection self roi) →
  lower (p_class p) ∈ product_classes self ∧
  yolo_confidence_threshold (detection_params self) < p_confidence p ∧
  p_area p = (let '(x1, y1, x2, y2) := p_bbox p in (x2 - x1) * (y2 - y1)).
Proof.
  unfold _perform_yolo_detection.
  destruct (yolo_model self) as [model|];
    [|intros Hp; exfalso; eapply not_elem_of_nil; exact Hp].
  unfold yolo_detection_body.
  destruct (predict model roi) as [results|]; simpl;
    [|intros Hp; exfalso; eapply not_elem_of_nil; exact Hp].
  destruct (mapM (visit_box self model) (all_boxes results))
    as [visited|] eqn:Hvisit; simpl;
    [|intros Hp; exfalso; eapply not_elem_of_nil; exact Hp].
  intros Hp. apply list_elem_of_omap in Hp as (o & Ho & Hid).
  simpl in Hid. subst o.
  apply mapM_Some in Hvisit.
  apply list_elem_of_lookup in Ho as [i Hi].
  destruct (Forall2_lookup_r _ _ _ _ _ Hvisit Hi) as (box & _ & Hbox).
  apply visit_box_product in Hbox
    as (Hclass & Hconf & _ & _ & Hbb & Harea).
  split; [exact Hclass|]. split; [exact Hconf|].
  rewrite Harea. unfold box_area. rewrite Hbb. reflexivity.
Qed.

(** X15: what the YOLO pass returns.  The three lists run in parallel and
    [product_count] is their length; every product kept has a lower-cased
    label in [product_classes], a confidence strictly above the
    threshold, and the area of its own box; the coverage ratio never
    exceeds 1 and is 0 when nothing was kept. *)
Theorem X15_yolo_detection_output (self : Detector) (roi : Image) :
  let y := _perform_yolo_detection self roi in
  product_count y = length (products_detected y) ∧
  confidence_scores y = p_confidence <$> products_detected y ∧
  detection_areas y = p_area <$> products_detected y ∧
  (∀ p, p ∈ products_detected y →
     lower (p_class p) ∈ product_classes self ∧
     yolo_confidence_threshold (detection_params self) < p_confidence p ∧
     p_area p = (let '(x1, y1, x2, y2) := p_bbox p in
                 (x2 - x1) * (y2 - y1))) ∧
  coverage_ratio y <= 1 ∧
  (product_count y = 0%nat → coverage_ratio y == 0).
Proof.
  cbv zeta.
  pose proof (yolo_detection_products self roi) as Hproducts.
  revert Hproducts. unfold _perform_yolo_detection.
  assert (Hun : ∀ P : Yolo → Prop,
            P yolo_unavailable →
            (∀ model y, yolo_model self = Some model →
                        yolo_detection_body self model roi = Some y → P y) →
            P (match yolo_model self with
               | Some model =>
                   default yolo_unavailable
                     (yolo_detection_body self model roi)
               | None => yolo_unavailable
               end)).
  { intros P H0 H1. destruct (yolo_model self) as [model|]; [|exact H0].
    destruct (yolo_detection_body self model roi) as [y|] eqn:E;
      [eapply H1; eauto|exact H0]. }
  apply Hun; clear Hun.
  - intros Hproducts. simpl. repeat split; try reflexivity.
    + apply (Hproducts p). assumption.
    + apply (Hproducts p). assumption.
    + apply (Hproducts p). assumption.
    + lra.
  - intros model y _. unfold yolo_detection_body.
    destruct (predict model roi) as [results|]; simpl; [|discriminate].
    destruct (mapM (visit_box self model) (all_boxes results))
      as [visited|] eqn:Hvisit; simpl; [|discriminate].
    intros H. inversion H; subst y; clear H. simpl.
    intros Hproducts.
    split; [reflexivity|]. split; [reflexivity|]. split; [reflexivity|].
    split; [|split].
    + exact Hproducts.
    + destruct (0 <? shape0 roi * shape1 roi)%nat; [|lra].
      match goal with |- Qmin 1 ?x <= 1 => case_min 1 x; lra end.
    + intros Hlen. apply length_zero_iff_nil in Hlen. rewrite Hlen.
      simpl. destruct (0 <? shape0 roi * shape1 roi)%nat eqn:Harea;
        [|reflexivity].
      apply Nat.ltb_lt in Harea.
      assert (Hpos : 0 < Qnat (shape0 roi * shape1 roi)).
      { unfold Qnat. change 0 with (inject_Z 0). rewrite <- Zlt_Qlt. lia. }
      match goal with
      | |- Qmin 1 ?x == 0 =>
          assert (Hx : x == 0) by (unfold Qsum; simpl; field; lra);
          case_min 1 x; lra
      end.
Qed.

End YoloPass.

(** ** YOLOv8mShelfDetector: the verdict, its confidence and the alert *)

Ltac nat_tests :=
  repeat match goal with
         | H : (_ && _) = true |- _ => apply andb_true_iff in H as [? ?]
         | H : (_ && _) = false |- _ => apply andb_false_iff in H as [?|?]
         | H : (_ <=? _)%nat = true |- _ => apply Nat.leb_le in H
         | H : (_ <=? _)%nat = false |- _ => apply Nat.leb_gt in H
         end.

Ltac decide_tests :=
  repeat match goal with
         | |- context [(?a <=? ?b)%nat] => destruct (Nat.leb_spec a b)
         end;
  simpl; try reflexivity; try lia.

(** The aggregator of [YOLOv8mShelfDetector] read as a function of the
    three indicator counts. *)
Lemma yolo8m_confidence_by_count
    (self : YOLOv8mShelfDetector.Detector)
    (analysis : YOLOv8mShelfDetector.Analysis) :
  let c := YOLOv8mShelfDetector._calculate_yolo_enhanced_confidence self
             analysis in
  let p := primary_count (YOLOv8mShelfDetector.uniformity analysis)
             (YOLOv8mShelfDetector.objects analysis)
             (YOLOv8mShelfDetector.color analysis)
             (YOLOv8mShelfDetector.texture analysis)
             (YOLOv8mShelfDetector.structure analysis) in
  let y := YOLOv8mShelfDetector.c_yolo_indicators c in
  let available :=
    YOLOv8mShelfDetector.yolo_available
      (YOLOv8mShelfDetector.yolo analysis) in
  let s := YOLOv8mShelfDetector.sensitivity self in
  let boost := YOLOv8mShelfDetector.empty_confidence_boost
                 (YOLOv8mShelfDetector.detection_params self) in
  YOLOv8mShelfDetector.c_yolo_enhanced c = available ∧
  (p ≤ 5)%nat ∧
  (p ≤ YOLOv8mShelfDetector.c_empty_indicators c)%nat ∧
  (YOLOv8mShelfDetector.c_empty_indicators c ≤ p + 3)%nat ∧
  y = (if available
       then count_true
              [(YOLOv8mShelfDetector.product_count
                  (YOLOv8mShelfDetector.yolo analysis) =? 0)%nat;
               Qltb (YOLOv8mShelfDetector.coverage_ratio
                       (YOLOv8mShelfDetector.yolo analysis)) 0.12]
       else 0%nat) ∧
  YOLOv8mShelfDetector.c_is_empty c
    = (if available
       then ((1 <=? y) && (1 <=? p)) || (3 <=? p)
       else (2 <=? YOLOv8mShelfDetector.c_empty_indicators c))%nat ∧
  (YOLOv8mShelfDetector.c_is_empty c = true → 0 <= s → 0 <= boost →
   Qmin 1 (0.55 + boost) <= YOLOv8mShelfDetector.c_empty_confidence c) ∧
  (YOLOv8mShelfDetector.c_is_empty c = true → (2 ≤ y)%nat →
   0 <= s → 0 <= boost →
   0.87 <= YOLOv8mShelfDetector.c_empty_confidence c).
Proof.
  unfold YOLOv8mShelfDetector._calculate_yolo_enhanced_confidence,
    primary_count.
  cbv zeta.
  match goal with
  | |- context [let '(_, _) := ?X in _] => destruct X as [base b] eqn:E
  end.
  cbn [YOLOv8mShelfDetector.c_is_empty
       YOLOv8mShelfDetector.c_empty_confidence
       YOLOv8mShelfDetector.c_empty_indicators
       YOLOv8mShelfDetector.c_yolo_indicators
       YOLOv8mShelfDetector.c_yolo_enhanced].
  set (s := YOLOv8mShelfDetector.sensitivity self) in *.
  set (boost := YOLOv8mShelfDetector.empty_confidence_boost _) in *.
  match type of E with
  | context [(3 <=? count_true ?l)%nat] =>
      pose proof (count_true_le l) as Hp; simpl length in Hp;
      set (p := count_true l) in *
  end.
  match goal with
  | |- context [(p + count_true ?k)%nat] =>
      pose proof (count_true_le k) as Hsc;
      assert (Hk : (length k ≤ 3)%nat)
        by (destruct (YOLOv8mShelfDetector.supermarket_mode _);
            simpl; lia);
      set (sc := count_true k) in *
  end.
  assert (Hsc3 : (sc ≤ 3)%nat) by lia. clear Hsc Hk.
  split; [reflexivity|]. split; [exact Hp|].
  split; [lia|]. split; [lia|].
  pose proof (Qnat_nonneg p) as Hqp.
  pose proof (Qnat_nonneg sc) as Hqsc.
  pose proof (Qnat_nonneg (p - 3)) as Hqp3.
  pose proof (Qnat_nonneg (p + sc - 4)) as Hq4.
  pose proof (Qnat_nonneg (p + sc - 3)) as Hq3.
  pose proof (Qnat_nonneg (p + sc - 2)) as Hq2.
  destruct (YOLOv8mShelfDetector.yolo_available
              (YOLOv8mShelfDetector.yolo analysis)) eqn:Havail.
  - match type of E with
    | context [(2 <=? count_true ?l)%nat] =>
        pose proof (count_true_le l) as Hy; simpl length in Hy;
        set (y := count_true l) in *
    end.
    split; [reflexivity|].
    clearbody y p sc.
    repeat match type of E with
           | (if ?t then _ else _) = _ => destruct t eqn:?
           end; inversion E; subst base b; clear E; nat_tests.
    all: split; [decide_tests|].
    all: try (split; intros; discriminate).
    all: assert (Hp1 : 1 <= Qnat p)
           by (rewrite <- Qnat_1; apply Qnat_le; lia).
    all: split; intros;
      repeat match goal with
             | |- context [Qmin ?a ?b] => case_min a b
             end; try nra; try lia.
  - split; [reflexivity|].
    clearbody p sc.
    repeat match type of E with
           | (if ?t then _ else _) = _ => destruct t eqn:?
           end; inversion E; subst base b; clear E; nat_tests.
    all: split; [decide_tests|].
    all: try (split; intros; discriminate).
    all: split; intros;
      try (exfalso; unfold count_true in *; simpl in *; lia);
      repeat match goal with
             | |- context [Qmin ?a ?b] => case_min a b
             end; try nra.
Qed.

(** Every field of the result of an accepted analysis of
    [YOLOv8mShelfDetector], in terms of the instance the call was made
    on. *)
Lemma yolo8m_accepted_full lib self img n ts now self' r :
  rejected 50 (Some img) = false →
  YOLOv8mShelfDetector.analyze_shelf_region lib self (Some img) n ts now
    = Some (self', r) →
  let t := default now ts in
  let a := YOLOv8mShelfDetector._perform_yolo_enhanced_analysis lib self
             img in
  let c := YOLOv8mShelfDetector._calculate_yolo_enhanced_confidence self
             a in
  let vs := _determine_visual_state
              (YOLOv8mShelfDetector.c_empty_confidence c)
              (YOLOv8mShelfDetector.c_is_empty c) in
  let level := YOLOv8mShelfDetector._determine_alert_level
                 (YOLOv8mShelfDetector.c_empty_confidence c)
                 (YOLOv8mShelfDetector.c_is_empty c) in
  let rec :=
    YOLOv8mShelfDetector.mkRecord t
      (YOLOv8mShelfDetector.c_is_empty c)
      (YOLOv8mShelfDetector.c_empty_confidence c)
      (YOLOv8mShelfDetector.c_fullness_score c)
      vs level a
      (YOLOv8mShelfDetector.frame_count self + 1)
      (YOLOv8mShelfDetector.products_detected
         (YOLOv8mShelfDetector.yolo a)) in
  let h2 :=
    trim (YOLOv8mShelfDetector.history_length self)
      (default [] (YOLOv8mShelfDetector.detection_history self !! n)
         ++ [rec]) in
  ∃ self2,
    YOLOv8mShelfDetector.alert_cooldown self2
      = cooldown_after_init yolo8m_view self n ∧
    YOLOv8mShelfDetector.cooldown_time self2
      = YOLOv8mShelfDetector.cooldown_time self ∧
    YOLOv8mShelfDetector._should_trigger_alert self2 n c t
      = (self', YOLOv8mShelfDetector.r_should_alert r) ∧
    YOLOv8mShelfDetector.detection_history self' !! n = Some h2 ∧
    r = YOLOv8mShelfDetector.mkResult
          (YOLOv8mShelfDetector.c_is_empty c)
          (YOLOv8mShelfDetector.c_empty_confidence c)
          (YOLOv8mShelfDetector.c_fullness_score c)
          vs level
          (YOLOv8mShelfDetector.r_should_alert r)
          (Some (YOLOv8mShelfDetector.c_method_scores c))
          (Some a)
          (YOLOv8mShelfDetector._calculate_trend lib self' n)
          None
          (YOLOv8mShelfDetector.products_detected
             (YOLOv8mShelfDetector.yolo a)).
Proof.
  intros Hrej. apply rejected_false in Hrej as [Hsize Hshape].
  unfold YOLOv8mShelfDetector.analyze_shelf_region.
  rewrite Hsize, Hshape. cbv zeta.
  set (self0 := YOLOv8mShelfDetector.set_frame_count _ self).
  destruct (yolo8m_initialize_history_attrs self0 n)
    as (Hs & Hp & Hcap & Hcd & Hm & Hc).
  destruct (yolo8m_initialize_history_tables self0 n)
    as (Hlook & _ & Htable).
  assert (Hfc : YOLOv8mShelfDetector.frame_count
                  (YOLOv8mShelfDetector.initialize_history self0 n)
                = (YOLOv8mShelfDetector.frame_count self + 1)%nat).
  { unfold YOLOv8mShelfDetector.initialize_history.
    destruct (YOLOv8mShelfDetector.detection_history self0 !! n);
      reflexivity. }
  assert (Ha : YOLOv8mShelfDetector._perform_yolo_enhanced_analysis lib
                 (YOLOv8mShelfDetector.initialize_history self0 n) img
               = YOLOv8mShelfDetector._perform_yolo_enhanced_analysis lib
                   self img).
  { unfold YOLOv8mShelfDetector._perform_yolo_enhanced_analysis.
    rewrite (yolo8m_detection_ext _ self img Hm Hp Hc). reflexivity. }
  rewrite Ha.
  rewrite (yolo8m_confidence_ext
             (YOLOv8mShelfDetector.initialize_history self0 n) self)
    by (rewrite ?Hs, ?Hp; reflexivity).
  rewrite Hfc.
  unfold YOLOv8mShelfDetector.record_detection. rewrite Hlook, Hcap.
  cbn [mbind option_bind mret option_ret].
  match goal with
  | |- context [YOLOv8mShelfDetector._should_trigger_alert ?a ?b ?c ?d] =>
      destruct (YOLOv8mShelfDetector._should_trigger_alert a b c d)
        as [self3 fired] eqn:Halert
  end.
  intros H. inversion H; subst; clear H.
  eexists. split; [|split; [|split; [exact Halert|]]].
  - cbn [YOLOv8mShelfDetector.alert_cooldown
         YOLOv8mShelfDetector.set_detection_history]. exact Htable.
  - cbn [YOLOv8mShelfDetector.cooldown_time
         YOLOv8mShelfDetector.set_detection_history]. exact Hcd.
  - apply yolo8m_should_trigger_alert_spec in Halert
      as [[_ ->] | (_ & _ & _ & ->)];
      (split; [simpl; apply lookup_insert_eq|]); reflexivity.
Qed.

(** Nothing kept by the YOLO pass means nothing covered. *)
Lemma yolo_coverage_without_products
    (self : YOLOv8mShelfDetector.Detector) (roi : Image) :
  YOLOv8mShelfDetector.product_count
    (YOLOv8mShelfDetector._perform_yolo_detection self roi) = 0%nat →
  YOLOv8mShelfDetector.coverage_ratio
    (YOLOv8mShelfDetector._perform_yolo_detection self roi) == 0.
Proof.
  unfold YOLOv8mShelfDetector._perform_yolo_detection.
  destruct (YOLOv8mShelfDetector.yolo_model self) as [model|];
    [|reflexivity].
  unfold YOLOv8mShelfDetector.yolo_detection_body.
  destruct (YOLOv8mShelfDetector.predict model roi) as [results|]; simpl;
    [|reflexivity].
  destruct (mapM _ _) as [visited|]; simpl; [|reflexivity].
  intros Hlen. apply length_zero_iff_nil in Hlen. rewrite Hlen. simpl.
  destruct (0 <? shape0 roi * shape1 roi)%nat eqn:Harea; [|reflexivity].
  apply Nat.ltb_lt in Harea.
  assert (Hpos : 0 < Qnat (shape0 roi * shape1 roi)).
  { unfold Qnat. change 0 with (inject_Z 0). rewrite <- Zlt_Qlt. lia. }
  match goal with
  | |- Qmin 1 ?x == 0 =>
      assert (Hx : x == 0) by (unfold Qsum; simpl; field; lra);
      case_min 1 x; lra
  end.
Qed.

(** X16: the verdict of [YOLOv8mShelfDetector] by indicator counts.  With
    the YOLO pass available the verdict is empty exactly when a YOLO
    indicator and a primary indicator hold together, or three primary
    indicators hold; the supermarket indicators then raise the confidence
    but never decide.  Without the pass it is empty exactly when primary
    and supermarket indicators together number at least two. *)
Theorem X16_yolo8m_verdict_by_count
    (self : YOLOv8mShelfDetector.Detector)
    (analysis : YOLOv8mShelfDetector.Analysis) :
  let c := YOLOv8mShelfDetector._calculate_yolo_enhanced_confidence self
             analysis in
  let p := primary_count (YOLOv8mShelfDetector.uniformity analysis)
             (YOLOv8mShelfDetector.objects analysis)
             (YOLOv8mShelfDetector.color analysis)
             (YOLOv8mShelfDetector.texture analysis)
             (YOLOv8mShelfDetector.structure analysis) in
  let y := YOLOv8mShelfDetector.c_yolo_indicators c in
  let available :=
    YOLOv8mShelfDetector.yolo_available
      (YOLOv8mShelfDetector.yolo analysis) in
  YOLOv8mShelfDetector.c_yolo_enhanced c = available ∧
  (p ≤ YOLOv8mShelfDetector.c_empty_indicators c)%nat ∧
  (YOLOv8mShelfDetector.c_empty_indicators c ≤ p + 3)%nat ∧
  (y ≤ 2)%nat ∧
  (available = false → y = 0%nat) ∧
  YOLOv8mShelfDetector.c_is_empty c
    = (if available
       then ((1 <=? y) && (1 <=? p)) || (3 <=? p)
       else (2 <=? YOLOv8mShelfDetector.c_empty_indicators c))%nat.
Proof.
  destruct (yolo8m_confidence_by_count self analysis)
    as (Hen & _ & Hlo & Hhi & Hy & He & _).
  cbv zeta in *.
  split; [exact Hen|]. split; [exact Hlo|]. split; [exact Hhi|].
  split; [|split; [|exact He]].
  - rewrite Hy. destruct (YOLOv8mShelfDetector.yolo_available _); [|lia].
    match goal with
    | |- (count_true ?l ≤ 2)%nat => apply (count_true_le l)
    end.
  - intros Hoff. rewrite Hy, Hoff. reflexivity.
Qed.

(** X17: the YOLO pass feeding the aggregator.  When the pass ran on the
    region and kept no product, both YOLO indicators hold; the verdict is
    then empty exactly when at least one primary indicator holds, and an
    empty verdict has confidence at least 0.87, hence the level CRITICAL
    and the state CRITICALLY_EMPTY. *)
Theorem X17_yolo8m_no_product_seen
    (lib : YOLOv8mShelfDetector.Library)
    (self : YOLOv8mShelfDetector.Detector) (roi : Image)
    (Hs : 0 <= YOLOv8mShelfDetector.sensitivity self)
    (Hboost : 0 <= YOLOv8mShelfDetector.empty_confidence_boost
                     (YOLOv8mShelfDetector.detection_params self))
    (Hran : YOLOv8mShelfDetector.yolo_available
              (YOLOv8mShelfDetector._perform_yolo_detection self roi)
            = true)
    (Hnone : YOLOv8mShelfDetector.product_count
               (YOLOv8mShelfDetector._perform_yolo_detection self roi)
             = 0%nat) :
  let a := YOLOv8mShelfDetector._perform_yolo_enhanced_analysis lib self
             roi in
  let c := YOLOv8mShelfDetector._calculate_yolo_enhanced_confidence self
             a in
  let p := primary_count (YOLOv8mShelfDetector.uniformity a)
             (YOLOv8mShelfDetector.objects a)
             (YOLOv8mShelfDetector.color a)
             (YOLOv8mShelfDetector.texture a)
             (YOLOv8mShelfDetector.structure a) in
  YOLOv8mShelfDetector.c_yolo_indicators c = 2%nat ∧
  YOLOv8mShelfDetector.c_is_empty c = (1 <=? p)%nat ∧
  (YOLOv8mShelfDetector.c_is_empty c = true →
   0.87 <= YOLOv8mShelfDetector.c_empty_confidence c ∧
   YOLOv8mShelfDetector._determine_alert_level
     (YOLOv8mShelfDetector.c_empty_confidence c) true = CRITICAL ∧
   _determine_visual_state
     (YOLOv8mShelfDetector.c_empty_confidence c) true = CRITICALLY_EMPTY).
Proof.
  cbv zeta.
  set (a := YOLOv8mShelfDetector._perform_yolo_enhanced_analysis lib self
              roi).
  destruct (yolo8m_confidence_by_count self a)
    as (_ & Hp & _ & _ & Hy & He & _ & Hconf).
  cbv zeta in *.
  assert (Hyolo : YOLOv8mShelfDetector.yolo a
                  = YOLOv8mShelfDetector._perform_yolo_detection self roi)
    by reflexivity.
  rewrite Hyolo in Hy, He. rewrite Hran in Hy, He. rewrite Hnone in Hy.
  pose proof (yolo_coverage_without_products self roi Hnone) as Hcov.
  assert (Hlow : Qltb (YOLOv8mShelfDetector.coverage_ratio
                         (YOLOv8mShelfDetector._perform_yolo_detection
                            self roi)) 0.12 = true)
    by (apply Qltb_lt; lra).
  rewrite Hlow in Hy. change (count_true _) with 2%nat in Hy.
  split; [exact Hy|].
  rewrite Hy in He.
  split.
  - rewrite He. decide_tests.
  - intros Hempty.
    assert (H87 : 0.87 <= YOLOv8mShelfDetector.c_empty_confidence
                            (YOLOv8mShelfDetector._calculate_yolo_enhanced_confidence
                               self a))
      by (apply Hconf; auto; lia).
    split; [exact H87|].
    unfold YOLOv8mShelfDetector._determine_alert_level,
      _determine_visual_state. simpl.
    assert (H85 : Qleb 0.85
                    (YOLOv8mShelfDetector.c_empty_confidence
                       (YOLOv8mShelfDetector._calculate_yolo_enhanced_confidence
                          self a)) = true)
      by (apply Qleb_le; lra).
    rewrite H85. split; reflexivity.
Qed.

(** X17 on a bare region with a model that reports no box. *)
Lemma X17_yolo8m_no_product_seen_witness :
  let self :=
    YOLOv8mShelfDetector.__init__ 0.7
      (Some (YOLOv8mShelfDetector.mkModel ∅ (λ _, Some []))) in
  let c := YOLOv8mShelfDetector._calculate_yolo_enhanced_confidence self
             (YOLOv8mShelfDetector._perform_yolo_enhanced_analysis
                yolo8m_sample self bare_region) in
  YOLOv8mShelfDetector.c_yolo_indicators c = 2%nat ∧
  YOLOv8mShelfDetector.c_is_empty c = true ∧
  0.87 <= YOLOv8mShelfDetector.c_empty_confidence c.
Proof.
  cbv zeta.
  set (self := YOLOv8mShelfDetector.__init__ 0.7
                 (Some (YOLOv8mShelfDetector.mkModel ∅ (λ _, Some [])))).
  assert (Hs : 0 <= YOLOv8mShelfDetector.sensitivity self)
    by (vm_compute; discriminate).
  assert (Hboost : 0 <= YOLOv8mShelfDetector.empty_confidence_boost
                          (YOLOv8mShelfDetector.detection_params self))
    by (vm_compute; discriminate).
  destruct (X17_yolo8m_no_product_seen yolo8m_sample self bare_region
              Hs Hboost eq_refl eq_refl) as (Hy & He & Hconf).
  split; [exact Hy|].
  assert (Hempty :
    YOLOv8mShelfDetector.c_is_empty
      (YOLOv8mShelfDetector._calculate_yolo_enhanced_confidence self
         (YOLOv8mShelfDetector._perform_yolo_enhanced_analysis
            yolo8m_sample self bare_region)) = true)
    by (vm_compute; reflexivity).
  split; [exact Hempty|].
  exact (proj1 (Hconf Hempty)).
Defined.

(** The visual state and the alert level of an empty verdict whose
    confidence is at least 0.55. *)
Lemma yolo8m_levels_of_empty (confidence : Q) :
  0.55 <= confidence →
  let level := YOLOv8mShelfDetector._determine_alert_level confidence true in
  let state := _determine_visual_state confidence true in
  (level = CRITICAL ∧ state = CRITICALLY_EMPTY ∧ 0.85 <= confidence) ∨
  (level = HIGH ∧ state = MOSTLY_EMPTY ∧ confidence < 0.85) ∨
  (level = MEDIUM ∧ state = PARTIALLY_EMPTY ∧ confidence < 0.70).
Proof.
  intros Hfloor.
  unfold YOLOv8mShelfDetector._determine_alert_level,
    _determine_visual_state. simpl.
  destruct (Qleb 0.85 confidence) eqn:H85.
  { apply Qleb_le in H85. auto. }
  apply Qleb_gt in H85.
  destruct (Qleb 0.70 confidence) eqn:H70; [auto|].
  apply Qleb_gt in H70.
  destruct (Qleb 0.55 confidence) eqn:H55; [auto 10|].
  apply Qleb_gt in H55. lra.
Qed.

(** X18: with a non-negative sensitivity and a confidence boost of at
    least 0.10 (the constructor sets 0.12), an accepted analysis of
    [YOLOv8mShelfDetector] alerts exactly when the verdict is empty and
    the time since the section's stored alert time is at least
    [cooldown_time]: the confidence of an empty verdict is never below
    0.65, so the confidence test never decides, and no number of earlier
    records is required. *)
Theorem X18_yolo8m_alert_decision
    lib self img shelf_name timestamp now self' r
    (Hrej : rejected 50 (Some img) = false)
    (Hs : 0 <= YOLOv8mShelfDetector.sensitivity self)
    (Hboost : 0.10 <= YOLOv8mShelfDetector.empty_confidence_boost
                        (YOLOv8mShelfDetector.detection_params self))
    (Hrun : YOLOv8mShelfDetector.analyze_shelf_region lib self (Some img)
              shelf_name timestamp now = Some (self', r)) :
  (YOLOv8mShelfDetector.r_is_empty r = true →
   0.65 <= YOLOv8mShelfDetector.r_confidence r) ∧
  (YOLOv8mShelfDetector.r_should_alert r = true ↔
   YOLOv8mShelfDetector.r_is_empty r = true ∧
   YOLOv8mShelfDetector.cooldown_time self
     <= default now timestamp
        - default 0 (cooldown_after_init yolo8m_view self shelf_name
                       !! shelf_name)).
Proof.
  destruct (yolo8m_accepted_full _ _ _ _ _ _ _ _ Hrej Hrun)
    as (self2 & Hcool & Hcd & Halert & _ & Hr).
  cbv zeta in *.
  set (a := YOLOv8mShelfDetector._perform_yolo_enhanced_analysis lib self
              img) in *.
  set (c := YOLOv8mShelfDetector._calculate_yolo_enhanced_confidence self
              a) in *.
  assert (Hfields :
    YOLOv8mShelfDetector.r_is_empty r = YOLOv8mShelfDetector.c_is_empty c ∧
    YOLOv8mShelfDetector.r_confidence r
      = YOLOv8mShelfDetector.c_empty_confidence c).
  { rewrite Hr. split; reflexivity. }
  destruct Hfields as [-> ->].
  assert (Hfloor : YOLOv8mShelfDetector.c_is_empty c = true →
                   0.65 <= YOLOv8mShelfDetector.c_empty_confidence c).
  { intros Hempty.
    destruct (yolo8m_confidence_by_count self a)
      as (_ & _ & _ & _ & _ & _ & Hconf & _).
    cbv zeta in Hconf. fold c in Hconf.
    assert (H0 : 0 <= YOLOv8mShelfDetector.empty_confidence_boost
                        (YOLOv8mShelfDetector.detection_params self))
      by lra.
    specialize (Hconf Hempty Hs H0). revert Hconf.
    match goal with
    | |- Qmin 1 ?x <= _ → _ => case_min 1 x; lra
    end. }
  split; [exact Hfloor|].
  revert Halert. generalize (YOLOv8mShelfDetector.r_should_alert r).
  intros fired Halert.
  unfold YOLOv8mShelfDetector._should_trigger_alert in Halert.
  rewrite Hcool, Hcd in Halert.
  destruct (YOLOv8mShelfDetector.c_is_empty c) eqn:Hempty;
    simpl in Halert.
  2:{ inversion Halert; subst. split; [discriminate|].
      intros [? _]. discriminate. }
  specialize (Hfloor eq_refl).
  destruct (Qltb _ (YOLOv8mShelfDetector.cooldown_time self)) eqn:Hgap.
  - inversion Halert; subst. apply Qltb_lt in Hgap.
    split; [discriminate|].
    intros (_ & Hle). exfalso. exact (Qlt_not_le _ _ Hgap Hle).
  - apply Qltb_ge in Hgap.
    assert (Hconf : Qleb 0.65 (YOLOv8mShelfDetector.c_empty_confidence c)
                    = true) by (apply Qleb_le; exact Hfloor).
    rewrite Hconf in Halert. inversion Halert; subst. split; auto.
Qed.

(** X18 on the first look of a fresh detector at a bare region, at time
    10: it alerts at once. *)
Lemma X18_yolo8m_alert_decision_witness :
  let self := YOLOv8mShelfDetector.__init__ 0.7 None in
  rejected 50 (Some bare_region) = false ∧
  0 <= YOLOv8mShelfDetector.sensitivity self ∧
  0.10 <= YOLOv8mShelfDetector.empty_confidence_boost
            (YOLOv8mShelfDetector.detection_params self) ∧
  ∃ self' r,
    YOLOv8mShelfDetector.analyze_shelf_region yolo8m_sample self
      (Some bare_region) "shelf" (Some 10) 0 = Some (self', r) ∧
    YOLOv8mShelfDetector.r_should_alert r = true.
Proof.
  cbv zeta.
  set (self := YOLOv8mShelfDetector.__init__ 0.7 None).
  split; [reflexivity|].
  assert (Hs : 0 <= YOLOv8mShelfDetector.sensitivity self)
    by (vm_compute; discriminate).
  split; [exact Hs|].
  assert (Hboost : 0.10 <= YOLOv8mShelfDetector.empty_confidence_boost
                             (YOLOv8mShelfDetector.detection_params self))
    by (vm_compute; discriminate).
  split; [exact Hboost|].
  eexists _, _.
  assert (Hrun :
    YOLOv8mShelfDetector.analyze_shelf_region yolo8m_sample self
      (Some bare_region) "shelf" (Some 10) 0 = Some _)
    by (vm_compute; reflexivity).
  split; [exact Hrun|].
  apply (proj2 (X18_yolo8m_alert_decision yolo8m_sample self bare_region
                  "shelf" (Some 10) 0 _ _ eq_refl Hs Hboost Hrun)).
  split; [reflexivity|]. vm_compute. discriminate.
Defined.

(** X19: the levels [YOLOv8mShelfDetector] reports.  With a non-negative
    sensitivity and boost, an empty verdict has confidence at least 0.55,
    so its alert level is CRITICAL, HIGH or MEDIUM with the matching
    visual state; LOW is reported exactly for a verdict that is not
    empty, with the state WELL_STOCKED after an analysis and UNCERTAIN
    for a region that was turned away.  LOW_STOCK is never reported. *)
Theorem X19_yolo8m_levels
    lib self roi shelf_name timestamp now self' r
    (Hs : 0 <= YOLOv8mShelfDetector.sensitivity self)
    (Hboost : 0 <= YOLOv8mShelfDetector.empty_confidence_boost
                     (YOLOv8mShelfDetector.detection_params self))
    (Hrun : YOLOv8mShelfDetector.analyze_shelf_region lib self roi
              shelf_name timestamp now = Some (self', r)) :
  (YOLOv8mShelfDetector.r_is_empty r = true →
   0.55 <= YOLOv8mShelfDetector.r_confidence r ∧
   ((YOLOv8mShelfDetector.r_alert_level r = CRITICAL ∧
     YOLOv8mShelfDetector.r_visual_state r = CRITICALLY_EMPTY) ∨
    (YOLOv8mShelfDetector.r_alert_level r = HIGH ∧
     YOLOv8mShelfDetector.r_visual_state r = MOSTLY_EMPTY) ∨
    (YOLOv8mShelfDetector.r_alert_level r = MEDIUM ∧
     YOLOv8mShelfDetector.r_visual_state r = PARTIALLY_EMPTY))) ∧
  (YOLOv8mShelfDetector.r_is_empty r = false →
   YOLOv8mShelfDetector.r_alert_level r = LOW ∧
   YOLOv8mShelfDetector.r_visual_state r
     = (if rejected 50 roi then UNCERTAIN else WELL_STOCKED)) ∧
  YOLOv8mShelfDetector.r_visual_state r ≠ LOW_STOCK.
Proof.
  destruct (rejected 50 roi) eqn:Hrej.
  - destruct (yolo8m_rejected lib self roi shelf_name timestamp now Hrej)
      as [msg Hmsg].
    rewrite Hmsg in Hrun. inversion Hrun; subst. simpl.
    split; [discriminate|]. split; [auto|discriminate].
  - destruct roi as [img|]; [|discriminate].
    destruct (yolo8m_accepted_full _ _ _ _ _ _ _ _ Hrej Hrun)
      as (self2 & _ & _ & _ & _ & ->).
    cbn [YOLOv8mShelfDetector.r_is_empty YOLOv8mShelfDetector.r_confidence
         YOLOv8mShelfDetector.r_alert_level
         YOLOv8mShelfDetector.r_visual_state].
    set (a := YOLOv8mShelfDetector._perform_yolo_enhanced_analysis lib
                self img).
    set (c := YOLOv8mShelfDetector._calculate_yolo_enhanced_confidence
                self a).
    assert (Hfloor : YOLOv8mShelfDetector.c_is_empty c = true →
                     0.55 <= YOLOv8mShelfDetector.c_empty_confidence c).
    { intros Hempty.
      destruct (yolo8m_confidence_by_count self a)
        as (_ & _ & _ & _ & _ & _ & Hconf & _).
      cbv zeta in Hconf. fold c in Hconf.
      specialize (Hconf Hempty Hs Hboost). revert Hconf.
      match goal with
      | |- Qmin 1 ?x <= _ → _ => case_min 1 x; lra
      end. }
    destruct (YOLOv8mShelfDetector.c_is_empty c) eqn:Hempty.
    + specialize (Hfloor eq_refl).
      destruct (yolo8m_levels_of_empty _ Hfloor)
        as [(-> & -> & _) | [(-> & -> & _) | (-> & -> & _)]];
        (split; [intros _; split; [exact Hfloor|auto]|]);
        (split; [discriminate|discriminate]).
    + split; [discriminate|]. split; [intros _; split; reflexivity|].
      discriminate.
Qed.

(** X19 on a bare region given to a fresh detector without a model. *)
Lemma X19_yolo8m_levels_witness :
  ∃ self' r,
    YOLOv8mShelfDetector.analyze_shelf_region yolo8m_sample
      (YOLOv8mShelfDetector.__init__ 0.7 None) (Some bare_region) "shelf"
      (Some 10) 0 = Some (self', r) ∧
    YOLOv8mShelfDetector.r_is_empty r = true ∧
    0.55 <= YOLOv8mShelfDetector.r_confidence r ∧
    YOLOv8mShelfDetector.r_visual_state r ≠ LOW_STOCK.
Proof.
  eexists _, _.
  assert (Hrun :
    YOLOv8mShelfDetector.analyze_shelf_region yolo8m_sample
      (YOLOv8mShelfDetector.__init__ 0.7 None) (Some bare_region) "shelf"
      (Some 10) 0 = Some _) by (vm_compute; reflexivity).
  assert (Hs : 0 <= YOLOv8mShelfDetector.sensitivity
                      (YOLOv8mShelfDetector.__init__ 0.7 None))
    by (vm_compute; discriminate).
  assert (Hboost : 0 <= YOLOv8mShelfDetector.empty_confidence_boost
                          (YOLOv8mShelfDetector.detection_params
                             (YOLOv8mShelfDetector.__init__ 0.7 None)))
    by (vm_compute; discriminate).
  pose proof (X19_yolo8m_levels _ _ _ _ _ _ _ _ Hs Hboost Hrun)
    as (Hempty & _ & Hstate).
  split; [exact Hrun|]. split; [reflexivity|].
  split; [exact (proj1 (Hempty eq_refl))|exact Hstate].
Defined.

(** The trend of [YOLOv8mShelfDetector] as a function of the retained
    history: the final [return 'UNKNOWN'] is never reached. *)
Lemma yolo8m_trend_of_history lib self n history :
  YOLOv8mShelfDetector.detection_history self !! n = Some history →
  let slope :=
    YOLOv8mShelfDetector.polyfit_slope lib
      (YOLOv8mShelfDetector.h_empty_confidence <$> lastn 5 history) in
  YOLOv8mShelfDetector._calculate_trend lib self n
    = if (length history <? 3)%nat then UNKNOWN
      else if Qltb 0.1 slope then EMPTYING
      else if Qltb slope (-0.1) then FILLING
      else STABLE.
Proof.
  intros Hh. unfold YOLOv8mShelfDetector._calculate_trend. rewrite Hh.
  cbv zeta.
  destruct (length history <? 3)%nat eqn:Hlen; [reflexivity|].
  apply Nat.ltb_ge in Hlen.
  assert (Hrecent : (3 <=? length (YOLOv8mShelfDetector.h_empty_confidence
                                     <$> lastn 5 history))%nat = true).
  { apply Nat.leb_le. rewrite length_fmap, length_lastn. lia. }
  rewrite Hrecent. reflexivity.
Qed.

(** X20: the trend reported by an accepted analysis of
    [YOLOv8mShelfDetector] is UNKNOWN exactly when the section retains
    fewer than three records, the new one included; otherwise it is
    decided by the slope fitted through the confidences of the last five
    records alone: EMPTYING above 0.1, FILLING below -0.1, STABLE in
    between. *)
Theorem X20_yolo8m_trend
    lib self img shelf_name timestamp now self' r
    (Hrej : rejected 50 (Some img) = false)
    (Hrun : YOLOv8mShelfDetector.analyze_shelf_region lib self (Some img)
              shelf_name timestamp now = Some (self', r)) :
  let history :=
    default [] (YOLOv8mShelfDetector.detection_history self'
                  !! shelf_name) in
  let slope :=
    YOLOv8mShelfDetector.polyfit_slope lib
      (YOLOv8mShelfDetector.h_empty_confidence <$> lastn 5 history) in
  (YOLOv8mShelfDetector.r_trend r = UNKNOWN ↔ (length history < 3)%nat) ∧
  ((3 ≤ length history)%nat →
   (YOLOv8mShelfDetector.r_trend r = EMPTYING ↔ 0.1 < slope) ∧
   (YOLOv8mShelfDetector.r_trend r = FILLING ↔ slope < -0.1) ∧
   (YOLOv8mShelfDetector.r_trend r = STABLE ↔
    -0.1 <= slope ∧ slope <= 0.1)).
Proof.
  destruct (yolo8m_accepted_full _ _ _ _ _ _ _ _ Hrej Hrun)
    as (self2 & _ & _ & _ & Hh & Hr).
  cbv zeta in *.
  assert (Htrend : YOLOv8mShelfDetector.r_trend r
                   = YOLOv8mShelfDetector._calculate_trend lib self'
                       shelf_name) by (rewrite Hr; reflexivity).
  match type of Hh with
  | _ = Some ?h => remember h as history eqn:Ehistory
  end.
  clear Ehistory Hr.
  rewrite Htrend, Hh.
  rewrite (yolo8m_trend_of_history lib self' shelf_name _ Hh).
  cbv zeta. change (default [] (Some history)) with history.
  generalize (YOLOv8mShelfDetector.polyfit_slope lib
                (YOLOv8mShelfDetector.h_empty_confidence
                   <$> lastn 5 history)).
  generalize (length history).
  intros len slope.
  destruct (Nat.ltb_spec len 3) as [Hlen|Hlen].
  { split; [split; auto|]. intros. exfalso. lia. }
  split.
  { split; [|intros; exfalso; lia].
    destruct (Qltb 0.1 slope); [discriminate|].
    destruct (Qltb slope (-0.1)); discriminate. }
  intros _.
  destruct (Qltb 0.1 slope) eqn:Hup.
  { apply Qltb_lt in Hup.
    split; [split; auto|].
    split; (split; [discriminate|]); intros; lra. }
  apply Qltb_ge in Hup.
  destruct (Qltb slope (-0.1)) eqn:Hdown.
  { apply Qltb_lt in Hdown.
    split; [split; [discriminate|intros; lra]|].
    split; [split; auto|].
    split; [discriminate|]. intros; lra. }
  apply Qltb_ge in Hdown.
  split; [split; [discriminate|intros; lra]|].
  split; [split; [discriminate|intros; lra]|].
  split; auto.
Qed.

(** X20 on the first look of a fresh detector: one record, trend
    UNKNOWN. *)
Lemma X20_yolo8m_trend_witness :
  ∃ self' r,
    YOLOv8mShelfDetector.analyze_shelf_region yolo8m_sample
      (YOLOv8mShelfDetector.__init__ 0.7 None) (Some bare_region) "shelf"
      (Some 10) 0 = Some (self', r) ∧
    YOLOv8mShelfDetector.r_trend r = UNKNOWN.
Proof.
  eexists _, _.
  assert (Hrun :
    YOLOv8mShelfDetector.analyze_shelf_region yolo8m_sample
      (YOLOv8mShelfDetector.__init__ 0.7 None) (Some bare_region) "shelf"
      (Some 10) 0 = Some _) by (vm_compute; reflexivity).
  split; [exact Hrun|].
  apply (proj1 (X20_yolo8m_trend yolo8m_sample _ bare_region "shelf"
                  (Some 10) 0 _ _ eq_refl Hrun)).
  vm_compute. lia.
Defined.

(** ** EnhancedShelfDetector: the weighted confidence and the alert *)

(** Every field of the result of an accepted analysis of
    [EnhancedShelfDetector], in terms of the instance the call was made
    on. *)
Lemma enhanced_accepted_full perform self img n ts now self' r :
  rejected 30 (Some img) = false →
  EnhancedShelfDetector.analyze_shelf_region perform self (Some img) n ts
    now = Some (self', r) →
  let t := default now ts in
  let c := EnhancedShelfDetector._calculate_enhanced_confidence self
             (perform img) in
  let rec := EnhancedShelfDetector.mkRecord t c.1.2 c.1.1 c.2
               (perform img) in
  let h2 :=
    trim (EnhancedShelfDetector.history_length self)
      (default [] (EnhancedShelfDetector.detection_history self !! n)
         ++ [rec]) in
  ∃ self2,
    EnhancedShelfDetector.alert_cooldown self2
      = cooldown_after_init enhanced_view self n ∧
    EnhancedShelfDetector.cooldown_time self2
      = EnhancedShelfDetector.cooldown_time self ∧
    EnhancedShelfDetector.detection_history self2 !! n = Some h2 ∧
    EnhancedShelfDetector._should_alert self2 n t c.1.2 c.1.1
      (EnhancedShelfDetector._calculate_stability self2 n)
      = Some (self', EnhancedShelfDetector.r_should_alert r) ∧
    r = EnhancedShelfDetector.mkResult c.1.2 c.1.1
          (EnhancedShelfDetector.r_should_alert r)
          (EnhancedShelfDetector._calculate_stability self2 n)
          c.2
          (EnhancedShelfDetector.DetailsAnalysis (perform img))
          (EnhancedShelfDetector.frame_count self + 1)
          t
          (EnhancedShelfDetector.mkScores
             (EnhancedShelfDetector.color_score (perform img))
             (EnhancedShelfDetector.edge_score (perform img))
             (EnhancedShelfDetector.texture_score (perform img))
             (EnhancedShelfDetector.contour_score (perform img))
             (EnhancedShelfDetector.brightness_score (perform img))).
Proof.
  intros Hrej. apply rejected_false in Hrej as [Hsize Hshape].
  unfold EnhancedShelfDetector.analyze_shelf_region.
  rewrite Hsize, Hshape. cbv zeta.
  set (self0 := EnhancedShelfDetector.set_frame_count _ self).
  destruct (enhanced_initialize_history_attrs self0 n)
    as (Hs & Hcap & Hcd & Hfc).
  destruct (enhanced_initialize_history_tables self0 n)
    as (Hlook & _ & Htable).
  rewrite (enhanced_confidence_ext
             (EnhancedShelfDetector.initialize_history self0 n) self)
    by (rewrite Hs; reflexivity).
  destruct (EnhancedShelfDetector._calculate_enhanced_confidence self
              (perform img)) as [[confidence is_empty] visual_state].
  unfold EnhancedShelfDetector.record_detection. rewrite Hlook, Hcap.
  cbn [mbind option_bind mret option_ret fst snd].
  match goal with
  | |- (?X ≫= _) = _ → _ =>
      destruct X as [[self3 fired]|] eqn:Halert;
      cbn [mbind option_bind mret option_ret]; [|discriminate]
  end.
  intros H. inversion H; subst; clear H.
  eexists. split; [|split; [|split; [|split; [exact Halert|]]]].
  - cbn [EnhancedShelfDetector.alert_cooldown
         EnhancedShelfDetector.set_detection_history]. exact Htable.
  - cbn [EnhancedShelfDetector.cooldown_time
         EnhancedShelfDetector.set_detection_history]. exact Hcd.
  - simpl. apply lookup_insert_eq.
  - apply enhanced_should_alert_spec in Halert
      as [[_ ->] | (_ & _ & last & _ & _ & ->)];
      simpl; rewrite ?Hfc; reflexivity.
Qed.


Lemma method_scores_in_range (m : Measurements) :
  0 <= m_color_variance m → 0 <= m_edge_density m →
  0 <= m_texture_energy m → 0 <= m_brightness_std m →
  let a := method_scores_of m in
  (0 <= EnhancedShelfDetector.color_score a <= 1) ∧
  (0 <= EnhancedShelfDetector.edge_score a <= 1) ∧
  (0 <= EnhancedShelfDetector.texture_score a <= 1) ∧
  (0 <= EnhancedShelfDetector.brightness_score a <= 1) ∧
  (0 <= EnhancedShelfDetector.contour_score a <= 1).
Proof.
  intros Hc He Ht Hb. cbv zeta. unfold method_scores_of.
  cbn [EnhancedShelfDetector.color_score EnhancedShelfDetector.edge_score
       EnhancedShelfDetector.texture_score
       EnhancedShelfDetector.brightness_score
       EnhancedShelfDetector.contour_score].
  pose proof (Qnat_nonneg (m_contour_count m)) as Hn.
  assert (H1 : 0 <= m_color_variance m / 200)
    by (apply Qle_shift_div_l; lra).
  assert (H2 : 0 <= m_edge_density m * 1000 / 80)
    by (apply Qle_shift_div_l; lra).
  assert (H3 : 0 <= m_texture_energy m / 0.01)
    by (apply Qle_shift_div_l; lra).
  assert (H4 : 0 <= m_brightness_std m / 15)
    by (apply Qle_shift_div_l; lra).
  assert (H5 : 0 <= Qnat (m_contour_count m) / 5)
    by (apply Qle_shift_div_l; lra).
  repeat split;
    match goal with
    | |- context [Qmin 1 ?x] => case_min 1 x; lra
    end.
Qed.

(** X22: the range of the confidence of [EnhancedShelfDetector] on
    measured scores.  With non-negative measurements the five scores of
    [_perform_enhanced_analysis] lie in [[0, 1]]; with a sensitivity of
    at most 2 an empty verdict then has confidence at most 1, and a
    stocked verdict has confidence at most [2 - sensitivity], which
    exceeds 1 for every sensitivity below 1. *)
Theorem X22_enhanced_confidence_range
    (self : EnhancedShelfDetector.Detector) (m : Measurements)
    (Hcolor : 0 <= m_color_variance m)
    (Hedge : 0 <= m_edge_density m)
    (Htexture : 0 <= m_texture_energy m)
    (Hbrightness : 0 <= m_brightness_std m)
    (Hs : EnhancedShelfDetector.sensitivity self <= 2) :
  let c := EnhancedShelfDetector._calculate_enhanced_confidence self
             (method_scores_of m) in
  (c.1.2 = true → c.1.1 <= 1) ∧
  (c.1.2 = false →
   c.1.1 <= 2 - EnhancedShelfDetector.sensitivity self) ∧
  (c.1.2 = false → 1 <= EnhancedShelfDetector.sensitivity self →
   c.1.1 <= 1).
Proof.
  destruct (method_scores_in_range m Hcolor Hedge Htexture Hbrightness)
    as (H1 & H2 & H3 & H4 & H5).
  cbv zeta in *.
  unfold EnhancedShelfDetector._calculate_enhanced_confidence.
  cbv zeta. cbn [fst snd].
  set (s := EnhancedShelfDetector.sensitivity self) in *.
  generalize dependent (method_scores_of m). intros a H1 H2 H3 H4 H5.
  set (w := 0.25 * EnhancedShelfDetector.color_score a
            + 0.30 * EnhancedShelfDetector.edge_score a
            + 0.20 * EnhancedShelfDetector.texture_score a
            + 0.15 * EnhancedShelfDetector.brightness_score a
            + 0.10 * EnhancedShelfDetector.contour_score a).
  assert (Hw : 0 <= w <= 1) by (subst w; split; lra).
  clearbody w.
  destruct (Qltb (w * (2 - s)) 0.5) eqn:Hempty.
  - split; [intros _; nra|]. split; discriminate.
  - split; [discriminate|]. split; intros; nra.
Qed.

(** X22 on a region whose measurements all vanish: the verdict is empty
    with confidence 1. *)
Lemma X22_enhanced_confidence_range_witness :
  let self := EnhancedShelfDetector.__init__ 0.7 in
  let m := mkMeasurements 0 0 0 0 0 in
  let c := EnhancedShelfDetector._calculate_enhanced_confidence self
             (method_scores_of m) in
  c.1.2 = true ∧ c.1.1 <= 1.
Proof.
  cbv zeta. split; [reflexivity|].
  refine (proj1 (X22_enhanced_confidence_range
                   (EnhancedShelfDetector.__init__ 0.7)
                   (mkMeasurements 0 0 0 0 0) _ _ _ _ _) eq_refl);
    vm_compute; discriminate.
Defined.

(** X23: in [EnhancedShelfDetector] the sensitivity moves the verdict.
    With non-negative scores and the sensitivity raised from [s1] to
    [s2 <= 2], an empty verdict stays empty and its confidence does not
    drop; a verdict that stays stocked does not gain confidence. *)
Theorem X23_enhanced_sensitivity_monotone
    (self : EnhancedShelfDetector.Detector)
    (analysis : EnhancedShelfDetector.Analysis) (s1 s2 : Q)
    (Hle : s1 <= s2) (Hmax : s2 <= 2)
    (Hcolor : 0 <= EnhancedShelfDetector.color_score analysis)
    (Hedge : 0 <= EnhancedShelfDetector.edge_score analysis)
    (Htexture : 0 <= EnhancedShelfDetector.texture_score analysis)
    (Hbrightness : 0 <= EnhancedShelfDetector.brightness_score analysis)
    (Hcontour : 0 <= EnhancedShelfDetector.contour_score analysis) :
  let c1 := EnhancedShelfDetector._calculate_enhanced_confidence
              (EnhancedShelfDetector.set_sensitivity s1 self) analysis in
  let c2 := EnhancedShelfDetector._calculate_enhanced_confidence
              (EnhancedShelfDetector.set_sensitivity s2 self) analysis in
  (c1.1.2 = true → c2.1.2 = true ∧ c1.1.1 <= c2.1.1) ∧
  (c2.1.2 = false → c1.1.2 = false ∧ c2.1.1 <= c1.1.1).
Proof.
  cbv zeta.
  unfold EnhancedShelfDetector._calculate_enhanced_confidence.
  cbv zeta.
  cbn [fst snd EnhancedShelfDetector.sensitivity
       EnhancedShelfDetector.set_sensitivity].
  set (w := 0.25 * EnhancedShelfDetector.color_score analysis
            + 0.30 * EnhancedShelfDetector.edge_score analysis
            + 0.20 * EnhancedShelfDetector.texture_score analysis
            + 0.15 * EnhancedShelfDetector.brightness_score analysis
            + 0.10 * EnhancedShelfDetector.contour_score analysis).
  assert (Hw : 0 <= w) by (subst w; lra).
  clearbody w.
  destruct (Qltb (w * (2 - s1)) 0.5) eqn:H1;
    destruct (Qltb (w * (2 - s2)) 0.5) eqn:H2;
    try apply Qltb_lt in H1; try apply Qltb_ge in H1;
    try apply Qltb_lt in H2; try apply Qltb_ge in H2.
  - split; [intros _; split; [reflexivity|nra]|discriminate].
  - exfalso. nra.
  - split; [discriminate|discriminate].
  - split; [discriminate|]. intros _. split; [reflexivity|nra].
Qed.

(** X23 between the sensitivities 0.3 and 0.9 on scores of 0.4
    throughout: stocked at 0.3, empty at 0.9. *)
Lemma X23_enhanced_sensitivity_monotone_witness :
  let self := EnhancedShelfDetector.__init__ 0.7 in
  let analysis := EnhancedShelfDetector.mkAnalysis 0.4 0.4 0.4 0.4 0.4 in
  let c1 := EnhancedShelfDetector._calculate_enhanced_confidence
              (EnhancedShelfDetector.set_sensitivity 0.3 self) analysis in
  let c2 := EnhancedShelfDetector._calculate_enhanced_confidence
              (EnhancedShelfDetector.set_sensitivity 0.9 self) analysis in
  c2.1.2 = true ∧ c1.1.2 = false ∧
  (c1.1.2 = true → c2.1.2 = true ∧ c1.1.1 <= c2.1.1).
Proof.
  cbv zeta. split; [reflexivity|]. split; [reflexivity|].
  refine (proj1 (X23_enhanced_sensitivity_monotone
                   (EnhancedShelfDetector.__init__ 0.7)
                   (EnhancedShelfDetector.mkAnalysis 0.4 0.4 0.4 0.4 0.4)
                   0.3 0.9 _ _ _ _ _ _ _));
    vm_compute; discriminate.
Defined.

(** X24: an accepted analysis of [EnhancedShelfDetector] alerts exactly
    when the verdict is empty, its confidence is at least 0.6, the
    stability score is at least 3 and the time since the section's
    stored alert time is at least [cooldown_time]. *)
Theorem X24_enhanced_alert_decision
    perform self img shelf_name timestamp now self' r last_alert
    (Hrej : rejected 30 (Some img) = false)
    (Hlast : cooldown_after_init enhanced_view self shelf_name
               !! shelf_name = Some last_alert)
    (Hrun : EnhancedShelfDetector.analyze_shelf_region perform self
              (Some img) shelf_name timestamp now = Some (self', r)) :
  EnhancedShelfDetector.r_should_alert r = true ↔
  EnhancedShelfDetector.r_is_empty r = true ∧
  0.6 <= EnhancedShelfDetector.r_confidence r ∧
  (3 ≤ EnhancedShelfDetector.r_stability r)%nat ∧
  EnhancedShelfDetector.cooldown_time self
    <= default now timestamp - last_alert.
Proof.
  destruct (enhanced_accepted_full _ _ _ _ _ _ _ _ Hrej Hrun)
    as (self2 & Hcool & Hcd & _ & Halert & Hr).
  cbv zeta in *.
  destruct (EnhancedShelfDetector._calculate_enhanced_confidence self
              (perform img)) as [[confidence is_empty] visual_state].
  cbn [fst snd] in *.
  set (stability := EnhancedShelfDetector._calculate_stability self2
                      shelf_name) in *.
  assert (Hfields :
    EnhancedShelfDetector.r_is_empty r = is_empty ∧
    EnhancedShelfDetector.r_confidence r = confidence ∧
    EnhancedShelfDetector.r_stability r = stability).
  { rewrite Hr. repeat split; reflexivity. }
  destruct Hfields as (-> & -> & ->).
  revert Halert. generalize (EnhancedShelfDetector.r_should_alert r).
  clearbody stability. clear Hr.
  intros fired Halert.
  unfold EnhancedShelfDetector._should_alert in Halert.
  rewrite Hcool, Hlast, Hcd in Halert.
  destruct is_empty; simpl in Halert.
  2:{ inversion Halert; subst. split; [discriminate|].
      intros [? _]. discriminate. }
  destruct (Qltb confidence 0.6) eqn:Hconf.
  { apply Qltb_lt in Hconf. inversion Halert; subst.
    split; [discriminate|]. intros (_ & ? & _). lra. }
  apply Qltb_ge in Hconf.
  destruct (stability <? 3)%nat eqn:Hstab.
  { apply Nat.ltb_lt in Hstab. inversion Halert; subst.
    split; [discriminate|]. intros (_ & _ & ? & _). lia. }
  apply Nat.ltb_ge in Hstab. simpl in Halert.
  destruct (Qltb _ (EnhancedShelfDetector.cooldown_time self)) eqn:Hgap;
    inversion Halert; subst.
  - apply Qltb_lt in Hgap. split; [discriminate|].
    intros (_ & _ & _ & Hle). exfalso. exact (Qlt_not_le _ _ Hgap Hle).
  - apply Qltb_ge in Hgap. split; auto.
Qed.

(** X24 on the third look at a bare shelf, two seconds or more after
    time 0: it alerts. *)
Lemma X24_enhanced_alert_decision_witness :
  let rec t := EnhancedShelfDetector.mkRecord t true 1
                 EnhancedShelfDetector.empty_high
                 (EnhancedShelfDetector.mkAnalysis 0 0 0 0 0) in
  let self :=
    EnhancedShelfDetector.mkDetector 0.7
      {[ "shelf" := [rec 8; rec 9] ]} {[ "shelf" := 0 ]} 2 8 2 in
  rejected 30 (Some bare_region) = false ∧
  cooldown_after_init enhanced_view self "shelf" !! "shelf" = Some 0 ∧
  ∃ self' r,
    EnhancedShelfDetector.analyze_shelf_region enhanced_sample self
      (Some bare_region) "shelf" (Some 10) 0 = Some (self', r) ∧
    EnhancedShelfDetector.r_should_alert r = true.
Proof.
  cbv zeta.
  match goal with
  | |- _ ∧ cooldown_after_init _ ?s _ !! _ = _ ∧ _ => set (self := s)
  end.
  split; [reflexivity|].
  assert (Hlast : cooldown_after_init enhanced_view self "shelf" !! "shelf"
                  = Some 0) by (vm_compute; reflexivity).
  split; [exact Hlast|].
  eexists _, _.
  assert (Hrun :
    EnhancedShelfDetector.analyze_shelf_region enhanced_sample self
      (Some bare_region) "shelf" (Some 10) 0 = Some _)
    by (vm_compute; reflexivity).
  split; [exact Hrun|].
  apply (proj2 (X24_enhanced_alert_decision enhanced_sample self
                  bare_region "shelf" (Some 10) 0 _ _ 0 eq_refl Hlast
                  Hrun)).
  split; [reflexivity|]. split; [vm_compute; discriminate|].
  split; [vm_compute; lia|]. vm_compute. discriminate.
Defined.

(** ** ImprovedYOLODetector: the visual feedback of a result *)

(** The three level and state pairs of an empty verdict, with the
    confidence band of each. *)
Lemma improved_bands_of_empty (confidence : Q) :
  0.65 <= confidence →
  let level := ImprovedYOLODetector._determine_alert_level confidence true in
  let state := _determine_visual_state confidence true in
  (level = CRITICAL ∧ state = CRITICALLY_EMPTY ∧ 0.85 <= confidence) ∨
  (level = HIGH ∧ state = MOSTLY_EMPTY ∧ 0.70 <= confidence) ∨
  (level = MEDIUM ∧ state = PARTIALLY_EMPTY ∧ confidence < 0.70).
Proof.
  intros Hfloor.
  unfold ImprovedYOLODetector._determine_alert_level,
    _determine_visual_state. simpl.
  destruct (Qleb 0.85 confidence) eqn:H85.
  { apply Qleb_le in H85. auto. }
  destruct (Qleb 0.70 confidence) eqn:H70.
  { apply Qleb_le in H70. auto. }
  apply Qleb_gt in H70.
  destruct (Qleb 0.55 confidence) eqn:H55; [auto 10|].
  apply Qleb_gt in H55. lra.
Qed.

(** X25: the [visual_feedback] entry of a result of
    [ImprovedYOLODetector], which is [_get_visual_feedback_data] at the
    result's visual state and alert level.  With a non-negative
    sensitivity, the frame pulses exactly when the sound plays, which is
    exactly for an empty verdict of confidence at least 0.70; the line
    thickness and the priority always add up to 7; and a stocked verdict,
    whose level NONE is no key of [alert_levels], is shown in green with
    the duration and priority of the LOW entry. *)
Theorem X25_improved_feedback
    perform self roi shelf_name timestamp now self' r
    (Hs : 0 <= ImprovedYOLODetector.sensitivity self)
    (Hrun : ImprovedYOLODetector.analyze_shelf_region perform self roi
              shelf_name timestamp now = Some (self', r)) :
  let f := _get_visual_feedback_data
             (ImprovedYOLODetector.r_visual_state r)
             (ImprovedYOLODetector.r_alert_level r) in
  fb_should_pulse f = fb_play_sound f ∧
  (fb_should_pulse f = true ↔
   ImprovedYOLODetector.r_is_empty r = true ∧
   0.70 <= ImprovedYOLODetector.r_confidence r) ∧
  (fb_thickness f + fb_priority f = 7)%nat ∧
  (ImprovedYOLODetector.r_is_empty r = false →
   fb_color f = (0, 255, 0)%nat ∧
   fb_alert_duration f = 2000%nat ∧
   fb_priority f = 4%nat).
Proof.
  cbv zeta.
  destruct (rejected 50 roi) eqn:Hrej.
  - destruct (improved_rejected perform self roi shelf_name timestamp now
                Hrej) as [msg Hmsg].
    rewrite Hmsg in Hrun. inversion Hrun; subst. simpl.
    split; [reflexivity|]. split; [split; [intros _; split; [auto|lra]|auto]|].
    split; [reflexivity|discriminate].
  - destruct roi as [img|]; [|discriminate].
    destruct (improved_accepted_full _ _ _ _ _ _ _ _ Hrej Hrun)
      as (self2 & _ & _ & _ & _ & _ & ->).
    cbn [ImprovedYOLODetector.r_is_empty ImprovedYOLODetector.r_confidence
         ImprovedYOLODetector.r_alert_level
         ImprovedYOLODetector.r_visual_state].
    set (c := ImprovedYOLODetector._calculate_improved_confidence self
                (perform img)).
    destruct (ImprovedYOLODetector.c_is_empty c) eqn:Hempty.
    + pose proof (improved_empty_floor self (perform img) Hs Hempty)
        as Hfloor.
      fold c in Hfloor.
      destruct (improved_bands_of_empty _ Hfloor)
        as [(-> & -> & Hband) | [(-> & -> & Hband) | (-> & -> & Hband)]];
        simpl.
      * split; [reflexivity|].
        split; [split; [intros _; split; [auto|lra]|auto]|].
        split; [reflexivity|discriminate].
      * split; [reflexivity|].
        split; [split; [intros _; split; [auto|lra]|auto]|].
        split; [reflexivity|discriminate].
      * split; [reflexivity|].
        split; [split; [discriminate|intros [_ ?]; lra]|].
        split; [reflexivity|discriminate].
    + simpl. split; [reflexivity|].
      split; [split; [discriminate|intros [? _]; discriminate]|].
      split; [reflexivity|]. intros _. repeat split; reflexivity.
Qed.

(** X25 on a busy region given to a fresh detector: stocked, shown in
    green, silent. *)
Lemma X25_improved_feedback_witness :
  ∃ self' r,
    ImprovedYOLODetector.analyze_shelf_region improved_sample
      (ImprovedYOLODetector.__init__ 0.7) (Some busy_region) "shelf"
      (Some 10) 0 = Some (self', r) ∧
    let f := _get_visual_feedback_data
               (ImprovedYOLODetector.r_visual_state r)
               (ImprovedYOLODetector.r_alert_level r) in
    fb_color f = (0, 255, 0)%nat ∧ fb_priority f = 4%nat.
Proof.
  eexists _, _.
  assert (Hrun :
    ImprovedYOLODetector.analyze_shelf_region improved_sample
      (ImprovedYOLODetector.__init__ 0.7) (Some busy_region) "shelf"
      (Some 10) 0 = Some _) by (vm_compute; reflexivity).
  assert (Hs : 0 <= ImprovedYOLODetector.sensitivity
                      (ImprovedYOLODetector.__init__ 0.7))
    by (vm_compute; discriminate).
  split; [exact Hrun|].
  destruct (X25_improved_feedback _ _ _ _ _ _ _ _ Hs Hrun)
    as (_ & _ & _ & Hstocked).
  destruct (Hstocked eq_refl) as (Hcolor & _ & Hpriority).
  split; [exact Hcolor|exact Hpriority].
Defined.

(** ** Over whole runs: the stored sensitivity *)

Lemma last_update_analyze roi shelf_name timestamp now (rest : list Call) :
  last_update (Analyze roi shelf_name timestamp now :: rest)
    = last_update rest.
Proof. reflexivity. Qed.

Lemma last_update_update (v : Q) (rest : list Call) :
  last_update (UpdateSensitivity v :: rest)
    = Some (default v (last_update rest)).
Proof.
  unfold last_update.
  change (omap ?f (UpdateSensitivity v :: rest)) with (v :: omap f rest).
  destruct (omap _ rest) as [|v' vs]; [reflexivity|].
  rewrite last_cons.
  destruct (last (v' :: vs)) eqn:Hl; [reflexivity|].
  apply last_None in Hl. discriminate.
Qed.

Section RunSensitivity.

Context {D R : Type}.
Variable sens : D → Q.
Variable stored : Q → Q.
Variable analyze :
  D → option Image → string → option Q → Q → option (D * R).
Variable update : D → Q → D.

Hypothesis analyze_keeps :
  ∀ self roi shelf_name timestamp now self' result,
    analyze self roi shelf_name timestamp now = Some (self', result) →
    sens self' = sens self.

Hypothesis update_stores : ∀ self v, sens (update self v) = stored v.

Lemma run_sensitivity calls : ∀ self self' log,
  run analyze update self calls = Some (self', log) →
  sens self' = from_option stored (sens self) (last_update calls).
Proof.
  induction calls as [|call rest IH]; intros self self' log Hrun.
  - inversion Hrun; subst. reflexivity.
  - simpl in Hrun.
    destruct (step analyze update self call) as [[self1 out]|] eqn:Hstep;
      simpl in Hrun; [|discriminate].
    destruct (run analyze update self1 rest) as [[self2 log2]|] eqn:Hrest;
      simpl in Hrun; [|discriminate].
    inversion Hrun; subst; clear Hrun.
    rewrite (IH _ _ _ Hrest).
    destruct call as [roi n ts now|v]; simpl in Hstep.
    + destruct (analyze self roi n ts now) as [[self3 result]|] eqn:Ha;
        simpl in Hstep; [|discriminate].
      inversion Hstep; subst; clear Hstep.
      rewrite last_update_analyze, (analyze_keeps _ _ _ _ _ _ _ Ha).
      reflexivity.
    + inversion Hstep; subst; clear Hstep.
      rewrite last_update_update, update_stores.
      destruct (last_update rest); reflexivity.
Qed.

End RunSensitivity.

Lemma improved_keeps_sensitivity perform self roi n ts now self' r :
  ImprovedYOLODetector.analyze_shelf_region perform self roi n ts now
    = Some (self', r) →
  ImprovedYOLODetector.sensitivity self'
    = ImprovedYOLODetector.sensitivity self.
Proof.
  intros Hrun. destruct (rejected 50 roi) eqn:Hrej.
  - rewrite (improved_rejected_same _ _ _ _ _ _ _ _ Hrun Hrej).
    reflexivity.
  - destruct roi as [img|]; [|discriminate].
    exact (proj2 (improved_reads_sensitivity _ _ _ _ _ _ _ _ Hrej Hrun)).
Qed.

Lemma yolo8m_keeps_sensitivity lib self roi n ts now self' r :
  YOLOv8mShelfDetector.analyze_shelf_region lib self roi n ts now
    = Some (self', r) →
  YOLOv8mShelfDetector.sensitivity self'
    = YOLOv8mShelfDetector.sensitivity self.
Proof.
  intros Hrun. destruct (rejected 50 roi) eqn:Hrej.
  - rewrite (yolo8m_rejected_same _ _ _ _ _ _ _ _ Hrun Hrej).
    reflexivity.
  - destruct roi as [img|]; [|discriminate].
    exact (proj2 (yolo8m_reads_sensitivity _ _ _ _ _ _ _ _ Hrej Hrun)).
Qed.

Lemma enhanced_keeps_sensitivity perform self roi n ts now self' r :
  EnhancedShelfDetector.analyze_shelf_region perform self roi n ts now
    = Some (self', r) →
  EnhancedShelfDetector.sensitivity self'
    = EnhancedShelfDetector.sensitivity self.
Proof.
  intros Hrun. destruct (rejected 30 roi) eqn:Hrej.
  - rewrite (enhanced_rejected_same _ _ _ _ _ _ _ _ Hrun Hrej).
    reflexivity.
  - destruct roi as [img|]; [|discriminate].
    exact (proj2 (enhanced_reads_sensitivity _ _ _ _ _ _ _ _ Hrej Hrun)).
Qed.

(** X26: only [update_sensitivity] writes the sensitivity.  After any
    sequence of calls the stored sensitivity is the clamped argument of
    the last [update_sensitivity] call of the sequence (clamped to
    [[0.1, 1.0]], and to [[0.1, 0.9]] in [YOLOv8mShelfDetector]), or the
    value the instance started with when there was no such call; the
    value given to the constructor is never clamped. *)
Theorem X26_sensitivity_over_runs (calls : list Call) :
  (∀ perform self self' log,
     run (ImprovedYOLODetector.analyze_shelf_region perform)
         ImprovedYOLODetector.update_sensitivity self calls
       = Some (self', log) →
     ImprovedYOLODetector.sensitivity self'
       = from_option (λ v, Qmax 0.1 (Qmin 1 v))
           (ImprovedYOLODetector.sensitivity self) (last_update calls)) ∧
  (∀ lib self self' log,
     run (YOLOv8mShelfDetector.analyze_shelf_region lib)
         YOLOv8mShelfDetector.update_sensitivity self calls
       = Some (self', log) →
     YOLOv8mShelfDetector.sensitivity self'
       = from_option (λ v, Qmax 0.1 (Qmin 0.9 v))
           (YOLOv8mShelfDetector.sensitivity self) (last_update calls)) ∧
  (∀ perform self self' log,
     run (EnhancedShelfDetector.analyze_shelf_region perform)
         EnhancedShelfDetector.update_sensitivity self calls
       = Some (self', log) →
     EnhancedShelfDetector.sensitivity self'
       = from_option (λ v, Qmax 0.1 (Qmin 1 v))
           (EnhancedShelfDetector.sensitivity self) (last_update calls)).
Proof.
  split; [|split].
  - intros perform self self' log.
    apply (run_sensitivity ImprovedYOLODetector.sensitivity
             (λ v, Qmax 0.1 (Qmin 1 v))
             (ImprovedYOLODetector.analyze_shelf_region perform) _
             (improved_keeps_sensitivity perform)).
    reflexivity.
  - intros lib self self' log.
    apply (run_sensitivity YOLOv8mShelfDetector.sensitivity
             (λ v, Qmax 0.1 (Qmin 0.9 v))
             (YOLOv8mShelfDetector.analyze_shelf_region lib) _
             (yolo8m_keeps_sensitivity lib)).
    reflexivity.
  - intros perform self self' log.
    apply (run_sensitivity EnhancedShelfDetector.sensitivity
             (λ v, Qmax 0.1 (Qmin 1 v))
             (EnhancedShelfDetector.analyze_shelf_region perform) _
             (enhanced_keeps_sensitivity perform)).
    reflexivity.
Qed.

(** X26 on a detector built with sensitivity 5: the value survives an
    analysis unclamped, and two updates later the last one, 0.05, is
    stored as 0.1. *)
Lemma X26_sensitivity_over_runs_witness :
  (∃ self' log,
     run (EnhancedShelfDetector.analyze_shelf_region enhanced_sample)
         EnhancedShelfDetector.update_sensitivity
         (EnhancedShelfDetector.__init__ 5)
         [Analyze (Some bare_region) "shelf" (Some 1) 0]
       = Some (self', log) ∧
     EnhancedShelfDetector.sensitivity self' = 5) ∧
  (∃ self' log,
     run (EnhancedShelfDetector.analyze_shelf_region enhanced_sample)
         EnhancedShelfDetector.update_sensitivity
         (EnhancedShelfDetector.__init__ 5)
         [UpdateSensitivity 0.8;
          Analyze (Some bare_region) "shelf" (Some 1) 0;
          UpdateSensitivity 0.05;
          Analyze (Some bare_region) "shelf" (Some 2) 0]
       = Some (self', log) ∧
     EnhancedShelfDetector.sensitivity self' = 0.1).
Proof.
  split.
  - eexists _, _.
    match goal with
    | |- ?r = _ ∧ _ => assert (Hrun : r = Some _) by (vm_compute; reflexivity)
    end.
    split; [exact Hrun|].
    exact (proj2 (proj2 (X26_sensitivity_over_runs _)) _ _ _ _ Hrun).
  - eexists _, _.
    match goal with
    | |- ?r = _ ∧ _ => assert (Hrun : r = Some _) by (vm_compute; reflexivity)
    end.
    split; [exact Hrun|].
    exact (proj2 (proj2 (X26_sensitivity_over_runs _)) _ _ _ _ Hrun).
Defined.

(** ** YOLOv8mShelfDetector: the products an analysis reports *)

(** X27: the [yolo_products] of an accepted analysis of
    [YOLOv8mShelfDetector] are the products kept by the YOLO pass on the
    same region, and the newest record stores the same list (it is
    retained when [history_length] is at least 1); each of them has a lower-cased label in [product_classes] and a confidence
    above the threshold.  Without a loaded model the list is empty, the
    YOLO score is 0 and the verdict is empty exactly when at least two
    primary or supermarket indicators hold. *)
Theorem X27_yolo8m_reported_products
    lib self img shelf_name timestamp now self' r
    (Hrej : rejected 50 (Some img) = false)
    (Hcap : (1 ≤ YOLOv8mShelfDetector.history_length self)%nat)
    (Hrun : YOLOv8mShelfDetector.analyze_shelf_region lib self (Some img)
              shelf_name timestamp now = Some (self', r)) :
  YOLOv8mShelfDetector.r_yolo_products r
    = YOLOv8mShelfDetector.products_detected
        (YOLOv8mShelfDetector._perform_yolo_detection self img) ∧
  (YOLOv8mShelfDetector.h_yolo_products
     <$> last (default [] (YOLOv8mShelfDetector.detection_history self'
                             !! shelf_name))
   = Some (YOLOv8mShelfDetector.r_yolo_products r)) ∧
  (∀ p, p ∈ YOLOv8mShelfDetector.r_yolo_products r →
     lower (YOLOv8mShelfDetector.p_class p)
       ∈ YOLOv8mShelfDetector.product_classes self ∧
     YOLOv8mShelfDetector.yolo_confidence_threshold
       (YOLOv8mShelfDetector.detection_params self)
       < YOLOv8mShelfDetector.p_confidence p) ∧
  (YOLOv8mShelfDetector.yolo_model self = None →
   YOLOv8mShelfDetector.r_yolo_products r = [] ∧
   (YOLOv8mShelfDetector.yolo_detection
      <$> YOLOv8mShelfDetector.r_method_scores r) = Some 0 ∧
   ∃ c, c = YOLOv8mShelfDetector._calculate_yolo_enhanced_confidence self
              (YOLOv8mShelfDetector._perform_yolo_enhanced_analysis lib
                 self img) ∧
        YOLOv8mShelfDetector.r_is_empty r
          = (2 <=? YOLOv8mShelfDetector.c_empty_indicators c)%nat).
Proof.
  destruct (yolo8m_accepted_full _ _ _ _ _ _ _ _ Hrej Hrun)
    as (self2 & _ & _ & _ & Hh & Hr).
  cbv zeta in *.
  set (a := YOLOv8mShelfDetector._perform_yolo_enhanced_analysis lib self
              img) in *.
  assert (Hyolo : YOLOv8mShelfDetector.yolo a
                  = YOLOv8mShelfDetector._perform_yolo_detection self img)
    by reflexivity.
  assert (Hproducts :
    YOLOv8mShelfDetector.r_yolo_products r
    = YOLOv8mShelfDetector.products_detected
        (YOLOv8mShelfDetector._perform_yolo_detection self img)).
  { rewrite Hr. cbn [YOLOv8mShelfDetector.r_yolo_products].
    rewrite Hyolo. reflexivity. }
  split; [exact Hproducts|]. split; [|split].
  - rewrite Hh. cbn [default from_option id].
    rewrite (trim_snoc_nonempty _ _ _ Hcap). cbn [fmap option_fmap option_map
                            YOLOv8mShelfDetector.h_yolo_products].
    rewrite Hproducts, Hyolo. reflexivity.
  - intros p Hp. rewrite Hproducts in Hp.
    destruct (yolo_detection_products _ _ _ Hp)
      as (Hclass & Hconf & _).
    split; assumption.
  - intros Hnone.
    assert (Hoff : YOLOv8mShelfDetector._perform_yolo_detection self img
                   = YOLOv8mShelfDetector.yolo_unavailable).
    { unfold YOLOv8mShelfDetector._perform_yolo_detection.
      rewrite Hnone. reflexivity. }
    split; [rewrite Hproducts, Hoff; reflexivity|].
    destruct (yolo8m_confidence_by_count self a)
      as (_ & _ & _ & _ & _ & He & _).
    cbv zeta in He. rewrite Hyolo, Hoff in He.
    cbn [YOLOv8mShelfDetector.yolo_available
         YOLOv8mShelfDetector.yolo_unavailable] in He.
    split.
    + rewrite Hr.
      cbn [YOLOv8mShelfDetector.r_method_scores fmap option_fmap
           option_map].
      unfold YOLOv8mShelfDetector._calculate_yolo_enhanced_confidence.
      cbv zeta.
      match goal with
      | |- context [let '(_, _) := ?X in _] => destruct X as [base b]
      end.
      cbn [YOLOv8mShelfDetector.c_method_scores
           YOLOv8mShelfDetector.yolo_detection].
      rewrite Hyolo, Hoff. reflexivity.
    + eexists. split; [reflexivity|].
      rewrite Hr. cbn [YOLOv8mShelfDetector.r_is_empty]. exact He.
Qed.

(** X27 with a model that reports a bottle, a person and a hesitant cup:
    one product is reported, the bottle. *)
Lemma X27_yolo8m_reported_products_witness :
  ∃ self' r,
    YOLOv8mShelfDetector.analyze_shelf_region yolo8m_sample
      (YOLOv8mShelfDetector.__init__ 0.7 (Some shelf_model))
      (Some busy_region) "shelf" (Some 10) 0 = Some (self', r) ∧
    (YOLOv8mShelfDetector.p_class <$> YOLOv8mShelfDetector.r_yolo_products r)
      = ["bottle"] ∧
    ∀ p, p ∈ YOLOv8mShelfDetector.r_yolo_products r →
      lower (YOLOv8mShelfDetector.p_class p)
        ∈ YOLOv8mShelfDetector.product_classes
            (YOLOv8mShelfDetector.__init__ 0.7 (Some shelf_model)) ∧
      YOLOv8mShelfDetector.yolo_confidence_threshold
        (YOLOv8mShelfDetector.detection_params
           (YOLOv8mShelfDetector.__init__ 0.7 (Some shelf_model)))
        < YOLOv8mShelfDetector.p_confidence p.
Proof.
  eexists _, _.
  assert (Hrun :
    YOLOv8mShelfDetector.analyze_shelf_region yolo8m_sample
      (YOLOv8mShelfDetector.__init__ 0.7 (Some shelf_model))
      (Some busy_region) "shelf" (Some 10) 0 = Some _)
    by (vm_compute; reflexivity).
  assert (Hcap : (1 ≤ YOLOv8mShelfDetector.history_length
                        (YOLOv8mShelfDetector.__init__ 0.7
                           (Some shelf_model)))%nat)
    by (vm_compute; lia).
  split; [exact Hrun|]. split; [vm_compute; reflexivity|].
  exact (proj1 (proj2 (proj2
           (X27_yolo8m_reported_products yolo8m_sample _ busy_region
              "shelf" (Some 10) 0 _ _ eq_refl Hcap Hrun)))).
Defined.
